(** * Forex Trading Assistant: trade recorder, analytics and risk monitor

    A shallow embedding of [server/main.py] (the four FastMCP tools
    [save_trade], [log_trade_result], [get_trade_insights] and
    [check_risk_alerts]) over a model of the SQLite ledger they talk to.

    Conventions of the embedding.
    - Python [float] values (prices, lot sizes, balances, profit and loss)
      are exact rationals [Q], the values of the binary64 numbers; Python
      [int] values and SQLite row ids are [Z]. Sums and products of the
      tools are taken exactly, and every concrete evaluation of them below
      uses values on which binary64 arithmetic is exact as well. The
      risk:reward ratio is stored as a text of two decimals, which depend
      on how its quotient is rounded: its subtractions and its division
      are the binary64 operations, rounded to nearest, ties to even, with
      their overflow to infinity.
    - sqlite3 binds a Python [int] as a signed 64-bit integer and raises
      [OverflowError] on any other. The tools are modelled on the integers
      it binds; a property stated for every trade id or every limit of a
      query names that range.
    - A table is the list of its rows in rowid order.
    - A tool runs inside one [aiosqlite] connection: statements act on the
      connection's view of the ledger, [commit] makes the view durable, and
      leaving the [async with] block drops whatever was not committed.
    - A tool either returns a payload or raises; a raised exception is what
      the caller of the tool sees as a failed call. sqlite3 raises when the
      parameters of a statement do not match its placeholders, and the
      storage layer may fail on a statement; a run is given the fault, if
      any, it will meet, and [None] is a run on a healthy store.
    - Timestamps are seconds on the wall clock; the tools that insert rows
      take the current time as [now]. *)

From Stdlib Require Import List String Ascii ZArith QArith Qabs Qround.
From Stdlib Require Import Lia Lqa Bool Sorted Permutation DecimalString.
Import ListNotations.

Set Implicit Arguments.
Open Scope Q_scope.

(** ** Python values *)

Module Py.

(** Truth value of a float: everything but zero. *)
Definition truthy (x : Q) : bool := negb (Qeq_bool x 0).

(** Truth value of [float | None]. *)
Definition truthy_opt (x : option Q) : bool :=
  match x with
  | Some v => truthy v
  | None => false
  end.

(** Truth value of [str | None]: [None] and the empty string are false. *)
Definition truthy_str (x : option string) : bool :=
  match x with
  | Some s => negb (String.eqb s "")
  | None => false
  end.

Definition ltb (x y : Q) : bool := negb (Qle_bool y x).
Definition leb (x y : Q) : bool := Qle_bool x y.

(** [x or 0] for a nullable number. *)
Definition or0 (x : option Q) : Q :=
  match x with
  | Some v => if truthy v then v else 0
  | None => 0
  end.

(** Nearest integer, ties to the even neighbour. *)
Definition round_half_even (x : Q) : Z :=
  let f := Qfloor x in
  match Qcompare (x - inject_Z f) (1 # 2) with
  | Lt => f
  | Gt => (f + 1)%Z
  | Eq => if Z.even f then f else (f + 1)%Z
  end.

(** [round(x, 2)]. *)
Definition round2 (x : Q) : Q := inject_Z (round_half_even (x * 100)) / 100.

Definition str_of_Z (n : Z) : string := NilZero.string_of_int (Z.to_int n).

Definition two_digits (n : Z) : string :=
  ((if (n <? 10)%Z then "0" else "") ++ str_of_Z n)%string.

(** [f"{x:.2f}"] on the value of a float: sign, integer part, point, two
    decimals, the decimals of the value rounded half to even. A negative
    zero, which prints as [-0.00], is no rational. *)
Definition format_2f (x : Q) : string :=
  let n := round_half_even (Qabs x * 100) in
  ((if ltb x 0 then "-" else "")
     ++ str_of_Z (n / 100) ++ "." ++ two_digits (n mod 100))%string.

(** *** binary64 arithmetic *)

(** The result of an operation on floats. *)
Inductive Float :=
| Finite (x : Q)
| PosInf
| NegInf
| NaN.

(** [floor (log2 a)] for a positive rational. *)
Definition ilog2 (a : Q) : Z :=
  let k := (Z.log2 (Qnum a) - Z.log2 (Zpos (Qden a)))%Z in
  if Qle_bool (2 ^ k) a then k else (k - 1)%Z.

(** The number nearest to a positive rational among those with a
    significand of 53 bits and an exponent not below the one of the
    subnormal numbers; ties go to the even significand. *)
Definition nearest (a : Q) : Q :=
  let e := Z.max (ilog2 a - 52) (-1074) in
  inject_Z (round_half_even (a / 2 ^ e)) * 2 ^ e.

(** Rounding to binary64: to nearest, ties to even; a magnitude that
    rounds to [2 ^ 1024] or more overflows to an infinity. *)
Definition to_float (x : Q) : Float :=
  if Qeq_bool x 0 then Finite 0
  else
    let m := nearest (Qabs x) in
    if Qle_bool (2 ^ 1024) m then (if ltb x 0 then NegInf else PosInf)
    else Finite (if ltb x 0 then - m else m).

(** A rational that is the value of a float. *)
Definition is_float (x : Q) : bool :=
  match to_float x with
  | Finite y => Qeq_bool y x
  | _ => false
  end.

(** [x - y] on two floats. *)
Definition fsub (x y : Q) : Float := to_float (x - y).

(** [abs(x)]. *)
Definition fabs (x : Float) : Float :=
  match x with
  | Finite q => Finite (Qabs q)
  | PosInf | NegInf => PosInf
  | NaN => NaN
  end.

(** [x > 0]. *)
Definition fgt0 (x : Float) : bool :=
  match x with
  | Finite q => ltb 0 q
  | PosInf => true
  | NegInf | NaN => false
  end.

(** [x / y] for a divisor that is not zero; the sign of a zero quotient is
    not kept. *)
Definition fdiv (x y : Float) : Float :=
  match x, y with
  | NaN, _ | _, NaN => NaN
  | Finite a, Finite b => to_float (a / b)
  | Finite _, (PosInf | NegInf) => Finite 0
  | PosInf, Finite b => if ltb b 0 then NegInf else PosInf
  | NegInf, Finite b => if ltb b 0 then PosInf else NegInf
  | (PosInf | NegInf), (PosInf | NegInf) => NaN
  end.

(** [f"{x:.2f}"] on the result of an operation. *)
Definition format_float_2f (x : Float) : string :=
  match x with
  | Finite q => format_2f q
  | PosInf => "inf"
  | NegInf => "-inf"
  | NaN => "nan"
  end.

End Py.

(** ** The ledger *)

Inductive TradeType := BUY | SELL.
Inductive TradeStatus := OPEN | CLOSED.
Inductive TradeOutcome := WIN | LOSS.

(** The chart intervals ["1m"], ["3m"], ["5m"], ["10m"], ["15m"], ["30m"],
    ["1h"], ["2h"], ["4h"], ["1d"]. *)
Inductive Timeframe := M1 | M3 | M5 | M10 | M15 | M30 | H1 | H2 | H4 | D1.

(** The styles ["swing"], ["day trade"], ["scalp"]. *)
Inductive TradeStyle := swing | day_trade | scalp.

(** The text stored in the [timeframe] column. *)
Definition timeframe_name (tf : Timeframe) : string :=
  match tf with
  | M1 => "1m" | M3 => "3m" | M5 => "5m" | M10 => "10m" | M15 => "15m"
  | M30 => "30m" | H1 => "1h" | H2 => "2h" | H4 => "4h" | D1 => "1d"
  end.

Definition TradeType_eqb (a b : TradeType) : bool :=
  match a, b with
  | BUY, BUY | SELL, SELL => true
  | _, _ => false
  end.

Definition TradeStatus_eqb (a b : TradeStatus) : bool :=
  match a, b with
  | OPEN, OPEN | CLOSED, CLOSED => true
  | _, _ => false
  end.

Definition TradeOutcome_eqb (a b : TradeOutcome) : bool :=
  match a, b with
  | WIN, WIN | LOSS, LOSS => true
  | _, _ => false
  end.

(** A row of [trade_tracker]. *)
Record TradeRow := mkTradeRow {
  tt_id : Z;
  tt_user_id : string;
  tt_entry_price : Q;
  tt_take_profit : option Q;
  tt_stop_loss : option Q;
  tt_lot_size : Q;
  tt_balance : Q;
  tt_trade_type : TradeType;
  tt_currency_pair : string;
  tt_timeframe : option Timeframe;
  tt_trade_style : option TradeStyle;
  tt_strategy : option string;
  tt_risk_reward_ratio : option string;
  tt_notes : option string;
  tt_timestamp : Z;
  tt_status : TradeStatus
}.

(** A row of [trade_results]. *)
Record ResultRow := mkResultRow {
  tr_id : Z;
  tr_user_id : string;
  tr_trade_id : Z;
  tr_result : TradeOutcome;
  tr_profit_loss : Q;
  tr_notes : option string;
  tr_timestamp : Z
}.

Inductive RiskLevel := LOW | MEDIUM | HIGH | CRITICAL.

Inductive AlertType :=
| CONSECUTIVE_LOSSES
| REVENGE_TRADING
| OVERCONFIDENCE
| OVERTRADING
| HIGH_RISK_PER_TRADE
| DRAWDOWN
| EMOTIONAL
| POOR_RISK_REWARD
| MISSING_STOP_LOSS
| ACCOUNT_RISK_PERCENTAGE.

(** A row of [risk_monitor]. *)
Record AlertRow := mkAlertRow {
  rm_id : Z;
  rm_user_id : string;
  rm_alert_type : AlertType;
  rm_risk_level : RiskLevel;
  rm_acknowledged : bool
}.

Record Ledger := mkLedger {
  users : list string;
  trade_tracker : list TradeRow;
  trade_results : list ResultRow;
  risk_monitor : list AlertRow
}.

Definition empty_ledger : Ledger := mkLedger [] [] [] [].

(** The rowid SQLite gives to the next inserted row: one more than the
    largest in use. *)
Definition next_rowid (ids : list Z) : Z := (fold_right Z.max 0 ids + 1)%Z.

(** ** The connection monad *)

(** Why the storage layer refused a statement. *)
Inductive StorageFailure :=
| readonly_database   (* attempt to write a readonly database *)
| database_locked.    (* database is locked *)

Inductive Exn :=
| ProgrammingError (uses supplied : nat)
    (* Incorrect number of bindings supplied. The current statement uses
       [uses], and there are [supplied] supplied. *)
| OperationalError (why : StorageFailure)
    (* the storage layer failed on a statement *)
| TypeError
    (* unsupported operand type(s) *)
| ZeroDivisionError.

(** A storage fault: the index, in issue order, of the statement that
    fails, and why it does. *)
Definition Fault : Type := nat * StorageFailure.

Inductive outcome (A : Type) :=
| Returned (a : A)
| Raised (e : Exn).
Arguments Raised {A} e.

(** [disk] is what is committed, [view] what the connection sees; [fault]
    is the fault the storage layer has in store, if any, and [issued] counts
    the statements issued so far. *)
Record Conn := mkConn {
  disk : Ledger;
  view : Ledger;
  fault : option Fault;
  issued : nat
}.

Definition DB (A : Type) : Type := Conn -> outcome A * Conn.

Definition ret {A} (a : A) : DB A := fun c => (Returned a, c).

Definition raise {A} (e : Exn) : DB A := fun c => (Raised e, c).

Definition bind {A B} (m : DB A) (k : A -> DB B) : DB B :=
  fun c =>
    match m c with
    | (Returned a, c') => k a c'
    | (Raised e, c') => (Raised e, c')
    end.

Declare Scope db_scope.
Delimit Scope db_scope with db.
Notation "x <- m ;; k" := (bind m (fun x => k))
  (at level 100, m at next level, right associativity) : db_scope.
Notation "m ;;; k" := (bind m (fun _ => k))
  (at level 100, right associativity) : db_scope.
Open Scope db_scope.

(** sqlite3 refuses a statement whose number of placeholders, [uses],
    differs from the number of values supplied with it. *)
Definition bind_parameters (uses supplied : nat) : DB unit :=
  if Nat.eqb uses supplied then ret tt
  else raise (ProgrammingError uses supplied).

(** Every statement sent to the storage layer may fail there. *)
Definition storage_step : DB unit :=
  fun c =>
    let c' := mkConn (disk c) (view c) (fault c) (S (issued c)) in
    match fault c with
    | Some (n, why) =>
        if Nat.eqb n (issued c) then (Raised (OperationalError why), c')
        else (Returned tt, c')
    | None => (Returned tt, c')
    end.

(** [conn.execute(sql, params)] for a SELECT with [uses] placeholders and
    [supplied] parameters; [q] is the statement with its parameters bound. *)
Definition execute_query {A} (uses supplied : nat) (q : Ledger -> A) : DB A :=
  bind_parameters uses supplied ;;;
  storage_step ;;;
  fun c => (Returned (q (view c)), c).

(** [conn.execute(sql, params)] for an INSERT or UPDATE; the result is the
    cursor's [lastrowid]. *)
Definition execute_write (uses supplied : nat) (w : Ledger -> Ledger * Z) : DB Z :=
  bind_parameters uses supplied ;;;
  storage_step ;;;
  fun c =>
    let written := w (view c) in
    (Returned (snd written), mkConn (disk c) (fst written) (fault c) (issued c)).

(** [conn.commit()]. *)
Definition commit : DB unit :=
  storage_step ;;;
  fun c => (Returned tt, mkConn (view c) (view c) (fault c) (issued c)).

(** [async with get_db_connection() as conn: body]: the body runs on a
    fresh connection; what it did not commit is lost when the block is
    left, normally or by an exception. *)
Definition with_connection {A} (flt : option Fault) (body : DB A)
    (l : Ledger) : outcome A * Ledger :=
  let '(r, c) := body (mkConn l l flt O) in (r, disk c).

(** ** TradeRecorder: [save_trade] *)

(** What [save_trade] returns when the trade was stored. *)
Record TradeSaved := mkTradeSaved {
  ts_trade_id : Z;
  ts_message : string;
  ts_status : TradeStatus;
  ts_entry_price : Q;
  ts_take_profit : option Q;
  ts_stop_loss : option Q;
  ts_lot_size : Q;
  ts_balance : Q;
  ts_trade_type : TradeType;
  ts_currency_pair : string;
  ts_timeframe : option Timeframe;
  ts_trade_style : option TradeStyle;
  ts_strategy : option string;
  ts_risk_reward_ratio : option string;
  ts_potential_profit : option Q;
  ts_potential_loss : option Q;
  ts_notes : option string
}.

Inductive SaveTradeReply :=
| LotSizeRejected (lot_size : Q)
    (* {"error": "Lot size must be a positive number. Provided: <lot_size>",
        "lot_size": lot_size} *)
| TradeStored (t : TradeSaved).

(** The local [risk_reward_ratio] of [save_trade]; its arithmetic is the
    binary64 one. *)
Definition risk_reward_ratio (entry_price : Q) (take_profit stop_loss : option Q)
    (trade_type : TradeType) : option string :=
  match take_profit, stop_loss with
  | Some tp, Some sl =>
      if Py.truthy tp && Py.truthy sl && Py.truthy entry_price then
        let '(profit_distance, risk_distance) :=
          match trade_type with
          | BUY => (Py.fabs (Py.fsub tp entry_price), Py.fabs (Py.fsub entry_price sl))
          | SELL => (Py.fabs (Py.fsub entry_price tp), Py.fabs (Py.fsub sl entry_price))
          end in
        if Py.fgt0 risk_distance then
          let ratio := Py.fdiv profit_distance risk_distance in
          Some ("1:" ++ Py.format_float_2f ratio)%string
        else None
      else None
  | _, _ => None
  end.

(** The local [potential_profit] of [save_trade]. *)
Definition potential_profit (entry_price : Q) (take_profit : option Q)
    (lot_size : Q) : option Q :=
  match take_profit with
  | Some tp =>
      if Py.truthy tp && Py.truthy entry_price then
        let price_move := Qabs (tp - entry_price) in
        Some (price_move * (lot_size * 100))
      else None
  | None => None
  end.

(** The local [potential_loss] of [save_trade]. *)
Definition potential_loss (entry_price : Q) (stop_loss : option Q)
    (lot_size : Q) : option Q :=
  match stop_loss with
  | Some sl =>
      if Py.truthy sl && Py.truthy entry_price then
        let price_move := Qabs (entry_price - sl) in
        Some (price_move * (lot_size * 100))
      else None
  | None => None
  end.

(** [INSERT OR IGNORE INTO users (user_id, username) VALUES (?, ?)].
    Modelled from the spec, which says a User row is created on the first
    trade of an identifier if absent: [schema.sql], which declares the
    [users] table of a fresh store, is not part of the sources. On a store
    whose [users] table was made by [migrate_add_user_id.py], with its
    [password_hash TEXT NOT NULL], the statement stores no row. No property
    below depends on the row being stored. *)
Definition insert_or_ignore_user (user_id : string) (l : Ledger) : Ledger * Z :=
  if existsb (String.eqb user_id) (users l) then (l, 0%Z)
  else (mkLedger (users l ++ [user_id]) (trade_tracker l) (trade_results l)
          (risk_monitor l),
        Z.of_nat (S (List.length (users l)))).

(** [INSERT INTO trade_tracker (...) VALUES (...)]. The columns the statement
    does not name take their defaults; [schema.sql], which declares them, is
    not part of the sources, and the defaults are the ones the specification
    gives: a store-assigned id, the creation time and status [OPEN] (the
    status the tool reports for the new trade). *)
Definition insert_trade (now : Z) (user_id : string) (entry_price : Q)
    (take_profit stop_loss : option Q) (lot_size balance : Q)
    (trade_type : TradeType) (currency_pair : string)
    (timeframe : option Timeframe) (trade_style : option TradeStyle)
    (strategy rr notes : option string)
    (l : Ledger) : Ledger * Z :=
  let id := next_rowid (map tt_id (trade_tracker l)) in
  let row := mkTradeRow id user_id entry_price take_profit stop_loss lot_size
               balance trade_type currency_pair timeframe trade_style strategy
               rr notes now OPEN in
  (mkLedger (users l) (trade_tracker l ++ [row]) (trade_results l)
     (risk_monitor l), id).

Definition save_trade (flt : option Fault) (now : Z)
    (user_id : string) (entry_price : Q) (take_profit stop_loss : option Q)
    (lot_size balance : Q) (trade_type : TradeType) (currency_pair : string)
    (timeframe : option Timeframe) (trade_style : option TradeStyle)
    (strategy notes : option string)
    (l : Ledger) : outcome SaveTradeReply * Ledger :=
  if Py.leb lot_size 0 then (Returned (LotSizeRejected lot_size), l)
  else
    with_connection flt
      (let rr := risk_reward_ratio entry_price take_profit stop_loss trade_type in
       execute_write 2 2 (insert_or_ignore_user user_id) ;;;
       trade_id <- execute_write 13 13
         (insert_trade now user_id entry_price take_profit stop_loss lot_size
            balance trade_type currency_pair timeframe trade_style strategy
            rr notes) ;;
       commit ;;;
       ret (TradeStored
              (mkTradeSaved trade_id
                 ("Trade #" ++ Py.str_of_Z trade_id ++ " saved successfully")
                 OPEN entry_price take_profit stop_loss lot_size balance
                 trade_type currency_pair timeframe trade_style strategy rr
                 (potential_profit entry_price take_profit lot_size)
                 (potential_loss entry_price stop_loss lot_size)
                 notes)))
      l.

(** ** TradeRecorder: [log_trade_result] *)

(** What [log_trade_result] returns when the result was logged. *)
Record ResultLogged := mkResultLogged {
  rl_result_id : Z;
  rl_trade_id : Z;
  rl_message : string;
  rl_result : TradeOutcome;
  rl_profit_loss : Q;
  rl_previous_balance : Q;
  rl_new_balance : Q;
  rl_entry_price : Q;
  rl_exit_price : Q;
  rl_lot_size : Q;
  rl_status : TradeStatus;
  rl_notes : option string
}.

Inductive LogTradeReply :=
| ErrorReply (error : string) (trade_id : Z) (suggestion : option string)
    (* {"error": ..., "trade_id": ...} with or without "suggestion" *)
| WarningReply (warning : string) (trade_id : Z) (status : TradeStatus)
    (* {"warning": ..., "trade_id": ..., "status": "CLOSED"} *)
| ResultStored (r : ResultLogged).

Definition outcome_name (r : TradeOutcome) : string :=
  match r with WIN => "WIN" | LOSS => "LOSS" end.

(** [SELECT ... FROM trade_tracker WHERE id = ? AND user_id = ?], [fetchone]. *)
Definition select_trade (trade_id : Z) (user_id : string) (l : Ledger)
    : option TradeRow :=
  find (fun t => (tt_id t =? trade_id)%Z && String.eqb (tt_user_id t) user_id)
       (trade_tracker l).

(** [INSERT INTO trade_results (user_id, trade_id, result, profit_loss, notes)]. *)
Definition insert_result (now : Z) (user_id : string) (trade_id : Z)
    (result : TradeOutcome) (profit_loss : Q) (notes : option string)
    (l : Ledger) : Ledger * Z :=
  let id := next_rowid (map tr_id (trade_results l)) in
  (mkLedger (users l) (trade_tracker l)
     (trade_results l ++ [mkResultRow id user_id trade_id result profit_loss notes now])
     (risk_monitor l), id).

Definition close_row (t : TradeRow) : TradeRow :=
  mkTradeRow (tt_id t) (tt_user_id t) (tt_entry_price t) (tt_take_profit t)
    (tt_stop_loss t) (tt_lot_size t) (tt_balance t) (tt_trade_type t)
    (tt_currency_pair t) (tt_timeframe t) (tt_trade_style t) (tt_strategy t)
    (tt_risk_reward_ratio t) (tt_notes t) (tt_timestamp t) CLOSED.

(** [UPDATE trade_tracker SET status = 'CLOSED' WHERE id = ?]. *)
Definition update_closed (trade_id : Z) (l : Ledger) : Ledger * Z :=
  (mkLedger (users l)
     (map (fun t => if (tt_id t =? trade_id)%Z then close_row t else t)
          (trade_tracker l))
     (trade_results l) (risk_monitor l), 0%Z).

(** The profit or loss of a close, or [None] when the target price the
    outcome needs is not set. The pair is [(exit_price, profit_loss)]. *)
Definition profit_loss_of (result : TradeOutcome) (t : TradeRow) : option (Q * Q) :=
  match result with
  | WIN =>
      match tt_take_profit t with
      | Some take_profit =>
          if Py.truthy take_profit then
            let price_move :=
              match tt_trade_type t with
              | BUY => take_profit - tt_entry_price t
              | SELL => tt_entry_price t - take_profit
              end in
            Some (take_profit, price_move * (tt_lot_size t * 100))
          else None
      | None => None
      end
  | LOSS =>
      match tt_stop_loss t with
      | Some stop_loss =>
          if Py.truthy stop_loss then
            let price_move :=
              match tt_trade_type t with
              | BUY => tt_entry_price t - stop_loss
              | SELL => stop_loss - tt_entry_price t
              end in
            Some (stop_loss, - Qabs (price_move * (tt_lot_size t * 100)))
          else None
      | None => None
      end
  end.

Definition missing_target_reply (result : TradeOutcome) (trade_id : Z)
    : LogTradeReply :=
  match result with
  | WIN =>
      ErrorReply
        ("Trade #" ++ Py.str_of_Z trade_id
           ++ " has no take_profit set. Cannot calculate WIN profit automatically.")
        trade_id
        (Some "Please provide exit_price manually or set take_profit when saving the trade.")
  | LOSS =>
      ErrorReply
        ("Trade #" ++ Py.str_of_Z trade_id
           ++ " has no stop_loss set. Cannot calculate LOSS automatically.")
        trade_id
        (Some "Please provide exit_price manually or set stop_loss when saving the trade.")
  end%string.

Definition log_trade_result (flt : option Fault) (now : Z)
    (user_id : string) (trade_id : Z) (result : TradeOutcome)
    (notes : option string) (l : Ledger) : outcome LogTradeReply * Ledger :=
  with_connection flt
    (trade <- execute_query 2 2 (select_trade trade_id user_id) ;;
     match trade with
     | None =>
         ret (ErrorReply ("Trade #" ++ Py.str_of_Z trade_id ++ " not found")
                trade_id None)
     | Some t =>
         match tt_status t with
         | CLOSED =>
             ret (WarningReply
                    ("Trade #" ++ Py.str_of_Z trade_id ++ " is already closed")
                    trade_id CLOSED)
         | OPEN =>
             match profit_loss_of result t with
             | None => ret (missing_target_reply result trade_id)
             | Some (exit_price, profit_loss) =>
                 result_id <- execute_write 5 5
                   (insert_result now user_id trade_id result profit_loss notes) ;;
                 commit ;;;
                 let new_balance := tt_balance t + profit_loss in
                 execute_write 1 1 (update_closed trade_id) ;;;
                 commit ;;;
                 ret (ResultStored
                        (mkResultLogged result_id trade_id
                           ("Trade #" ++ Py.str_of_Z trade_id ++ " logged as "
                              ++ outcome_name result ++ " with P/L: $"
                              ++ Py.format_2f profit_loss ++ ". New balance: $"
                              ++ Py.format_2f new_balance)
                           result profit_loss (tt_balance t) new_balance
                           (tt_entry_price t) exit_price (tt_lot_size t)
                           CLOSED notes))
             end
         end
     end)
    l.

(** ** SQL building blocks shared by the analytics and risk queries *)

(** [SUM(x)] over the selected rows: NULL when there is none. *)
Definition sql_sum (xs : list Q) : option Q :=
  match xs with
  | [] => None
  | _ => Some (fold_left Qplus xs 0)
  end.

(** [AVG(x)] over the non-NULL values: NULL when there is none. *)
Definition sql_avg (xs : list Q) : option Q :=
  match xs with
  | [] => None
  | _ => Some (fold_left Qplus xs 0 / inject_Z (Z.of_nat (List.length xs)))
  end.

Definition count_where {A} (p : A -> bool) (rows : list A) : Z :=
  Z.of_nat (List.length (filter p rows)).

(** [SUM(CASE WHEN p THEN 1 ELSE 0 END)] over the selected rows. *)
Definition sql_sum_case {A} (p : A -> bool) (rows : list A) : option Z :=
  match rows with
  | [] => None
  | _ => Some (count_where p rows)
  end.

(** [trade_tracker tt INNER JOIN trade_results tr ON tt.id = tr.trade_id]. *)
Definition inner_join (l : Ledger) : list (TradeRow * ResultRow) :=
  flat_map
    (fun tt => map (pair tt)
                 (filter (fun tr => (tr_trade_id tr =? tt_id tt)%Z) (trade_results l)))
    (trade_tracker l).

Definition is_closed (t : TradeRow) : bool := TradeStatus_eqb (tt_status t) CLOSED.
Definition is_open (t : TradeRow) : bool := TradeStatus_eqb (tt_status t) OPEN.
Definition is_win (r : ResultRow) : bool := TradeOutcome_eqb (tr_result r) WIN.
Definition is_loss (r : ResultRow) : bool := TradeOutcome_eqb (tr_result r) LOSS.

(** A condition of a WHERE clause that takes one placeholder:
    ["user_id = ?"], ["currency_pair = ?"], ["timeframe = ?"],
    ["strategy = ?"]. *)
Inductive Condition :=
| user_id_is
| currency_pair_is
| timeframe_is
| strategy_is.

Definition Condition_eqb (a b : Condition) : bool :=
  match a, b with
  | user_id_is, user_id_is
  | currency_pair_is, currency_pair_is
  | timeframe_is, timeframe_is
  | strategy_is, strategy_is => true
  | _, _ => false
  end.

Definition opt_string_is (x : option string) (v : string) : bool :=
  match x with
  | Some s => String.eqb s v
  | None => false
  end.

(** One condition with the value bound to its placeholder. A NULL column
    is equal to nothing. *)
Definition holds (c : Condition) (v : string) (t : TradeRow) : bool :=
  match c with
  | user_id_is => String.eqb (tt_user_id t) v
  | currency_pair_is => String.eqb (tt_currency_pair t) v
  | timeframe_is => opt_string_is (option_map timeframe_name (tt_timeframe t)) v
  | strategy_is => opt_string_is (tt_strategy t) v
  end.

(** The conjunction of the conditions, placeholders bound in order. *)
Definition where_clause (conds : list Condition) (params : list string)
    (t : TradeRow) : bool :=
  forallb (fun cv => holds (fst cv) (snd cv) t) (combine conds params).

(** Rows grouped by a key, groups in order of first appearance; a row
    whose key is NULL is in no group. The queries that group put the groups
    in the order of their keys. *)
Section Grouping.
Variables (R K : Type) (K_eqb : K -> K -> bool) (key : R -> option K).

Definition has_key (k : K) (r : R) : bool :=
  match key r with
  | Some k' => K_eqb k' k
  | None => false
  end.

Fixpoint distinct_keys (rows : list R) : list K :=
  match rows with
  | [] => []
  | r :: rows' =>
      match key r with
      | Some k => k :: filter (fun k' => negb (K_eqb k' k)) (distinct_keys rows')
      | None => distinct_keys rows'
      end
  end.

Definition group_by (rows : list R) : list (K * list R) :=
  map (fun k => (k, filter (has_key k) rows)) (distinct_keys rows).
End Grouping.

(** A stable sort putting first the rows that [above] ranks strictly higher:
    rows that rank the same keep their order. *)
Section Ordering.
Variables (R : Type) (above : R -> R -> bool).

Fixpoint insert_by (x : R) (l : list R) : list R :=
  match l with
  | [] => [x]
  | y :: l' => if above y x then y :: insert_by x l' else x :: y :: l'
  end.

Definition order_by (l : list R) : list R := fold_right insert_by [] l.
End Ordering.

(** [LIMIT n]: a negative limit is no limit. *)
Definition sql_limit {A} (n : Z) (l : list A) : list A :=
  if (n <? 0)%Z then l else firstn (Z.to_nat n) l.

(** [REPLACE(s, '1:', '')]. *)
Fixpoint replace_one_colon (s : string) : string :=
  match s with
  | EmptyString => EmptyString
  | String "1" (String ":" rest) => replace_one_colon rest
  | String c rest => String c (replace_one_colon rest)
  end.

Definition digit_of (c : ascii) : option Z :=
  let n := Z.of_nat (nat_of_ascii c) in
  if ((48 <=? n) && (n <=? 57))%Z then Some (n - 48)%Z else None.

(** The longest run of leading digits: its value, its length and the rest. *)
Fixpoint read_digits (s : string) (acc : Z) (len : nat) : Z * nat * string :=
  match s with
  | EmptyString => (acc, len, s)
  | String c rest =>
      match digit_of c with
      | Some d => read_digits rest (acc * 10 + d)%Z (S len)
      | None => (acc, len, s)
      end
  end.

(** An unsigned decimal numeral [ddd] or [ddd.ddd] at the head of [s]: its
    value and what follows it; [None] when [s] starts with no digit. *)
Definition read_decimal (s : string) : option (Q * string) :=
  let '(int_part, n, rest) := read_digits s 0 0 in
  match n with
  | O => None
  | S _ =>
      match rest with
      | String "." frac =>
          let '(frac_part, k, rest') := read_digits frac 0 0 in
          Some (inject_Z int_part
                  + inject_Z frac_part / inject_Z (10 ^ Z.of_nat k), rest')
      | _ => Some (inject_Z int_part, rest)
      end
  end.

(** [CAST(s AS REAL)] on the numerals [save_trade] writes: the leading
    decimal numeral, 0.0 when there is none. *)
Definition cast_real (s : string) : Q :=
  match s with
  | String "-" rest =>
      match read_decimal rest with
      | Some (x, _) => - x
      | None => 0
      end
  | _ =>
      match read_decimal s with
      | Some (x, _) => x
      | None => 0
      end
  end.

(** [float(s)]: the whole string has to be a numeral. *)
Definition py_float (s : string) : option Q :=
  match s with
  | String "-" rest =>
      match read_decimal rest with
      | Some (x, EmptyString) => Some (- x)
      | _ => None
      end
  | _ =>
      match read_decimal s with
      | Some (x, EmptyString) => Some x
      | _ => None
      end
  end.

(** ** AnalyticsEngine: [get_trade_insights] *)

(** The lists [filters] and [params] the tool assembles from its optional
    arguments: an argument that is [None] or empty adds nothing. *)
Definition add_filter (c : Condition) (v : option string)
    (fp : list Condition * list string) : list Condition * list string :=
  match v with
  | Some s => if Py.truthy_str v then (fst fp ++ [c], snd fp ++ [s]) else fp
  | None => fp
  end.

Definition build_filters (currency_pair timeframe strategy : option string)
    : list Condition * list string :=
  add_filter strategy_is strategy
    (add_filter timeframe_is timeframe
       (add_filter currency_pair_is currency_pair ([], []))).

(** Query 1: [COUNT], open and closed counts over [trade_tracker] under the
    filter clause. *)
Definition count_trades (conds : list Condition) (params : list string)
    (l : Ledger) : Z * option Z * option Z :=
  let rows := filter (where_clause conds params) (trade_tracker l) in
  (Z.of_nat (List.length rows), sql_sum_case is_open rows, sql_sum_case is_closed rows).

(** The joined rows [WHERE tt.status = 'CLOSED' AND conds]. *)
Definition closed_rows (conds : list Condition) (params : list string)
    (l : Ledger) : list (TradeRow * ResultRow) :=
  filter (fun jr => is_closed (fst jr) && where_clause conds params (fst jr))
         (inner_join l).

Definition pl_of (jr : TradeRow * ResultRow) : Q := tr_profit_loss (snd jr).
Definition won (jr : TradeRow * ResultRow) : bool := is_win (snd jr).
Definition lost (jr : TradeRow * ResultRow) : bool := is_loss (snd jr).

(** Query 2. The two counts are read by the tool only when [total_closed]
    is not zero, where they are not NULL. *)
Record Performance := mkPerformance {
  p_total_closed : Z;
  p_wins : Z;
  p_losses : Z;
  p_total_pl : option Q;
  p_avg_win : option Q;
  p_avg_loss : option Q
}.

Definition performance (conds : list Condition) (params : list string)
    (l : Ledger) : Performance :=
  let rows := closed_rows conds params l in
  mkPerformance (Z.of_nat (List.length rows)) (count_where won rows)
    (count_where lost rows) (sql_sum (map pl_of rows))
    (sql_avg (map pl_of (filter won rows)))
    (sql_avg (map pl_of (filter lost rows))).

(** A row of a grouped query: key, [COUNT], wins, [SUM(profit_loss)]. *)
Record GroupRow (K : Type) := mkGroupRow {
  g_key : K;
  g_total : Z;
  g_wins : Z;
  g_total_pl : option Q
}.

Definition aggregate {K} (g : K * list (TradeRow * ResultRow)) : GroupRow K :=
  mkGroupRow (fst g) (Z.of_nat (List.length (snd g))) (count_where won (snd g))
    (sql_sum (map pl_of (snd g))).

Definition grouped {K} (K_eqb : K -> K -> bool) (key : TradeRow -> option K)
    (conds : list Condition) (params : list string) (l : Ledger)
    : list (GroupRow K) :=
  map aggregate
    (group_by K_eqb (fun jr => key (fst jr)) (closed_rows conds params l)).

(** Query 3: the groups of [GROUP BY tt.trade_type], BUY before SELL. *)
Definition side_performance (conds : list Condition) (params : list string)
    (l : Ledger) : list (GroupRow TradeType) :=
  order_by
    (fun a b => TradeType_eqb (g_key a) BUY && TradeType_eqb (g_key b) SELL)
    (grouped TradeType_eqb (fun t => Some (tt_trade_type t)) conds params l).

(** Query 4: average lot size of the winning and of the losing rows. *)
Definition lot_impact (conds : list Condition) (params : list string)
    (l : Ledger) : option Q * option Q :=
  let rows := closed_rows conds params l in
  (sql_avg (map (fun jr => tt_lot_size (fst jr)) (filter won rows)),
   sql_avg (map (fun jr => tt_lot_size (fst jr)) (filter lost rows))).

(** The sort key [wins * 1.0 / COUNT( * )] of the ranking queries. *)
Definition win_ratio {K} (g : GroupRow K) : Q :=
  inject_Z (g_wins g) / inject_Z (g_total g).

(** NULL sorts below every number. *)
Definition sum_above (a b : option Q) : bool :=
  match a, b with
  | Some x, Some y => Py.ltb y x
  | Some _, None => true
  | None, _ => false
  end.

(** [ORDER BY win ratio DESC, SUM(profit_loss) DESC]: [a] goes strictly
    before [b]. *)
Definition ranks_above {K} (a b : GroupRow K) : bool :=
  match Qcompare (win_ratio a) (win_ratio b) with
  | Gt => true
  | Lt => false
  | Eq => sum_above (g_total_pl a) (g_total_pl b)
  end.

(** [GROUP BY] hands its groups over in the order of their keys, which
    [K_ltb] compares. *)
Definition key_order {K} (K_ltb : K -> K -> bool) (a b : GroupRow K) : bool :=
  K_ltb (g_key a) (g_key b).

(** Queries 7, 8 and 10 before any LIMIT: the groups in the order of their
    keys, sorted by rank; groups that rank the same keep the order of their
    keys. *)
Definition ranking {K} (K_eqb K_ltb : K -> K -> bool) (key : TradeRow -> option K)
    (conds : list Condition) (params : list string) (l : Ledger)
    : list (GroupRow K) :=
  order_by ranks_above
    (order_by (key_order K_ltb) (grouped K_eqb key conds params l)).

(** [tt.timeframe IS NOT NULL]. *)
Definition timeframe_key (t : TradeRow) : option string :=
  option_map timeframe_name (tt_timeframe t).

(** [tt.strategy IS NOT NULL AND tt.strategy != '']. *)
Definition strategy_key (t : TradeRow) : option string :=
  match tt_strategy t with
  | Some s => if String.eqb s "" then None else Some s
  | None => None
  end.

Definition combined_key (t : TradeRow) : option (string * string) :=
  match timeframe_key t, strategy_key t with
  | Some tf, Some strat => Some (tf, strat)
  | _, _ => None
  end.

Definition pair_eqb (a b : string * string) : bool :=
  String.eqb (fst a) (fst b) && String.eqb (snd a) (snd b).

(** The order of the keys [tt.timeframe, tt.strategy]: by timeframe, then
    by strategy, each as a string of bytes. *)
Definition pair_ltb (a b : string * string) : bool :=
  String.ltb (fst a) (fst b)
  || (String.eqb (fst a) (fst b) && String.ltb (snd a) (snd b)).

(** Query 9: the ratios parsed out of ["1:X"], averaged over wins and over
    losses, for rows whose ratio is not NULL. *)
Definition rr_analysis (conds : list Condition) (params : list string)
    (l : Ledger) : option Q * option Q :=
  let rows :=
    flat_map (fun jr => match tt_risk_reward_ratio (fst jr) with
                        | Some rr => [(cast_real (replace_one_colon rr), snd jr)]
                        | None => []
                        end)
             (closed_rows conds params l) in
  (sql_avg (map fst (filter (fun xr => is_win (snd xr)) rows)),
   sql_avg (map fst (filter (fun xr => is_loss (snd xr)) rows))).

(** The conditions that do not mention a column, with their parameters. *)
Definition without (drop : Condition -> bool) (conds : list Condition)
    (params : list string) : list Condition * list string :=
  let kept := filter (fun cv => negb (drop (fst cv))) (combine conds params) in
  (filter (fun c => negb (drop c)) conds, map snd kept).

Definition mentions_timeframe (c : Condition) : bool := Condition_eqb c timeframe_is.
Definition mentions_strategy (c : Condition) : bool := Condition_eqb c strategy_is.

(** The dictionaries of the reply. *)
Record SideStats := mkSideStats {
  ss_total : Z;
  ss_wins : Z;
  ss_win_rate : Q;
  ss_total_pl : Q
}.

Inductive BestSide := BestBUY | BestSELL | TIE.

Record Ranked (K : Type) := mkRanked {
  rk_key : K;
  rk_total_trades : Z;
  rk_wins : Z;
  rk_win_rate : Q;
  rk_total_pl : Q
}.

Record Insights := mkInsights {
  (* summary *)
  in_total_trades : Z;
  in_open_trades : option Z;
  in_closed_trades : option Z;
  in_total_profit_loss : Q;
  in_win_rate : Q;
  in_wins : Z;
  in_losses : Z;
  (* performance_metrics *)
  in_average_profit_per_win : Q;
  in_average_loss_per_loss : Q;
  in_profit_factor : option Q;
  (* best_performing_side *)
  in_side : BestSide;
  in_buy_stats : SideStats;
  in_sell_stats : SideStats;
  (* lot_size_impact *)
  in_average_lot_size_wins : Q;
  in_average_lot_size_losses : Q;
  in_difference : Q;
  (* timeframe_performance *)
  in_best_timeframe : option string;
  in_all_timeframes : list (Ranked string);
  (* strategy_performance *)
  in_best_strategy : option string;
  in_all_strategies : list (Ranked string);
  (* risk_reward_analysis *)
  in_average_rr_winning_trades : option Q;
  in_average_rr_losing_trades : option Q;
  (* best_combinations *)
  in_top_5_timeframe_strategy_combos : list (Ranked (string * string))
}.

(** [(wins / total * 100) if total > 0 else 0]. *)
Definition percent_of (wins total : Z) : Q :=
  if (0 <? total)%Z then inject_Z wins / inject_Z total * 100 else 0.

(** The loop over [side_perf]. Its targets [wins] and [total_pl] are the
    same local variables query 2 assigned. *)
Definition side_loop (side_perf : list (GroupRow TradeType))
    (wins : Z) (total_pl : option Q) (buy_stats sell_stats : SideStats)
    : Z * option Q * SideStats * SideStats :=
  fold_left
    (fun st row =>
       let '(_, _, buy_stats, sell_stats) := st in
       let total := g_total row in
       let wins := g_wins row in
       let total_pl := g_total_pl row in
       let win_rate_side := percent_of wins total in
       let stats := mkSideStats total wins win_rate_side (Py.or0 total_pl) in
       match g_key row with
       | BUY => (wins, total_pl, stats, sell_stats)
       | SELL => (wins, total_pl, buy_stats, stats)
       end)
    side_perf (wins, total_pl, buy_stats, sell_stats).

(** The loops over [timeframe_perf], [strategy_perf] and [combined_perf];
    they assign [wins] and [total_pl] too. *)
Definition stats_loop {K} (perf : list (GroupRow K)) (wins : Z)
    (total_pl : option Q) : Z * option Q * list (Ranked K) :=
  fold_left
    (fun st row =>
       let '(_, _, stats) := st in
       let total := g_total row in
       let wins := g_wins row in
       let total_pl := g_total_pl row in
       let win_rate := percent_of wins total in
       (wins, total_pl,
        stats ++ [mkRanked (g_key row) total wins (Py.round2 win_rate)
                    (Py.round2 (Py.or0 total_pl))]))
    perf (wins, total_pl, []).

Definition best_of {K} (stats : list (Ranked K)) : option K :=
  match stats with
  | [] => None
  | s :: _ => Some (rk_key s)
  end.

Definition get_trade_insights (flt : option Fault) (user_id : string)
    (currency_pair timeframe strategy date_filter : option string)
    (l : Ledger) : outcome Insights * Ledger :=
  with_connection flt
    (let '(filters, params) := build_filters currency_pair timeframe strategy in
     (* 1. Total trades count *)
     counts <- execute_query (List.length filters) (List.length params)
                 (count_trades filters params) ;;
     let '(total_trades, open_trades, closed_trades) := counts in
     (* 2. Win rate and performance metrics *)
     let user_filters :=
       user_id_is :: filter (fun f => negb (Condition_eqb f user_id_is)) filters in
     let user_params :=
       user_id :: filter (fun p => negb (String.eqb p user_id)) params in
     perf <- execute_query (List.length user_filters) (List.length user_params)
               (performance user_filters user_params) ;;
     let '(wins, losses, total_pl, avg_win, avg_loss, win_rate) :=
       if (p_total_closed perf =? 0)%Z then (0%Z, 0%Z, Some 0, Some 0, Some 0, 0)
       else (p_wins perf, p_losses perf, p_total_pl perf, p_avg_win perf,
             p_avg_loss perf, percent_of (p_wins perf) (p_total_closed perf)) in
     (* 3. Best performing side *)
     side_perf <- execute_query (List.length filters) (List.length params)
                    (side_performance filters params) ;;
     let '(wins, total_pl, buy_stats, sell_stats) :=
       side_loop side_perf wins total_pl (mkSideStats 0 0 0 0) (mkSideStats 0 0 0 0) in
     let best_side :=
       if Py.ltb (ss_win_rate sell_stats) (ss_win_rate buy_stats) then BestBUY
       else if Py.ltb (ss_win_rate buy_stats) (ss_win_rate sell_stats) then BestSELL
       else TIE in
     (* 4. Lot size impact *)
     lots <- execute_query (List.length user_filters) (List.length user_params)
               (lot_impact user_filters user_params) ;;
     let avg_lot_win := Py.or0 (fst lots) in
     let avg_lot_loss := Py.or0 (snd lots) in
     (* 7. Best timeframe performance *)
     let '(tf_filters, tf_params) := without mentions_timeframe filters params in
     timeframe_perf <- execute_query (List.length tf_filters) (List.length tf_params)
                         (ranking String.eqb String.ltb timeframe_key tf_filters tf_params) ;;
     let '(wins, total_pl, timeframe_stats) := stats_loop timeframe_perf wins total_pl in
     let best_timeframe := best_of timeframe_stats in
     (* 8. Best strategy performance *)
     let '(st_filters, st_params) := without mentions_strategy filters params in
     strategy_perf <- execute_query (List.length st_filters) (List.length st_params)
                        (ranking String.eqb String.ltb strategy_key st_filters st_params) ;;
     let '(wins, total_pl, strategy_stats) := stats_loop strategy_perf wins total_pl in
     let best_strategy := best_of strategy_stats in
     (* 9. Risk:reward ratio analysis *)
     rr <- execute_query (List.length filters) (List.length params)
             (rr_analysis filters params) ;;
     let avg_rr_win := if Py.truthy_opt (fst rr) then fst rr else None in
     let avg_rr_loss := if Py.truthy_opt (snd rr) then snd rr else None in
     (* 10. Combined best performance *)
     let '(cb_filters, cb_params) :=
       without (fun c => mentions_timeframe c || mentions_strategy c) filters params in
     combined_perf <- execute_query (List.length cb_filters) (List.length cb_params)
                        (fun l => sql_limit 5
                                    (ranking pair_eqb pair_ltb combined_key cb_filters cb_params l)) ;;
     let '(wins, total_pl, best_combinations) := stats_loop combined_perf wins total_pl in
     profit_factor <-
       (if Py.truthy_opt avg_loss then
          match avg_win, avg_loss with
          | Some w, Some lo => ret (Some (Py.round2 (Qabs (w / lo))))
          | _, _ => raise TypeError
          end
        else ret None) ;;
     ret (mkInsights total_trades open_trades closed_trades
            (Py.round2 (Py.or0 total_pl)) (Py.round2 win_rate) wins losses
            (Py.round2 (Py.or0 avg_win)) (Py.round2 (Py.or0 avg_loss)) profit_factor
            best_side buy_stats sell_stats
            (Py.round2 avg_lot_win) (Py.round2 avg_lot_loss)
            (Py.round2 (avg_lot_win - avg_lot_loss))
            best_timeframe timeframe_stats
            best_strategy strategy_stats
            (option_map Py.round2 avg_rr_win) (option_map Py.round2 avg_rr_loss)
            best_combinations))
    l.

(** ** RiskMonitor: [check_risk_alerts] *)

(** A row of the two scan queries. Columns 0 to 8 come from
    [trade_tracker]; columns 9 to 11 come from the LEFT JOIN with
    [trade_results] and are NULL for a trade without result and for every
    row of the open-trades query. *)
Record ScanRow := mkScanRow {
  sc_id : Z;
  sc_entry_price : Q;
  sc_take_profit : option Q;
  sc_stop_loss : option Q;
  sc_lot_size : Q;
  sc_balance : Q;
  sc_trade_type : TradeType;
  sc_timestamp : Z;
  sc_risk_reward_ratio : option string;
  sc_result : option TradeOutcome;
  sc_profit_loss : option Q;
  sc_result_timestamp : option Z
}.

Definition scan_row (t : TradeRow) (r : option ResultRow) : ScanRow :=
  mkScanRow (tt_id t) (tt_entry_price t) (tt_take_profit t) (tt_stop_loss t)
    (tt_lot_size t) (tt_balance t) (tt_trade_type t) (tt_timestamp t)
    (tt_risk_reward_ratio t)
    (option_map tr_result r) (option_map tr_profit_loss r)
    (option_map tr_timestamp r).

Definition newest_first (rows : list ScanRow) : list ScanRow :=
  order_by (fun a b => (sc_timestamp b <? sc_timestamp a)%Z) rows.

(** The closed trades of the user with their results, newest first,
    [LIMIT limit]. *)
Definition recent_closed_trades (user_id : string) (limit : Z) (l : Ledger)
    : list ScanRow :=
  sql_limit limit
    (newest_first
       (flat_map
          (fun t =>
             match filter (fun r => (tr_trade_id r =? tt_id t)%Z) (trade_results l) with
             | [] => [scan_row t None]
             | rs => map (fun r => scan_row t (Some r)) rs
             end)
          (filter (fun t => is_closed t && String.eqb (tt_user_id t) user_id)
                  (trade_tracker l)))).

(** The open trades [WHERE status = 'OPEN' AND user_id = ?], newest first. *)
Definition open_trades_of (user_id : string) (l : Ledger) : list ScanRow :=
  newest_first
    (map (fun t => scan_row t None)
         (filter (fun t => is_open t && String.eqb (tt_user_id t) user_id)
                 (trade_tracker l))).

Inductive AlertDetails :=
| consecutive_losses_details (consecutive_losses threshold : Z)
| revenge_trading_details (time_since_loss_hours : Q)
| overconfidence_details (win_streak : Z) (lot_size_increase : Q)
| overtrading_details (trades_count : Z) (time_span_hours : Q)
| high_risk_details (risk_percent risk_amount : Q) (trade_id : Z)
| drawdown_details (drawdown_percent peak_balance current_balance : Q)
| emotional_details (recent_losses recent_wins : Z)
| poor_rr_details (poor_rr_trades : list (Z * string * Q))
| missing_sl_details (trade_ids : list Z)
| account_risk_details (total_risk_percent total_risk_amount : Q) (open_trades : Z).

(** An alert; its message is a rendering of the details and is left out. *)
Record Alert := mkAlert {
  alert_type : AlertType;
  risk_level : RiskLevel;
  details : AlertDetails
}.

Definition has_result (r : TradeOutcome) (row : ScanRow) : bool :=
  match sc_result row with
  | Some r' => TradeOutcome_eqb r' r
  | None => false
  end.

Definition len {A} (l : list A) : Z := Z.of_nat (List.length l).

(** [l[:n]]. *)
Definition slice_to {A} (n : Z) (l : list A) : list A :=
  if (n <? 0)%Z then firstn (Z.to_nat (len l + n)) l else firstn (Z.to_nat n) l.

(** [l[i]], [None] standing for [IndexError]. *)
Definition index {A} (l : list A) (i : Z) : option A :=
  if (i <? 0)%Z then
    if (0 <=? len l + i)%Z then nth_error l (Z.to_nat (len l + i)) else None
  else nth_error l (Z.to_nat i).

Definition hours (seconds : Z) : Q := inject_Z seconds / 3600.

(** [abs(entry - stop_loss)] for a BUY, [abs(stop_loss - entry)] for a SELL. *)
Definition risk_distance_of (row : ScanRow) (stop_loss : Q) : Q :=
  match sc_trade_type row with
  | BUY => Qabs (sc_entry_price row - stop_loss)
  | SELL => Qabs (stop_loss - sc_entry_price row)
  end.

(** 1. Consecutive losses. *)
Fixpoint leading_losses (rows : list ScanRow) : Z :=
  match rows with
  | row :: rest => if has_result LOSS row then (1 + leading_losses rest)%Z else 0%Z
  | [] => 0%Z
  end.

Definition rule_consecutive_losses (recent_trades : list ScanRow)
    (recent_trades_count consecutive_loss_threshold : Z) : list Alert :=
  let consecutive_losses :=
    leading_losses (slice_to recent_trades_count recent_trades) in
  if (consecutive_loss_threshold <=? consecutive_losses)%Z then
    [mkAlert CONSECUTIVE_LOSSES
       (if (5 <=? consecutive_losses)%Z then CRITICAL else HIGH)
       (consecutive_losses_details consecutive_losses consecutive_loss_threshold)]
  else [].

(** 2. Revenge trading: the first adjacent pair whose older trade lost and
    whose newer trade opened less than an hour after that loss. *)
Fixpoint rule_revenge_trading (recent_trades : list ScanRow) : list Alert :=
  match recent_trades with
  | current_trade :: (previous_trade :: _) as rest =>
      match has_result LOSS previous_trade, sc_result_timestamp previous_trade with
      | true, Some prev_time =>
          let time_diff := hours (sc_timestamp current_trade - prev_time) in
          if Py.ltb time_diff 1 then
            [mkAlert REVENGE_TRADING HIGH
               (revenge_trading_details (Py.round2 time_diff))]
          else rule_revenge_trading rest
      | _, _ => rule_revenge_trading rest
      end
  | _ => []
  end.

(** 3. Overconfidence. The percentage divides by the oldest winning lot. *)
Definition rule_overconfidence (recent_trades : list ScanRow) : DB (list Alert) :=
  if (3 <=? len recent_trades)%Z then
    let wins := filter (has_result WIN) (firstn 5 recent_trades) in
    if (3 <=? len wins)%Z then
      let lot_sizes := map sc_lot_size wins in
      match index lot_sizes 0, index lot_sizes (-1) with
      | Some newest, Some oldest =>
          if (2 <=? len lot_sizes)%Z && Py.ltb (oldest * (12 # 10)) newest then
            if Py.truthy oldest then
              ret [mkAlert OVERCONFIDENCE MEDIUM
                     (overconfidence_details (len wins)
                        ((newest / oldest - 1) * 100))]
            else raise ZeroDivisionError
          else ret []
      | _, _ => ret []
      end
    else ret []
  else ret [].

(** 4. Overtrading; an index out of range is swallowed by the [except]. *)
Definition rule_overtrading (recent_trades : list ScanRow)
    (max_trades_per_hour : Z) : list Alert :=
  if (max_trades_per_hour <=? len recent_trades)%Z then
    match index recent_trades 0, index recent_trades (max_trades_per_hour - 1) with
    | Some latest, Some oldest =>
        let time_span := hours (sc_timestamp latest - sc_timestamp oldest) in
        if Py.leb time_span 1 then
          [mkAlert OVERTRADING HIGH
             (overtrading_details max_trades_per_hour (Py.round2 time_span))]
        else []
    | _, _ => []
    end
  else [].

(** 5. Risk per trade: the first candidate over the limit. *)
Fixpoint rule_risk_per_trade (max_risk_per_trade_percent : Q)
    (candidates : list ScanRow) : list Alert :=
  match candidates with
  | [] => []
  | trade :: rest =>
      let balance := sc_balance trade in
      let lot_size := sc_lot_size trade in
      match sc_stop_loss trade with
      | Some stop_loss =>
          if Py.truthy balance && Py.truthy lot_size && Py.truthy stop_loss
             && Py.truthy (sc_entry_price trade) then
            let risk_amount := risk_distance_of trade stop_loss * (lot_size * 100) in
            let risk_percent :=
              if Py.ltb 0 balance then risk_amount / balance * 100 else 0 in
            if Py.ltb max_risk_per_trade_percent risk_percent then
              [mkAlert HIGH_RISK_PER_TRADE
                 (if Py.ltb 5 risk_percent then CRITICAL else HIGH)
                 (high_risk_details (Py.round2 risk_percent)
                    (Py.round2 risk_amount) (sc_id trade))]
            else rule_risk_per_trade max_risk_per_trade_percent rest
          else rule_risk_per_trade max_risk_per_trade_percent rest
      | None => rule_risk_per_trade max_risk_per_trade_percent rest
      end
  end.

Definition Qmax_list (x : Q) (xs : list Q) : Q :=
  fold_left (fun m y => if Py.ltb m y then y else m) xs x.

(** 6. Drawdown from the highest balance seen to the newest one. *)
Definition rule_drawdown (recent_trades : list ScanRow)
    (drawdown_threshold_percent : Q) : list Alert :=
  if (3 <=? len recent_trades)%Z then
    match filter Py.truthy (map sc_balance recent_trades) with
    | current_balance :: (_ :: _) as others =>
        let highest_balance := Qmax_list current_balance others in
        let drawdown_percent :=
          if Py.ltb 0 highest_balance then
            (highest_balance - current_balance) / highest_balance * 100
          else 0 in
        if Py.leb drawdown_threshold_percent drawdown_percent then
          [mkAlert DRAWDOWN
             (if Py.ltb 20 drawdown_percent then CRITICAL else HIGH)
             (drawdown_details (Py.round2 drawdown_percent) highest_balance
                current_balance)]
        else []
    | _ => []
    end
  else [].

(** 7. Emotional state. *)
Definition rule_emotional (recent_trades : list ScanRow) : list Alert :=
  if (5 <=? len recent_trades)%Z then
    let loss_count := count_where (has_result LOSS) (firstn 5 recent_trades) in
    let win_count := count_where (has_result WIN) (firstn 5 recent_trades) in
    if (4 <=? loss_count)%Z then
      [mkAlert EMOTIONAL HIGH (emotional_details loss_count win_count)]
    else []
  else [].

(** 8. Poor risk:reward; a ratio that does not parse is skipped. *)
Definition rule_poor_risk_reward (candidates : list ScanRow) : list Alert :=
  let poor_rr_trades :=
    flat_map
      (fun trade =>
         match sc_risk_reward_ratio trade with
         | Some rr_ratio =>
             if Py.truthy_str (Some rr_ratio) then
               match py_float (replace_one_colon rr_ratio) with
               | Some rr_value =>
                   if Py.ltb rr_value 1 then [(sc_id trade, rr_ratio, rr_value)]
                   else []
               | None => []
               end
             else []
         | None => []
         end)
      candidates in
  match poor_rr_trades with
  | [] => []
  | _ => [mkAlert POOR_RISK_REWARD MEDIUM (poor_rr_details poor_rr_trades)]
  end.

(** 9. Missing stop loss. *)
Definition rule_missing_stop_loss (candidates : list ScanRow) : list Alert :=
  let missing_sl_trades :=
    map sc_id (filter (fun trade => negb (Py.truthy_opt (sc_stop_loss trade)))
                      candidates) in
  match missing_sl_trades with
  | [] => []
  | _ => [mkAlert MISSING_STOP_LOSS CRITICAL (missing_sl_details missing_sl_trades)]
  end.

(** 10. Total open risk against the balance of the newest open trade. *)
Definition rule_account_risk (open_trades : list ScanRow) : list Alert :=
  match open_trades with
  | [] => []
  | first :: _ =>
      let current_balance := if Py.truthy (sc_balance first) then sc_balance first else 0 in
      let total_risk :=
        fold_left
          (fun total_risk trade =>
             match sc_stop_loss trade with
             | Some stop_loss =>
                 if Py.truthy stop_loss && Py.truthy (sc_entry_price trade)
                    && Py.truthy (sc_lot_size trade) then
                   total_risk + risk_distance_of trade stop_loss
                                * (sc_lot_size trade * 100)
                 else total_risk
             | None => total_risk
             end)
          open_trades 0 in
      if Py.ltb 0 current_balance then
        let total_risk_percent := total_risk / current_balance * 100 in
        if Py.ltb 10 total_risk_percent then
          [mkAlert ACCOUNT_RISK_PERCENTAGE
             (if Py.ltb 20 total_risk_percent then CRITICAL else HIGH)
             (account_risk_details (Py.round2 total_risk_percent)
                (Py.round2 total_risk) (len open_trades))]
        else []
      else []
  end.

(** [INSERT INTO risk_monitor (user_id, alert_type, risk_level, message,
    acknowledged) VALUES (?, ?, ?, ?, 0)]. *)
Definition insert_alert (user_id : string) (a : Alert) (l : Ledger) : Ledger * Z :=
  let id := next_rowid (map rm_id (risk_monitor l)) in
  (mkLedger (users l) (trade_tracker l) (trade_results l)
     (risk_monitor l ++ [mkAlertRow id user_id (alert_type a) (risk_level a) false]),
   id).

Fixpoint insert_alerts (user_id : string) (alerts : list Alert) : DB unit :=
  match alerts with
  | [] => ret tt
  | a :: rest =>
      execute_write 4 4 (insert_alert user_id a) ;;;
      insert_alerts user_id rest
  end.

(** The [try] around the inserts and the commit: a read-only failure is
    dropped, anything else goes on to the caller. *)
Definition save_alerts (user_id : string) (alerts : list Alert) : DB unit :=
  fun c =>
    match (insert_alerts user_id alerts ;;; commit) c with
    | (Raised (OperationalError readonly_database), c') => (Returned tt, c')
    | other => other
    end.

Definition risk_order (r : RiskLevel) : Z :=
  match r with
  | CRITICAL => 4
  | HIGH => 3
  | MEDIUM => 2
  | LOW => 1
  end.

Definition is_level (r : RiskLevel) (a : Alert) : bool :=
  (risk_order (risk_level a) =? risk_order r)%Z.

Inductive RiskReply :=
| NothingToAnalyze (alerts : list Alert) (message : string) (total_alerts : Z)
    (* {"alerts": [], "message": ..., "total_alerts": 0} *)
| RiskReport (alerts : list Alert)
    (total_alerts critical_alerts high_alerts medium_alerts low_alerts : Z)
    (message : string).

Definition check_risk_alerts (flt : option Fault) (user_id : string)
    (recent_trades_count consecutive_loss_threshold max_trades_per_hour : Z)
    (max_risk_per_trade_percent drawdown_threshold_percent : Q)
    (l : Ledger) : outcome RiskReply * Ledger :=
  with_connection flt
    (recent_trades <-
       execute_query 2 2
         (recent_closed_trades user_id (recent_trades_count * 2)) ;;
     (* the statement has one placeholder and is executed without parameters *)
     open_trades <- execute_query 1 0 (open_trades_of user_id) ;;
     match recent_trades, open_trades with
     | [], [] => ret (NothingToAnalyze [] "No trades found to analyze" 0)
     | _, _ =>
         let candidates := firstn 5 recent_trades ++ firstn 3 open_trades in
         let alerts := rule_consecutive_losses recent_trades recent_trades_count
                         consecutive_loss_threshold in
         let alerts := alerts ++ (if (2 <=? len recent_trades)%Z
                                   then rule_revenge_trading recent_trades else []) in
         overconfidence <- rule_overconfidence recent_trades ;;
         let alerts := alerts ++ overconfidence in
         let alerts := alerts ++ rule_overtrading recent_trades max_trades_per_hour in
         let alerts := alerts ++ rule_risk_per_trade max_risk_per_trade_percent
                                   candidates in
         let alerts := alerts ++ rule_drawdown recent_trades
                                   drawdown_threshold_percent in
         let alerts := alerts ++ rule_emotional recent_trades in
         let alerts := alerts ++ rule_poor_risk_reward candidates in
         let alerts := alerts ++ rule_missing_stop_loss candidates in
         let alerts := alerts ++ rule_account_risk open_trades in
         save_alerts user_id alerts ;;;
         let alerts :=
           order_by (fun a b => (risk_order (risk_level b) <? risk_order (risk_level a))%Z)
                    alerts in
         ret (RiskReport alerts (len alerts)
                (count_where (is_level CRITICAL) alerts)
                (count_where (is_level HIGH) alerts)
                (count_where (is_level MEDIUM) alerts)
                (count_where (is_level LOW) alerts)
                ("Risk analysis complete. Found " ++ Py.str_of_Z (len alerts)
                   ++ " alert(s)."))
     end)
    l.

(** ** Notions the properties are stated with *)

(** The ledgers the tools can produce: from the empty ledger, by calls that
    return. A call that raises is no step. *)
Inductive reachable : Ledger -> Prop :=
| reachable_empty : reachable empty_ledger
| reachable_save_trade :
    forall flt now user_id entry_price take_profit stop_loss lot_size balance
           trade_type currency_pair timeframe trade_style strategy notes l r l',
      reachable l ->
      save_trade flt now user_id entry_price take_profit stop_loss lot_size
        balance trade_type currency_pair timeframe trade_style strategy notes l
        = (Returned r, l') ->
      reachable l'
| reachable_log_trade_result :
    forall flt now user_id trade_id result notes l r l',
      reachable l ->
      log_trade_result flt now user_id trade_id result notes l = (Returned r, l') ->
      reachable l'
| reachable_get_trade_insights :
    forall flt user_id currency_pair timeframe strategy date_filter l r l',
      reachable l ->
      get_trade_insights flt user_id currency_pair timeframe strategy date_filter l
        = (Returned r, l') ->
      reachable l'
| reachable_check_risk_alerts :
    forall flt user_id n1 n2 n3 q1 q2 l r l',
      reachable l ->
      check_risk_alerts flt user_id n1 n2 n3 q1 q2 l = (Returned r, l') ->
      reachable l'.

(** The results recorded for a trade. *)
Definition results_of (trade_id : Z) (l : Ledger) : list ResultRow :=
  filter (fun r => (tr_trade_id r =? trade_id)%Z) (trade_results l).

(** Trade ids are unique, an OPEN trade has no result and a CLOSED trade
    has exactly one. *)
Definition consistent (l : Ledger) : Prop :=
  NoDup (map tt_id (trade_tracker l)) /\
  forall t, In t (trade_tracker l) ->
    List.length (results_of (tt_id t) l)
    = match tt_status t with OPEN => 0%nat | CLOSED => 1%nat end.

(** The risk:reward ratio in the words of the specification: distances
    with side-dependent sign, both as absolute values; the ratio when the
    risk distance is positive, nothing otherwise. Differences and quotient
    are those of the floats the tool is called with. *)
Definition spec_risk_reward_ratio (entry take_profit stop_loss : Q)
    (side : TradeType) : option string :=
  let profit_distance :=
    Py.fabs (match side with
             | BUY => Py.fsub take_profit entry
             | SELL => Py.fsub entry take_profit
             end) in
  let risk_distance :=
    Py.fabs (match side with
             | BUY => Py.fsub entry stop_loss
             | SELL => Py.fsub stop_loss entry
             end) in
  if Py.fgt0 risk_distance then
    Some ("1:" ++ Py.format_float_2f (Py.fdiv profit_distance risk_distance))%string
  else None.

(** The side-adjusted price move of a winning close (towards the
    take-profit) and of a losing close (towards the stop-loss). *)
Definition win_move (side : TradeType) (entry take_profit : Q) : Q :=
  match side with BUY => take_profit - entry | SELL => entry - take_profit end.

Definition loss_move (side : TradeType) (entry stop_loss : Q) : Q :=
  match side with BUY => entry - stop_loss | SELL => stop_loss - entry end.

(** A price that was supplied and is exactly zero. *)
Definition zero_price (x : option Q) : Prop := exists z, x = Some z /\ z == 0.

(** [a] may stand before [b] in a ranking: a higher win ratio, or the same
    win ratio and a total profit/loss that is not lower. *)
Definition sum_ge (a b : option Q) : Prop :=
  match a, b with
  | Some x, Some y => y <= x
  | _, None => True
  | None, Some _ => False
  end.

Definition ranked_before {K} (a b : GroupRow K) : Prop :=
  win_ratio b < win_ratio a \/
  (win_ratio a == win_ratio b /\ sum_ge (g_total_pl a) (g_total_pl b)).

(** The closed trades with a result that belong to the group of key [k]. *)
Definition members {K} (K_eqb : K -> K -> bool) (key : TradeRow -> option K)
    (k : K) (rows : list (TradeRow * ResultRow)) : list (TradeRow * ResultRow) :=
  filter (has_key K_eqb (fun jr => key (fst jr)) k) rows.

(** The reply entry made from a row of a ranking. *)
Definition ranked_of {K} (g : GroupRow K) : Ranked K :=
  mkRanked (g_key g) (g_total g) (g_wins g)
    (Py.round2 (percent_of (g_wins g) (g_total g)))
    (Py.round2 (Py.or0 (g_total_pl g))).

(** Results refer to trades of the ledger. *)
Definition results_refer_to_trades (l : Ledger) : Prop :=
  forall r, In r (trade_results l) -> In (tr_trade_id r) (map tt_id (trade_tracker l)).

(** Every stored trade has a positive lot size. *)
Definition positive_lots (l : Ledger) : Prop :=
  forall t, In t (trade_tracker l) -> 0 < tt_lot_size t.

(** The invariant the tools maintain. *)
Definition sound (l : Ledger) : Prop :=
  consistent l /\ results_refer_to_trades l /\ positive_lots l.

(** The reply and the ledger of a close that ran to its end. *)
Definition logged (now : Z) (user_id : string) (trade_id : Z)
    (result : TradeOutcome) (notes : option string) (t : TradeRow)
    (exit_price profit_loss : Q) (l : Ledger) : outcome LogTradeReply * Ledger :=
  let stored := insert_result now user_id trade_id result profit_loss notes l in
  let new_balance := tt_balance t + profit_loss in
  (Returned
     (ResultStored
        (mkResultLogged (snd stored) trade_id
           ("Trade #" ++ Py.str_of_Z trade_id ++ " logged as "
              ++ outcome_name result ++ " with P/L: $"
              ++ Py.format_2f profit_loss ++ ". New balance: $"
              ++ Py.format_2f new_balance)
           result profit_loss (tt_balance t) new_balance (tt_entry_price t)
           exit_price (tt_lot_size t) CLOSED notes)),
   fst (update_closed trade_id (fst stored))).

(** A computation that commits nothing. *)
Definition keeps_disk {A} (m : DB A) : Prop := forall c, disk (snd (m c)) = disk c.

(** What it is for [ranked] to be the ranking of the joined rows [rows] by
    [key]: one entry per key that occurs, each with the count, the wins and
    the total profit/loss of the rows of its key, entries in rank order. *)
Record is_ranking {K} (K_eqb : K -> K -> bool) (key : TradeRow -> option K)
    (rows : list (TradeRow * ResultRow)) (ranked : list (GroupRow K)) : Prop :=
  mk_is_ranking {
    ranking_distinct : NoDup (map (@g_key K) ranked);
    ranking_complete :
      forall jr k, In jr rows -> key (fst jr) = Some k ->
                   In k (map (@g_key K) ranked);
    ranking_groups :
      forall g, In g ranked ->
        let ms := members K_eqb key (g_key g) rows in
        ms <> [] /\
        g_total g = len ms /\
        g_wins g = count_where won ms /\
        g_total_pl g = sql_sum (map pl_of ms);
    ranking_sorted : StronglySorted ranked_before ranked
  }.



(** The filter of a call on the column [c], with the value [v], as a ranking
    applies it to a row whose column holds [column]: a value that is set and
    not empty has to be the one of the column, unless the ranking leaves
    the filters on [c] out. *)
Definition kept (drop : Condition -> bool) (c : Condition)
    (v : option string) (column : option string) : Prop :=
  forall s, v = Some s -> s <> ""%string -> drop c = false -> column = Some s.

(** Two ledgers that hold the same trades and results of [user_id]: they
    differ only in what other users own. *)
Definition same_for (user_id : string) (l1 l2 : Ledger) : Prop :=
  filter (fun t => String.eqb (tt_user_id t) user_id) (trade_tracker l1)
  = filter (fun t => String.eqb (tt_user_id t) user_id) (trade_tracker l2) /\
  filter (fun r => String.eqb (tr_user_id r) user_id) (trade_results l1)
  = filter (fun r => String.eqb (tr_user_id r) user_id) (trade_results l2).

(** ** Histories of calls and side blocks *)

(** Two rows that agree on every column but the status. *)
Definition same_but_status (t t' : TradeRow) : Prop := close_row t = close_row t'.

(** One call of a tool, whatever it answers and whatever fault it meets:
    the ledger before and the ledger after. *)
Inductive tool_call : Ledger -> Ledger -> Prop :=
| call_save_trade :
    forall flt now user_id entry_price take_profit stop_loss lot_size balance
           trade_type currency_pair timeframe trade_style strategy notes l,
      tool_call l
        (snd (save_trade flt now user_id entry_price take_profit stop_loss
                lot_size balance trade_type currency_pair timeframe trade_style
                strategy notes l))
| call_log_trade_result :
    forall flt now user_id trade_id result notes l,
      tool_call l (snd (log_trade_result flt now user_id trade_id result notes l))
| call_get_trade_insights :
    forall flt user_id currency_pair timeframe strategy date_filter l,
      tool_call l
        (snd (get_trade_insights flt user_id currency_pair timeframe strategy
                date_filter l))
| call_check_risk_alerts :
    forall flt user_id n1 n2 n3 q1 q2 l,
      tool_call l (snd (check_risk_alerts flt user_id n1 n2 n3 q1 q2 l)).

(** A sequence of calls. *)
Inductive history : Ledger -> Ledger -> Prop :=
| history_nil : forall l, history l l
| history_call : forall l l' l'', history l l' -> tool_call l' l'' -> history l l''.

(** [l'] keeps everything [l] holds: the trade rows in place, each with its
    columns and with a status that was not reopened, then possibly new
    trades; the results and the users, then possibly new ones; the same
    alerts. *)
Definition keeps (l l' : Ledger) : Prop :=
  (exists kept added,
      trade_tracker l' = kept ++ added /\
      Forall2 (fun t t' => same_but_status t t' /\
                           (tt_status t = CLOSED -> tt_status t' = CLOSED))
              (trade_tracker l) kept) /\
  (exists added, trade_results l' = trade_results l ++ added) /\
  (exists added, users l' = users l ++ added) /\
  risk_monitor l' = risk_monitor l.

(** What a ledger holds after any sequence of calls from the empty one. *)
Definition well_formed (l : Ledger) : Prop :=
  NoDup (map tt_id (trade_tracker l)) /\
  NoDup (map tr_id (trade_results l)) /\
  (forall t, In t (trade_tracker l) -> 0 < tt_lot_size t) /\
  (forall r, In r (trade_results l) ->
     exists t, In t (trade_tracker l) /\ tt_id t = tr_trade_id r /\
               tt_user_id t = tr_user_id r) /\
  risk_monitor l = [].

(** No filter value of the call is the caller's own identifier. *)
Definition no_clash (user_id : string) (currency_pair timeframe strategy : option string)
    : Prop :=
  currency_pair <> Some user_id /\ timeframe <> Some user_id /\
  strategy <> Some user_id.

(** The two dictionaries the loop over [side_perf] builds; they do not
    depend on what [wins] and [total_pl] were before it. *)
Definition side_stats (side_perf : list (GroupRow TradeType)) : SideStats * SideStats :=
  let '(_, _, buy_stats, sell_stats) :=
    side_loop side_perf 0 None (mkSideStats 0 0 0 0) (mkSideStats 0 0 0 0) in
  (buy_stats, sell_stats).

(** The joined rows of one side. *)
Definition side_rows (side : TradeType) (rows : list (TradeRow * ResultRow))
    : list (TradeRow * ResultRow) :=
  filter (fun jr => TradeType_eqb (tt_trade_type (fst jr)) side) rows.

(** The dictionary of a side read off its rows: the initial dictionary when
    the side has none. *)
Definition side_stats_of (side : TradeType) (rows : list (TradeRow * ResultRow))
    : SideStats :=
  match side_rows side rows with
  | [] => mkSideStats 0 0 0 0
  | ms => mkSideStats (len ms) (count_where won ms)
            (percent_of (count_where won ms) (len ms))
            (Py.or0 (sql_sum (map pl_of ms)))
  end.

(** The connection [c] on a store without fault. *)
Definition healed (c : Conn) : Conn := mkConn (disk c) (view c) None (issued c).

(** A computation that a storage fault can only stop with the fault's
    [OperationalError]: it runs as on the healthy store, or raises that. *)
Definition fails_only_in_storage {A} (m : DB A) : Prop :=
  forall c,
    fault (snd (m c)) = fault c /\
    ((fst (m c) = fst (m (healed c)) /\ healed (snd (m c)) = snd (m (healed c))) \/
     exists n why,
       fault c = Some (n, why) /\ fst (m c) = Raised (OperationalError why)).

(** The ledger after the INSERT of every alert of [alerts], in order. *)
Definition with_alerts (user_id : string) (alerts : list Alert) (l : Ledger) : Ledger :=
  fold_left (fun l a => fst (insert_alert user_id a l)) alerts l.

(** The trades and the results of [user_id]. *)
Definition own_trades (user_id : string) (l : Ledger) : list TradeRow :=
  filter (fun t => String.eqb (tt_user_id t) user_id) (trade_tracker l).

Definition own_results (user_id : string) (l : Ledger) : list ResultRow :=
  filter (fun r => String.eqb (tr_user_id r) user_id) (trade_results l).

(** ** Ledgers used in the examples *)

(** alice opens a BUY at 2000 with the take-profit below the entry. *)
Definition ledger_tp_below_entry : Ledger :=
  snd (save_trade None 100 "alice" 2000 (Some 1990) None 1 10000 BUY "XAU/USD"
         None None None None empty_ledger).

(** alice opens a BUY at 2000, take-profit 2010, stop-loss 1995, on the 5m
    chart. *)
Definition ledger_one_open : Ledger :=
  snd (save_trade None 100 "alice" 2000 (Some 2010) (Some 1995) 1 10000 BUY
         "XAU/USD" (Some M5) None None None empty_ledger).

(** ... and closes it as a WIN. *)
Definition ledger_one_win : Ledger :=
  snd (log_trade_result None 200 "alice" 1 WIN None ledger_one_open).

(** bob opens a trade; alice has none. *)
Definition ledger_bob_only : Ledger :=
  snd (save_trade None 100 "bob" 2000 (Some 2010) (Some 1995) 1 10000 BUY
         "XAU/USD" (Some M5) None None None empty_ledger).

(** bob opens a trade and closes it as a WIN; alice has none. *)
Definition ledger_bob_win : Ledger :=
  snd (log_trade_result None 200 "bob" 1 WIN None ledger_bob_only).

(** alice opens a trade and closes it as a LOSS: she has no winning trade. *)
Definition ledger_one_loss : Ledger :=
  snd (log_trade_result None 200 "alice" 1 LOSS None ledger_one_open).

(** Three closed losses, newest first. *)
Definition scan_three_losses : list ScanRow :=
  [mkScanRow 3 2000 (Some 2010) (Some 1995) 1 9000 BUY 300 (Some "1:2.00"%string)
     (Some LOSS) (Some (-(500))) (Some 350%Z);
   mkScanRow 2 2000 (Some 2010) (Some 1995) 1 9500 BUY 200 (Some "1:2.00"%string)
     (Some LOSS) (Some (-(500))) (Some 250%Z);
   mkScanRow 1 2000 (Some 2010) (Some 1995) 1 10000 BUY 100 (Some "1:2.00"%string)
     (Some LOSS) (Some (-(500))) (Some 150%Z)].

(** alice opens a trade, then bob opens one. *)
Definition ledger_alice_and_bob : Ledger :=
  snd (save_trade None 150 "bob" 2000 (Some 2010) (Some 1995) 1 10000 BUY
         "XAU/USD" (Some M5) None None None ledger_one_open).

(** alice opens a second trade like the first, on the 1h chart ... *)
Definition ledger_two_open : Ledger :=
  snd (save_trade None 110 "alice" 2000 (Some 2010) (Some 1995) 1 10000 BUY
         "XAU/USD" (Some H1) None None None ledger_one_open).

(** ... and closes both as a WIN: the 5m and the 1h chart rank the same. *)
Definition ledger_tied_timeframes : Ledger :=
  snd (log_trade_result None 210 "alice" 2 WIN None
         (snd (log_trade_result None 200 "alice" 1 WIN None ledger_two_open))).

(** alice opens a third trade, of twice the size, and closes it as a WIN as
    well. *)
Definition ledger_three_wins : Ledger :=
  snd (log_trade_result None 230 "alice" 3 WIN None
         (snd (save_trade None 220 "alice" 2000 (Some 2010) (Some 1995) 2 10000
                 BUY "XAU/USD" (Some M5) None None None ledger_tied_timeframes))).

(** * Properties *)

(** ** Python comparisons and truth values *)

Lemma leb_true x y : Py.leb x y = true <-> x <= y.
Proof. unfold Py.leb. apply Qle_bool_iff. Qed.

Lemma leb_false x y : Py.leb x y = false <-> y < x.
Proof.
  unfold Py.leb. split; intros H.
  - apply Qnot_le_lt. intros Hle. apply Qle_bool_iff in Hle. congruence.
  - destruct (Qle_bool x y) eqn:E; [|reflexivity].
    apply Qle_bool_iff in E. lra.
Qed.



Lemma truthy_false x : Py.truthy x = false <-> x == 0.
Proof.
  unfold Py.truthy. rewrite negb_false_iff. apply Qeq_bool_iff.
Qed.

Lemma truthy_true x : Py.truthy x = true <-> ~ x == 0.
Proof.
  unfold Py.truthy. rewrite negb_true_iff. split; intros H.
  - intros E. apply Qeq_bool_iff in E. congruence.
  - destruct (Qeq_bool x 0) eqn:E; [|reflexivity].
    apply Qeq_bool_iff in E. contradiction.
Qed.

(** Unfolding of the connection monad. *)
Ltac run_db :=
  unfold with_connection, execute_query, execute_write, commit, bind,
    bind_parameters, storage_step, ret, raise; simpl.

Lemma save_trade_run now user_id entry tp sl lot balance side pair tf style strat notes l :
  save_trade None now user_id entry tp sl lot balance side pair tf style strat notes l
  = if Py.leb lot 0 then (Returned (LotSizeRejected lot), l)
    else
      let rr := risk_reward_ratio entry tp sl side in
      let stored :=
        insert_trade now user_id entry tp sl lot balance side pair tf style strat rr
          notes (fst (insert_or_ignore_user user_id l)) in
      (Returned (TradeStored
                   (mkTradeSaved (snd stored)
                      ("Trade #" ++ Py.str_of_Z (snd stored) ++ " saved successfully")
                      OPEN entry tp sl lot balance side pair tf style strat rr
                      (potential_profit entry tp lot) (potential_loss entry sl lot)
                      notes)),
       fst stored).
Proof.
  unfold save_trade. destruct (Py.leb lot 0); [reflexivity|].
  run_db. reflexivity.
Qed.

Lemma save_trade_returned flt now user_id entry tp sl lot balance side pair tf style strat notes l r l' :
  save_trade flt now user_id entry tp sl lot balance side pair tf style strat notes l = (Returned r, l') ->
  save_trade None now user_id entry tp sl lot balance side pair tf style strat notes l = (Returned r, l').
Proof.
  destruct flt as [[n why]|]; [|exact (fun H => H)].
  unfold save_trade. destruct (Py.leb lot 0); [exact (fun H => H)|].
  run_db.
  destruct n as [|[|[|n]]]; simpl; intros H; try discriminate H; exact H.
Qed.

Lemma log_trade_result_run now user_id trade_id result notes l :
  log_trade_result None now user_id trade_id result notes l
  = match select_trade trade_id user_id l with
    | None =>
        (Returned (ErrorReply ("Trade #" ++ Py.str_of_Z trade_id ++ " not found")
                     trade_id None), l)
    | Some t =>
        match tt_status t with
        | CLOSED =>
            (Returned (WarningReply
                         ("Trade #" ++ Py.str_of_Z trade_id ++ " is already closed")
                         trade_id CLOSED), l)
        | OPEN =>
            match profit_loss_of result t with
            | None => (Returned (missing_target_reply result trade_id), l)
            | Some (exit_price, profit_loss) =>
                logged now user_id trade_id result notes t exit_price profit_loss l
            end
        end
    end.
Proof.
  unfold log_trade_result, logged. run_db.
  destruct (select_trade trade_id user_id l) as [t|]; [|reflexivity].
  destruct (tt_status t); [|reflexivity].
  destruct (profit_loss_of result t) as [[e p]|]; reflexivity.
Qed.

Lemma log_trade_result_returned flt now user_id trade_id result notes l r l' :
  log_trade_result flt now user_id trade_id result notes l = (Returned r, l') ->
  log_trade_result None now user_id trade_id result notes l = (Returned r, l').
Proof.
  destruct flt as [[n why]|]; [|exact (fun H => H)].
  unfold log_trade_result. run_db.
  destruct n as [|[|[|[|[|n]]]]]; simpl; try discriminate;
    (destruct (select_trade trade_id user_id l) as [t|]; [|exact (fun H => H)]);
    (destruct (tt_status t); [|exact (fun H => H)]);
    (destruct (profit_loss_of result t) as [[e p]|]; [|exact (fun H => H)]);
    simpl; intros H; try discriminate H; exact H.
Qed.

(** C7. [save_trade] called with a lot size that is zero or negative
    returns the validation payload carrying the offending lot size, and the
    ledger it leaves is the ledger it found: no trade row and no user row
    is created. *)
Theorem save_trade_rejects_non_positive_lot_size :
  forall flt now user_id entry_price take_profit stop_loss lot_size balance
         trade_type currency_pair timeframe trade_style strategy notes l,
    lot_size <= 0 ->
    save_trade flt now user_id entry_price take_profit stop_loss lot_size balance
      trade_type currency_pair timeframe trade_style strategy notes l
    = (Returned (LotSizeRejected lot_size), l).
Proof.
  intros flt now user_id entry tp sl lot balance side pair tf style strat notes l
         Hlot.
  unfold save_trade. apply leb_true in Hlot. rewrite Hlot. reflexivity.
Qed.

Lemma save_trade_rejects_non_positive_lot_size_witness :
  save_trade None 100 "alice" 2000 (Some 2010) (Some 1995) 0 10000 BUY "XAU/USD"
    None None None None empty_ledger
  = (Returned (LotSizeRejected 0), empty_ledger).
Proof.
  apply save_trade_rejects_non_positive_lot_size. unfold Qle; simpl; lia.
Defined.

Lemma risk_reward_ratio_spec entry tp sl side :
  ~ tp == 0 -> ~ sl == 0 -> ~ entry == 0 ->
  risk_reward_ratio entry (Some tp) (Some sl) side
  = spec_risk_reward_ratio entry tp sl side.
Proof.
  intros Htp Hsl He. unfold risk_reward_ratio, spec_risk_reward_ratio.
  apply truthy_true in Htp, Hsl, He. rewrite Htp, Hsl, He. simpl.
  destruct side; reflexivity.
Qed.

Lemma risk_reward_ratio_zero entry tp sl side :
  zero_price tp \/ zero_price sl \/ entry == 0 ->
  risk_reward_ratio entry tp sl side = None.
Proof.
  unfold risk_reward_ratio, zero_price.
  intros [(z & -> & Hz)|[(z & -> & Hz)|Hz]]; apply truthy_false in Hz.
  - rewrite Hz. destruct sl; reflexivity.
  - destruct tp as [tp|]; [|reflexivity]. rewrite Hz.
    rewrite andb_false_r. reflexivity.
  - destruct tp as [tp|]; [|reflexivity]. destruct sl as [sl|]; [|reflexivity].
    rewrite Hz, andb_false_r. reflexivity.
Qed.

Lemma lot_accepted lot : 0 < lot -> Py.leb lot 0 = false.
Proof. intros H. apply leb_false. exact H. Qed.

(** C6, amended. When take-profit and stop-loss are both supplied and
    take-profit, stop-loss and entry price are all different from zero, the
    row [save_trade] stores carries the risk:reward ratio of the
    specification: side-dependent distances taken as absolute values, the
    text "1:<ratio to 2 decimals>" when the risk distance is positive and
    nothing otherwise, distances and ratio being the binary64 differences
    and quotient; the reply carries the same ratio, and entry 2000,
    take-profit 2010, stop-loss 1995, BUY stores "1:2.00". The two decimals
    are those of the binary64 quotient: entry 2000, take-profit 2203,
    stop-loss 1800, BUY stores "1:1.01", the quotient being just below
    1.015. *)
Theorem save_trade_stores_risk_reward_ratio :
  forall now user_id entry_price take_profit stop_loss lot_size balance
         trade_type currency_pair timeframe trade_style strategy notes l,
    0 < lot_size ->
    ~ take_profit == 0 -> ~ stop_loss == 0 -> ~ entry_price == 0 ->
    exists t row l',
      save_trade None now user_id entry_price (Some take_profit) (Some stop_loss)
        lot_size balance trade_type currency_pair timeframe trade_style strategy
        notes l = (Returned (TradeStored t), l') /\
      trade_tracker l' = trade_tracker l ++ [row] /\
      tt_risk_reward_ratio row
      = spec_risk_reward_ratio entry_price take_profit stop_loss trade_type /\
      ts_risk_reward_ratio t = tt_risk_reward_ratio row /\
      (entry_price = 2000 -> take_profit = 2010 -> stop_loss = 1995 ->
       trade_type = BUY -> tt_risk_reward_ratio row = Some "1:2.00"%string) /\
      (entry_price = 2000 -> take_profit = 2203 -> stop_loss = 1800 ->
       trade_type = BUY -> tt_risk_reward_ratio row = Some "1:1.01"%string).
Proof.
  intros now user_id entry tp sl lot balance side pair tf style strat notes l
         Hlot Htp Hsl He.
  rewrite save_trade_run, (lot_accepted Hlot).
  rewrite (risk_reward_ratio_spec side Htp Hsl He).
  eexists _, _, _. split; [reflexivity|].
  unfold insert_trade; simpl.
  assert (Hu : trade_tracker (fst (insert_or_ignore_user user_id l)) = trade_tracker l).
  { unfold insert_or_ignore_user. destruct (existsb _ _); reflexivity. }
  rewrite Hu. split; [reflexivity|]. simpl. split; [reflexivity|].
  split; [reflexivity|].
  split; intros -> -> -> ->; vm_compute; reflexivity.
Qed.

Lemma save_trade_stores_risk_reward_ratio_witness :
  exists t row l',
    save_trade None 100 "alice" 2000 (Some 2010) (Some 1995) 1 10000 BUY
      "XAU/USD" None None None None empty_ledger = (Returned (TradeStored t), l') /\
    trade_tracker l' = [row] /\
    tt_risk_reward_ratio row = Some "1:2.00"%string /\
    ts_risk_reward_ratio t = Some "1:2.00"%string.
Proof.
  destruct (@save_trade_stores_risk_reward_ratio 100 "alice" 2000 2010 1995 1
              10000 BUY "XAU/USD" None None None None empty_ledger)
    as (t & row & l' & Hrun & Hrows & _ & Hreply & Hexample & _);
    try (unfold Qeq; simpl; lia); try reflexivity.
  exists t, row, l'. rewrite Hreply, Hexample by reflexivity.
  repeat split; assumption.
Defined.

(** C6 as stated fails: with entry 10, take-profit 0, stop-loss 15, SELL,
    both targets are present and the risk distance is 5, so the stated ratio
    is "1:2.00", but [save_trade] stores no ratio. *)
Lemma risk_reward_ratio_absent_for_zero_take_profit :
  map tt_risk_reward_ratio
    (trade_tracker
       (snd (save_trade None 100 "alice" 10 (Some 0) (Some 15) 1 10000 SELL
               "XAU/USD" None None None None empty_ledger)))
  = [None]
  /\ spec_risk_reward_ratio 10 0 15 SELL = Some "1:2.00"%string.
Proof. split; reflexivity. Qed.

(** C10. A price of exactly zero counts as absent. [save_trade] with a
    take-profit, stop-loss or entry price equal to zero stores the trade
    without risk:reward ratio and reports no potential profit (take-profit
    or entry zero) and no potential loss (stop-loss or entry zero);
    [log_trade_result] on an open trade whose take-profit (for WIN) or
    stop-loss (for LOSS) is stored as zero returns the missing-target error
    payload and writes nothing. *)
Theorem zero_price_is_treated_as_absent :
  (forall now user_id entry_price take_profit stop_loss lot_size balance
          trade_type currency_pair timeframe trade_style strategy notes l,
      0 < lot_size ->
      zero_price take_profit \/ zero_price stop_loss \/ entry_price == 0 ->
      exists t row l',
        save_trade None now user_id entry_price take_profit stop_loss lot_size
          balance trade_type currency_pair timeframe trade_style strategy notes l
        = (Returned (TradeStored t), l') /\
        trade_tracker l' = trade_tracker l ++ [row] /\
        tt_take_profit row = take_profit /\ tt_stop_loss row = stop_loss /\
        tt_risk_reward_ratio row = None /\
        ts_risk_reward_ratio t = None /\
        (zero_price take_profit \/ entry_price == 0 -> ts_potential_profit t = None) /\
        (zero_price stop_loss \/ entry_price == 0 -> ts_potential_loss t = None))
  /\
  (forall now user_id trade_id result notes l t,
      select_trade trade_id user_id l = Some t ->
      tt_status t = OPEN ->
      zero_price (match result with
                  | WIN => tt_take_profit t
                  | LOSS => tt_stop_loss t
                  end) ->
      log_trade_result None now user_id trade_id result notes l
      = (Returned
           (ErrorReply
              ("Trade #" ++ Py.str_of_Z trade_id
                 ++ match result with
                    | WIN => " has no take_profit set. Cannot calculate WIN profit automatically."
                    | LOSS => " has no stop_loss set. Cannot calculate LOSS automatically."
                    end)
              trade_id
              (Some match result with
                    | WIN => "Please provide exit_price manually or set take_profit when saving the trade."
                    | LOSS => "Please provide exit_price manually or set stop_loss when saving the trade."
                    end))%string,
         l)).
Proof.
  split.
  - intros now user_id entry tp sl lot balance side pair tf style strat notes l
           Hlot Hzero.
    rewrite save_trade_run, (lot_accepted Hlot).
    rewrite (risk_reward_ratio_zero side Hzero).
    eexists _, _, _. split; [reflexivity|].
    unfold insert_trade; simpl.
    assert (Hu : trade_tracker (fst (insert_or_ignore_user user_id l)) = trade_tracker l).
    { unfold insert_or_ignore_user. destruct (existsb _ _); reflexivity. }
    rewrite Hu. split; [reflexivity|]. simpl.
    repeat (split; [reflexivity|]).
    unfold potential_profit, potential_loss, zero_price.
    split.
    + intros [(z & -> & Hz)|Hz]; apply truthy_false in Hz.
      * rewrite Hz. reflexivity.
      * destruct tp; [|reflexivity]. rewrite Hz, andb_false_r. reflexivity.
    + intros [(z & -> & Hz)|Hz]; apply truthy_false in Hz.
      * rewrite Hz. reflexivity.
      * destruct sl; [|reflexivity]. rewrite Hz, andb_false_r. reflexivity.
  - intros now user_id trade_id result notes l t Hsel Hopen (z & Hz & Hzero).
    rewrite log_trade_result_run, Hsel, Hopen.
    apply truthy_false in Hzero.
    unfold profit_loss_of. destruct result; rewrite Hz, Hzero; reflexivity.
Qed.

Lemma zero_price_is_treated_as_absent_witness :
  (exists t row l',
      save_trade None 100 "alice" 2000 (Some 0) (Some 1995) 1 10000 BUY "XAU/USD"
        None None None None empty_ledger = (Returned (TradeStored t), l') /\
      trade_tracker l' = [row] /\
      tt_take_profit row = Some 0 /\
      tt_risk_reward_ratio row = None /\
      ts_potential_profit t = None)
  /\
  fst (log_trade_result None 200 "alice" 1 WIN None
         (snd (save_trade None 100 "alice" 2000 (Some 0) (Some 1995) 1 10000 BUY
                 "XAU/USD" None None None None empty_ledger)))
  = Returned
      (ErrorReply
         "Trade #1 has no take_profit set. Cannot calculate WIN profit automatically."
         1
         (Some "Please provide exit_price manually or set take_profit when saving the trade."%string)).
Proof.
  split.
  - destruct (proj1 zero_price_is_treated_as_absent 100%Z "alice"%string 2000
                (Some 0) (Some 1995) 1 10000 BUY "XAU/USD"%string None None None
                None empty_ledger)
      as (t & row & l' & Hrun & Hrows & Htp & _ & Hrr & _ & Hpp & _).
    + reflexivity.
    + left. exists 0. split; reflexivity.
    + exists t, row, l'. repeat split; try assumption.
      apply Hpp. left. exists 0. split; reflexivity.
  - rewrite (proj2 zero_price_is_treated_as_absent 200%Z "alice"%string 1%Z WIN
               None
               (snd (save_trade None 100 "alice" 2000 (Some 0) (Some 1995) 1 10000
                       BUY "XAU/USD" None None None None empty_ledger))
               (mkTradeRow 1 "alice" 2000 (Some 0) (Some 1995) 1 10000 BUY
                  "XAU/USD" None None None None None 100 OPEN)).
    + reflexivity.
    + reflexivity.
    + reflexivity.
    + exists 0. split; reflexivity.
Defined.

Lemma profit_loss_of_win t e p :
  profit_loss_of WIN t = Some (e, p) ->
  tt_take_profit t = Some e /\
  p = win_move (tt_trade_type t) (tt_entry_price t) e * (tt_lot_size t * 100).
Proof.
  unfold profit_loss_of, win_move.
  destruct (tt_take_profit t) as [tp|]; [|discriminate].
  destruct (Py.truthy tp); [|discriminate].
  intros H. injection H as <- <-. split; reflexivity.
Qed.

Lemma profit_loss_of_loss t e p :
  profit_loss_of LOSS t = Some (e, p) ->
  tt_stop_loss t = Some e /\
  p = - Qabs (loss_move (tt_trade_type t) (tt_entry_price t) e * (tt_lot_size t * 100)).
Proof.
  unfold profit_loss_of, loss_move.
  destruct (tt_stop_loss t) as [sl|]; [|discriminate].
  destruct (Py.truthy sl); [|discriminate].
  intros H. injection H as <- <-. split; reflexivity.
Qed.

(** What a close that returned a stored result did. *)
Lemma log_trade_result_stored flt now user_id trade_id result notes l r l' :
  log_trade_result flt now user_id trade_id result notes l
  = (Returned (ResultStored r), l') ->
  exists t exit_price profit_loss,
    select_trade trade_id user_id l = Some t /\
    tt_status t = OPEN /\
    profit_loss_of result t = Some (exit_price, profit_loss) /\
    logged now user_id trade_id result notes t exit_price profit_loss l
    = (Returned (ResultStored r), l').
Proof.
  intros H. apply log_trade_result_returned in H.
  rewrite log_trade_result_run in H.
  destruct (select_trade trade_id user_id l) as [t|]; [|discriminate].
  destruct (tt_status t) eqn:Hst; [|discriminate].
  destruct (profit_loss_of result t) as [[e p]|] eqn:Hpl.
  - exists t, e, p. auto.
  - destruct result; discriminate.
Qed.

(** C3. The code commits the result row before it updates the status. When
    the storage layer fails on the UPDATE (statement 3 of the call), the
    call raises, the result row for trade 1 is in the committed ledger and
    trade 1 is still OPEN; a second attempt then finds the trade OPEN and
    stores a second result row for it. *)
Theorem log_trade_result_commits_result_without_closing :
  let run := log_trade_result (Some (3%nat, database_locked)) 200 "alice" 1 WIN
               None ledger_one_open in
  let retry := log_trade_result None 300 "alice" 1 WIN None (snd run) in
  fst run = Raised (OperationalError database_locked) /\
  map tr_trade_id (trade_results (snd run)) = [1%Z] /\
  map tt_status (trade_tracker (snd run)) = [OPEN] /\
  (exists r, fst retry = Returned (ResultStored r)) /\
  map tr_trade_id (trade_results (snd retry)) = [1%Z; 1%Z] /\
  map tt_status (trade_tracker (snd retry)) = [CLOSED].
Proof.
  repeat split. eexists. vm_compute. reflexivity.
Qed.

(** ** The ledger invariant *)

Lemma next_rowid_fresh ids x : In x ids -> (x < next_rowid ids)%Z.
Proof.
  unfold next_rowid. induction ids as [|y ids IH]; simpl; [contradiction|].
  intros [->|H]; [lia|]. specialize (IH H). lia.
Qed.

Lemma next_rowid_not_in ids : ~ In (next_rowid ids) ids.
Proof. intros H. apply next_rowid_fresh in H. lia. Qed.

Lemma NoDup_map_inj {A B} (f : A -> B) (l : list A) a b :
  NoDup (map f l) -> In a l -> In b l -> f a = f b -> a = b.
Proof.
  induction l as [|x l IH]; simpl; [contradiction|].
  intros Hnd Ha Hb Hf. inversion Hnd as [|? ? Hx Hnd']; subst.
  destruct Ha as [->|Ha], Hb as [->|Hb]; auto.
  - exfalso. apply Hx. rewrite Hf. apply in_map. exact Hb.
  - exfalso. apply Hx. rewrite <- Hf. apply in_map. exact Ha.
Qed.

Lemma select_trade_some trade_id user_id l t :
  select_trade trade_id user_id l = Some t ->
  In t (trade_tracker l) /\ tt_id t = trade_id /\ tt_user_id t = user_id.
Proof.
  unfold select_trade. intros H. apply find_some in H. destruct H as [Hin Hb].
  apply andb_true_iff in Hb. destruct Hb as [Hid Hu].
  apply Z.eqb_eq in Hid. apply String.eqb_eq in Hu. auto.
Qed.

Lemma users_insert_keeps_rows user_id l :
  trade_tracker (fst (insert_or_ignore_user user_id l)) = trade_tracker l /\
  trade_results (fst (insert_or_ignore_user user_id l)) = trade_results l.
Proof.
  unfold insert_or_ignore_user. destruct (existsb _ _); split; reflexivity.
Qed.

Lemma filter_app_singleton {A} (p : A -> bool) (l : list A) (x : A) :
  filter p (l ++ [x]) = filter p l ++ (if p x then [x] else []).
Proof. rewrite filter_app. reflexivity. Qed.

Lemma sound_empty : sound empty_ledger.
Proof.
  split; [split|split].
  - apply NoDup_nil.
  - intros t [].
  - intros r [].
  - intros t [].
Qed.

Lemma save_trade_sound flt now user_id entry tp sl lot balance side pair tf style strat notes l r l' :
  sound l ->
  save_trade flt now user_id entry tp sl lot balance side pair tf style strat notes l
  = (Returned r, l') ->
  sound l'.
Proof.
  intros [[Hnd Hcount] [Href Hlots]] H. apply save_trade_returned in H.
  rewrite save_trade_run in H.
  destruct (Py.leb lot 0) eqn:Hlot.
  { injection H as _ <-. repeat split; assumption. }
  apply leb_false in Hlot.
  injection H as _ <-. unfold insert_trade; simpl.
  destruct (users_insert_keeps_rows user_id l) as [Ht Hr].
  unfold sound, consistent, results_refer_to_trades, positive_lots, results_of; simpl.
  rewrite Ht, Hr. repeat split.
  - rewrite map_app; simpl.
    apply NoDup_app; [exact Hnd|repeat constructor; simpl; tauto|].
    intros a Ha [<-|[]]. exact (next_rowid_not_in _ Ha).
  - intros t Hin. apply in_app_or in Hin. destruct Hin as [Hin|[<-|[]]].
    + apply Hcount. exact Hin.
    + simpl. destruct (filter _ _) as [|x xs] eqn:E; [reflexivity|].
      exfalso. assert (Hx : In x (x :: xs)) by (left; reflexivity).
      rewrite <- E in Hx. apply filter_In in Hx. destruct Hx as [Hx Heq].
      apply Z.eqb_eq in Heq. apply Href in Hx. rewrite Heq in Hx.
      exact (next_rowid_not_in _ Hx).
  - intros x Hx. rewrite map_app. apply in_or_app. left. apply Href. exact Hx.
  - intros t Hin. apply in_app_or in Hin. destruct Hin as [Hin|[<-|[]]].
    + apply Hlots. exact Hin.
    + exact Hlot.
Qed.

Lemma closing_keeps_ids trade_id rows :
  map tt_id (map (fun t => if (tt_id t =? trade_id)%Z then close_row t else t) rows)
  = map tt_id rows.
Proof.
  rewrite map_map. apply map_ext. intros t. destruct (_ =? _)%Z; reflexivity.
Qed.

Lemma logged_sound now user_id trade_id result notes t e p l r l' :
  sound l ->
  select_trade trade_id user_id l = Some t ->
  tt_status t = OPEN ->
  logged now user_id trade_id result notes t e p l = (Returned r, l') ->
  sound l'.
Proof.
  intros [[Hnd Hcount] [Href Hlots]] Hsel Hopen H.
  apply select_trade_some in Hsel. destruct Hsel as (Hin & Hid & _).
  unfold logged in H. injection H as _ <-.
  unfold sound, consistent, results_refer_to_trades, positive_lots, results_of; simpl.
  rewrite closing_keeps_ids. repeat split.
  - exact Hnd.
  - intros t' Hin'. apply in_map_iff in Hin'. destruct Hin' as (t0 & <- & Hin0).
    rewrite filter_app_singleton; simpl. rewrite length_app.
    specialize (Hcount t0 Hin0). unfold results_of in Hcount.
    destruct (tt_id t0 =? trade_id)%Z eqn:E.
    + apply Z.eqb_eq in E. simpl. rewrite E, Z.eqb_refl.
      assert (t0 = t) by (apply (NoDup_map_inj tt_id (trade_tracker l)); auto; congruence).
      subst t0. rewrite E, Hopen in Hcount. rewrite Hcount. reflexivity.
    + rewrite Z.eqb_sym, E. simpl. rewrite Hcount. lia.
  - intros x Hx. apply in_app_or in Hx. destruct Hx as [Hx|[<-|[]]].
    + apply Href. exact Hx.
    + simpl. rewrite <- Hid. apply in_map. exact Hin.
  - intros t' Hin'. apply in_map_iff in Hin'. destruct Hin' as (t0 & <- & Hin0).
    specialize (Hlots t0 Hin0). destruct (tt_id t0 =? trade_id)%Z; exact Hlots.
Qed.

Lemma log_trade_result_sound flt now user_id trade_id result notes l r l' :
  sound l ->
  log_trade_result flt now user_id trade_id result notes l = (Returned r, l') ->
  sound l'.
Proof.
  intros Hs H. apply log_trade_result_returned in H.
  rewrite log_trade_result_run in H.
  destruct (select_trade trade_id user_id l) as [t|] eqn:Hsel.
  2:{ injection H as _ <-. exact Hs. }
  destruct (tt_status t) eqn:Hst.
  2:{ injection H as _ <-. exact Hs. }
  destruct (profit_loss_of result t) as [[e p]|].
  - eapply logged_sound; eassumption.
  - injection H as _ <-. exact Hs.
Qed.

Lemma keeps_disk_ret {A} (a : A) : keeps_disk (ret a).
Proof. intros c. reflexivity. Qed.

Lemma keeps_disk_raise {A} e : keeps_disk (@raise A e).
Proof. intros c. reflexivity. Qed.

Lemma keeps_disk_bind {A B} (m : DB A) (k : A -> DB B) :
  keeps_disk m -> (forall a, keeps_disk (k a)) -> keeps_disk (bind m k).
Proof.
  intros Hm Hk c. unfold bind. specialize (Hm c).
  destruct (m c) as [[a|e] c']; simpl in *.
  - rewrite Hk. exact Hm.
  - exact Hm.
Qed.

Lemma keeps_disk_storage_step : keeps_disk storage_step.
Proof.
  intros c. unfold storage_step.
  destruct (fault c) as [[n why]|]; [destruct (Nat.eqb n (issued c))|]; reflexivity.
Qed.

Lemma keeps_disk_execute_query {A} uses supplied (q : Ledger -> A) :
  keeps_disk (execute_query uses supplied q).
Proof.
  unfold execute_query. apply keeps_disk_bind.
  - unfold bind_parameters. destruct (Nat.eqb uses supplied);
      [apply keeps_disk_ret|apply keeps_disk_raise].
  - intros _. apply keeps_disk_bind; [apply keeps_disk_storage_step|].
    intros _ c. reflexivity.
Qed.

Lemma with_connection_keeps_disk {A} flt (m : DB A) l :
  keeps_disk m -> snd (with_connection flt m l) = l.
Proof.
  intros H. unfold with_connection.
  specialize (H (mkConn l l flt 0)). destruct (m _) as [r c]. exact H.
Qed.

Ltac keeps_disk_step :=
  match goal with
  | |- keeps_disk (bind (execute_query _ _ _) _) =>
      apply keeps_disk_bind; [apply keeps_disk_execute_query|intros ?]
  | |- keeps_disk (bind _ _) => apply keeps_disk_bind; [|intros ?]
  | |- keeps_disk (ret _) => apply keeps_disk_ret
  | |- keeps_disk (raise _) => apply keeps_disk_raise
  | |- keeps_disk (let '(_, _) := ?x in _) => destruct x
  | |- keeps_disk (match ?x with _ => _ end) => destruct x
  | |- keeps_disk (if ?x then _ else _) => destruct x
  end.

Lemma get_trade_insights_reads_only flt user_id cp tf st df l :
  snd (get_trade_insights flt user_id cp tf st df l) = l.
Proof.
  unfold get_trade_insights. apply with_connection_keeps_disk.
  repeat keeps_disk_step.
Qed.

Lemma check_risk_alerts_raises flt user_id n1 n2 n3 q1 q2 l :
  exists e, check_risk_alerts flt user_id n1 n2 n3 q1 q2 l = (Raised e, l).
Proof.
  unfold check_risk_alerts. run_db.
  destruct flt as [[[|n] why]|]; simpl; eexists; reflexivity.
Qed.

Lemma reachable_sound l : reachable l -> sound l.
Proof.
  induction 1.
  - apply sound_empty.
  - eapply save_trade_sound; eassumption.
  - eapply log_trade_result_sound; eassumption.
  - pose proof (get_trade_insights_reads_only flt user_id currency_pair timeframe
                  strategy date_filter l) as Hl.
    rewrite H0 in Hl. simpl in Hl. subst l'. exact IHreachable.
  - destruct (check_risk_alerts_raises flt user_id n1 n2 n3 q1 q2 l) as [e He].
    congruence.
Qed.

Lemma find_map_close trade_id user_id rows t :
  find (fun t => (tt_id t =? trade_id)%Z && String.eqb (tt_user_id t) user_id) rows
  = Some t ->
  find (fun t => (tt_id t =? trade_id)%Z && String.eqb (tt_user_id t) user_id)
       (map (fun t => if (tt_id t =? trade_id)%Z then close_row t else t) rows)
  = Some (close_row t).
Proof.
  induction rows as [|x rows IH]; simpl; [discriminate|].
  destruct (tt_id x =? trade_id)%Z eqn:E; simpl.
  - rewrite E. simpl. destruct (String.eqb (tt_user_id x) user_id).
    + intros H. injection H as <-. reflexivity.
    + exact IH.
  - rewrite E. simpl. exact IH.
Qed.

(** As long as every call returns, the invariant holds. In every ledger the
    tools produce by calls that return: an OPEN
    trade has no result and a CLOSED trade exactly one; [save_trade] creates
    no result; a [log_trade_result] that does not store a result leaves the
    ledger as it was; one that stores a result found the trade OPEN, appends
    exactly one result row, leaves the trade CLOSED with that row as its
    only result, and every further [log_trade_result] on that trade returns
    the already-closed warning and leaves the ledger unchanged. *)
Theorem every_trade_has_at_most_one_result :
  forall l,
    reachable l ->
    (forall t, In t (trade_tracker l) ->
       List.length (results_of (tt_id t) l)
       = match tt_status t with OPEN => 0%nat | CLOSED => 1%nat end) /\
    (forall flt now user_id entry_price take_profit stop_loss lot_size balance
            trade_type currency_pair timeframe trade_style strategy notes r l',
       save_trade flt now user_id entry_price take_profit stop_loss lot_size
         balance trade_type currency_pair timeframe trade_style strategy notes l
       = (Returned r, l') ->
       trade_results l' = trade_results l) /\
    (forall flt now user_id trade_id result notes r l',
       log_trade_result flt now user_id trade_id result notes l = (Returned r, l') ->
       match r with
       | ResultStored _ =>
           exists t row,
             select_trade trade_id user_id l = Some t /\
             tt_status t = OPEN /\
             trade_results l' = trade_results l ++ [row] /\
             select_trade trade_id user_id l' = Some (close_row t) /\
             results_of trade_id l' = [row] /\
             forall now' result' notes',
               log_trade_result None now' user_id trade_id result' notes' l'
               = (Returned
                    (WarningReply
                       ("Trade #" ++ Py.str_of_Z trade_id ++ " is already closed")
                       trade_id CLOSED),
                  l')
       | _ => l' = l
       end).
Proof.
  intros l Hreach. apply reachable_sound in Hreach.
  destruct Hreach as [[Hnd Hcount] [Href _]].
  split; [exact Hcount|]. split.
  - intros flt now user_id entry tp sl lot balance side pair tf style strat notes
           r l' H.
    apply save_trade_returned in H. rewrite save_trade_run in H.
    destruct (Py.leb lot 0); injection H as _ <-; [reflexivity|].
    unfold insert_trade; simpl. apply users_insert_keeps_rows.
  - intros flt now user_id trade_id result notes r l' H.
    destruct r as [e i s|w i s|rl].
    + apply log_trade_result_returned in H. rewrite log_trade_result_run in H.
      destruct (select_trade trade_id user_id l) as [t|];
        [destruct (tt_status t); [destruct (profit_loss_of result t) as [[e' p]|]|]|];
        unfold logged in H; congruence.
    + apply log_trade_result_returned in H. rewrite log_trade_result_run in H.
      destruct (select_trade trade_id user_id l) as [t|];
        [destruct (tt_status t); [destruct (profit_loss_of result t) as [[e' p]|]|]|];
        unfold logged in H; congruence.
    + apply log_trade_result_stored in H.
      destruct H as (t & e & p & Hsel & Hopen & _ & Hrun).
      unfold logged in Hrun. cbv zeta in Hrun. injection Hrun as _ <-.
      exists t. eexists. split; [exact Hsel|]. split; [exact Hopen|].
      split; [reflexivity|].
      assert (Hsel' : select_trade trade_id user_id
                        (fst (update_closed trade_id
                                (fst (insert_result now user_id trade_id result p
                                        notes l))))
                      = Some (close_row t)).
      { unfold select_trade; simpl. apply find_map_close. exact Hsel. }
      split; [exact Hsel'|].
      apply select_trade_some in Hsel. destruct Hsel as (Hin & Hid & _).
      split.
      * unfold results_of; simpl. rewrite filter_app_singleton; simpl.
        rewrite Z.eqb_refl.
        specialize (Hcount t Hin). rewrite Hid, Hopen in Hcount.
        unfold results_of in Hcount. apply length_zero_iff_nil in Hcount.
        rewrite Hcount. reflexivity.
      * intros now' result' notes'. rewrite log_trade_result_run.
        simpl in Hsel'. rewrite Hsel'. reflexivity.
Qed.

Lemma ledger_one_open_reachable : reachable ledger_one_open.
Proof.
  unfold ledger_one_open.
  destruct (save_trade None 100 "alice" 2000 (Some 2010) (Some 1995) 1 10000 BUY
              "XAU/USD" (Some M5) None None None empty_ledger)
    as [[r|e] l'] eqn:E; [|vm_compute in E; discriminate].
  simpl. eapply reachable_save_trade; [apply reachable_empty|exact E].
Qed.

Lemma every_trade_has_at_most_one_result_witness :
  exists row,
    trade_results ledger_one_win = [row] /\
    results_of 1 ledger_one_win = [row] /\
    log_trade_result None 300 "alice" 1 LOSS None ledger_one_win
    = (Returned (WarningReply "Trade #1 is already closed" 1 CLOSED), ledger_one_win).
Proof.
  destruct (every_trade_has_at_most_one_result ledger_one_open_reachable)
    as (_ & _ & Hclose).
  specialize (Hclose None 200%Z "alice"%string 1%Z WIN None
                (ResultStored
                   (mkResultLogged 1 1
                      "Trade #1 logged as WIN with P/L: $1000.00. New balance: $11000.00"
                      WIN ((2010 - 2000) * (1 * 100)) 10000
                      (10000 + (2010 - 2000) * (1 * 100)) 2000 2010 1 CLOSED None))
                ledger_one_win eq_refl).
  destruct Hclose as (t & row & _ & _ & Hrows & _ & Hone & Hagain).
  exists row. split; [exact Hrows|]. split; [exact Hone|].
  exact (Hagain 300%Z LOSS None).
Defined.

(** What a fault at the UPDATE or at the second commit leaves of the close
    of an open trade. *)
Lemma log_trade_result_interrupted n why now user_id trade_id result notes l t e p :
  select_trade trade_id user_id l = Some t ->
  tt_status t = OPEN ->
  profit_loss_of result t = Some (e, p) ->
  (3 <= n <= 4)%nat ->
  log_trade_result (Some (n, why)) now user_id trade_id result notes l
  = (Raised (OperationalError why),
     fst (insert_result now user_id trade_id result p notes l)).
Proof.
  intros Hsel Hopen Hpl Hn.
  unfold log_trade_result. run_db.
  destruct n as [|[|[|[|[|n]]]]]; try lia; simpl; rewrite ?Hsel; simpl;
    rewrite ?Hopen, ?Hpl; reflexivity.
Qed.

(** C5. A close that the storage layer interrupts at the UPDATE or at the
    second commit (statements 3 and 4 of the call) raises with its result
    stored and the trade still OPEN. The next close of the same trade is
    therefore not refused: it reports success, stores a second result and
    only then leaves the trade CLOSED, with two results more than before
    the first call. Both calls are calls of the tool, so the ledger they
    leave is one the tools produce. *)
Theorem interrupted_close_is_repeated :
  forall n why now now' user_id trade_id result result' notes notes' l t
         exit_price profit_loss exit_price' profit_loss',
    select_trade trade_id user_id l = Some t ->
    tt_status t = OPEN ->
    profit_loss_of result t = Some (exit_price, profit_loss) ->
    profit_loss_of result' t = Some (exit_price', profit_loss') ->
    (3 <= n <= 4)%nat ->
    let first := log_trade_result (Some (n, why)) now user_id trade_id result
                   notes l in
    let second := log_trade_result None now' user_id trade_id result' notes'
                    (snd first) in
    fst first = Raised (OperationalError why) /\
    select_trade trade_id user_id (snd first) = Some t /\
    List.length (results_of trade_id (snd first))
    = S (List.length (results_of trade_id l)) /\
    (exists r, fst second = Returned (ResultStored r)) /\
    select_trade trade_id user_id (snd second) = Some (close_row t) /\
    tt_status (close_row t) = CLOSED /\
    List.length (results_of trade_id (snd second))
    = S (S (List.length (results_of trade_id l))) /\
    history l (snd second).
Proof.
  intros n why now now' user_id trade_id result result' notes notes' l t
         e p e' p' Hsel Hopen Hpl Hpl' Hn first second.
  assert (Hhist : history l (snd second)).
  { eapply history_call; [eapply history_call; [apply history_nil|]|].
    - apply (call_log_trade_result (Some (n, why)) now user_id trade_id result
               notes l).
    - apply call_log_trade_result. }
  subst second first.
  rewrite (@log_trade_result_interrupted n why now user_id trade_id result notes l
             t e p Hsel Hopen Hpl Hn) in *.
  cbn [fst snd] in *.
  set (half := fst (insert_result now user_id trade_id result p notes l)) in *.
  assert (Hsel' : select_trade trade_id user_id half = Some t) by exact Hsel.
  assert (Hres : List.length (results_of trade_id half)
                 = S (List.length (results_of trade_id l))).
  { unfold results_of, half, insert_result; simpl.
    rewrite filter_app_singleton; simpl. rewrite Z.eqb_refl.
    rewrite length_app. simpl. lia. }
  rewrite log_trade_result_run, Hsel', Hopen, Hpl' in Hhist |- *.
  unfold logged in Hhist |- *. cbn [fst snd] in Hhist |- *.
  split; [reflexivity|]. split; [reflexivity|]. split; [exact Hres|].
  split; [eexists; reflexivity|].
  split; [unfold select_trade; simpl; apply find_map_close; exact Hsel|].
  split; [reflexivity|].
  split; [|exact Hhist].
  unfold results_of in *. simpl.
  rewrite filter_app_singleton; simpl. rewrite Z.eqb_refl.
  rewrite length_app. simpl.
  change (trade_results l ++ _) with (trade_results half). lia.
Qed.

Lemma interrupted_close_is_repeated_witness :
  let first := log_trade_result (Some (4%nat, database_locked)) 200 "alice" 1 WIN
                 None ledger_one_open in
  let second := log_trade_result None 300 "alice" 1 LOSS None (snd first) in
  fst first = Raised (OperationalError database_locked) /\
  (exists r, fst second = Returned (ResultStored r)) /\
  map tt_status (trade_tracker (snd second)) = [CLOSED] /\
  map tr_result (results_of 1 (snd second)) = [WIN; LOSS] /\
  history empty_ledger (snd second) /\
  ~ consistent (snd second).
Proof.
  cbv zeta.
  destruct (@interrupted_close_is_repeated 4%nat database_locked 200%Z 300%Z
              "alice"%string 1%Z WIN LOSS None None ledger_one_open
              (mkTradeRow 1 "alice" 2000 (Some 2010) (Some 1995) 1 10000 BUY
                 "XAU/USD" (Some M5) None None (Some "1:2.00"%string) None 100 OPEN)
              2010 ((2010 - 2000) * (1 * 100))
              1995 (- Qabs ((2000 - 1995) * (1 * 100)))
              eq_refl eq_refl eq_refl eq_refl ltac:(lia))
    as (Hraise & _ & _ & Hret & _ & _ & Hlen & Hhist).
  split; [exact Hraise|]. split; [exact Hret|].
  split; [reflexivity|]. split; [reflexivity|].
  split.
  - assert (H0 : history empty_ledger ledger_one_open).
    { eapply history_call; [apply history_nil|].
      apply (call_save_trade None 100 "alice" 2000 (Some 2010) (Some 1995) 1 10000
               BUY "XAU/USD" (Some M5) None None None empty_ledger). }
    revert Hhist. generalize (snd (log_trade_result None 300 "alice" 1 LOSS None
      (snd (log_trade_result (Some (4%nat, database_locked)) 200 "alice" 1 WIN None
              ledger_one_open)))).
    intros l2 Hhist. clear - H0 Hhist.
    induction Hhist as [l|l l' l'' _ IH Hcall]; [exact H0|].
    eapply history_call; [apply IH; exact H0|exact Hcall].
  - intros [_ Hcount].
    specialize (Hcount
      (mkTradeRow 1 "alice" 2000 (Some 2010) (Some 1995) 1 10000 BUY
         "XAU/USD" (Some M5) None None (Some "1:2.00"%string) None 100 CLOSED)
      ltac:(left; reflexivity)).
    vm_compute in Hcount. discriminate.
Defined.




(** ** Rankings *)

Section OrderByFacts.
Variables (R : Type) (above : R -> R -> bool) (before : R -> R -> Prop).
Hypothesis above_before : forall x y, above x y = true -> before x y.
Hypothesis not_above_before : forall x y, above y x = false -> before x y.
Hypothesis before_trans : forall x y z, before x y -> before y z -> before x z.

Lemma insert_by_perm x l : Permutation (insert_by above x l) (x :: l).
Proof.
  induction l as [|y l IH]; simpl; [reflexivity|].
  destruct (above y x); [|reflexivity].
  rewrite IH. apply perm_swap.
Qed.

Lemma order_by_perm l : Permutation (order_by above l) l.
Proof.
  induction l as [|x l IH]; simpl; [reflexivity|].
  rewrite insert_by_perm. apply perm_skip. exact IH.
Qed.

Lemma insert_by_sorted x l :
  StronglySorted before l -> StronglySorted before (insert_by above x l).
Proof.
  induction 1 as [|y l Hl IH Hy]; simpl.
  - repeat constructor.
  - destruct (above y x) eqn:E.
    + constructor; [exact IH|].
      apply Permutation_Forall with (x := x :: l).
      * symmetry. apply insert_by_perm.
      * constructor; [apply above_before; exact E|exact Hy].
    + apply not_above_before in E.
      constructor; [constructor; assumption|].
      constructor; [exact E|].
      apply Forall_impl with (P := before y); [|exact Hy].
      intros z Hz. exact (before_trans E Hz).
Qed.

Lemma order_by_sorted l : StronglySorted before (order_by above l).
Proof.
  induction l as [|x l IH]; simpl; [constructor|].
  apply insert_by_sorted. exact IH.
Qed.
End OrderByFacts.

Lemma sum_ge_trans a b c : sum_ge a b -> sum_ge b c -> sum_ge a c.
Proof.
  destruct a, b, c; simpl; try tauto. intros. lra.
Qed.

Section RankFacts.
Variable K : Type.
Implicit Types a b c : GroupRow K.

Lemma ranks_above_before a b : ranks_above a b = true -> ranked_before a b.
Proof.
  unfold ranks_above, ranked_before.
  destruct (Qcompare (win_ratio a) (win_ratio b)) eqn:E; try discriminate.
  - apply Qeq_alt in E. intros H. right. split; [exact E|].
    destruct (g_total_pl a), (g_total_pl b); simpl in *; try discriminate; auto.
    apply Qlt_le_weak. unfold Py.ltb in H. apply negb_true_iff in H.
    apply Qnot_le_lt. intros Hle. apply Qle_bool_iff in Hle. congruence.
  - apply Qgt_alt in E. intros _. left. exact E.
Qed.

Lemma not_ranks_above_before a b : ranks_above b a = false -> ranked_before a b.
Proof.
  unfold ranks_above, ranked_before.
  destruct (Qcompare (win_ratio b) (win_ratio a)) eqn:E; try discriminate.
  - apply Qeq_alt in E. intros H. right. split; [symmetry; exact E|].
    destruct (g_total_pl a), (g_total_pl b); simpl in *; try discriminate; auto.
    unfold Py.ltb in H. apply negb_false_iff in H. apply Qle_bool_iff in H.
    exact H.
  - apply Qlt_alt in E. intros _. left. exact E.
Qed.

Lemma ranked_before_trans a b c :
  ranked_before a b -> ranked_before b c -> ranked_before a c.
Proof.
  unfold ranked_before. intros [H1|[H1 S1]] [H2|[H2 S2]].
  - left. lra.
  - left. lra.
  - left. lra.
  - right. split; [lra|]. exact (sum_ge_trans _ _ _ S1 S2).
Qed.
End RankFacts.

Section GroupingFacts.
Variables (R K : Type) (K_eqb : K -> K -> bool) (key : R -> option K).
Hypothesis K_eqb_eq : forall a b, K_eqb a b = true <-> a = b.

Lemma K_eqb_refl k : K_eqb k k = true.
Proof. apply K_eqb_eq. reflexivity. Qed.

Lemma distinct_keys_in rows k :
  In k (distinct_keys K_eqb key rows) <-> exists r, In r rows /\ key r = Some k.
Proof.
  induction rows as [|r rows IH]; simpl.
  - split; [contradiction|]. intros (r & [] & _).
  - destruct (key r) as [k0|] eqn:E.
    + simpl. rewrite filter_In, IH. split.
      * intros [<-|[(r' & Hin & Hk) _]]; [exists r|exists r']; auto.
      * intros (r' & [<-|Hin] & Hk).
        -- left. congruence.
        -- destruct (K_eqb k k0) eqn:Ek.
           ++ left. apply K_eqb_eq in Ek. congruence.
           ++ right. split; [exists r'; auto|reflexivity].
    + rewrite IH. split.
      * intros (r' & Hin & Hk). exists r'. auto.
      * intros (r' & [<-|Hin] & Hk); [congruence|]. exists r'. auto.
Qed.

Lemma distinct_keys_NoDup rows : NoDup (distinct_keys K_eqb key rows).
Proof.
  induction rows as [|r rows IH]; simpl; [constructor|].
  destruct (key r) as [k0|]; [|exact IH].
  constructor.
  - rewrite filter_In. intros [_ H]. rewrite K_eqb_refl in H. discriminate.
  - apply NoDup_filter. exact IH.
Qed.

Lemma group_by_keys rows :
  map fst (group_by K_eqb key rows) = distinct_keys K_eqb key rows.
Proof.
  unfold group_by. rewrite map_map. simpl. apply map_id.
Qed.

Lemma group_by_in rows g :
  In g (group_by K_eqb key rows) ->
  snd g = filter (has_key K_eqb key (fst g)) rows /\ snd g <> [].
Proof.
  unfold group_by. rewrite in_map_iff. intros (k & <- & Hk). simpl.
  split; [reflexivity|].
  apply distinct_keys_in in Hk. destruct Hk as (r & Hin & Hr).
  intros E. assert (H : In r (filter (has_key K_eqb key k) rows)).
  { apply filter_In. split; [exact Hin|]. unfold has_key. rewrite Hr.
    apply K_eqb_refl. }
  rewrite E in H. exact H.
Qed.
End GroupingFacts.

Lemma pair_eqb_eq a b : pair_eqb a b = true <-> a = b.
Proof.
  unfold pair_eqb. destruct a as [a1 a2], b as [b1 b2]; simpl.
  rewrite andb_true_iff, !String.eqb_eq. split; [intros [-> ->]|intros [= -> ->]]; auto.
Qed.

Lemma grouped_keys {K} K_eqb (key : TradeRow -> option K) conds params l :
  map (@g_key K) (grouped K_eqb key conds params l)
  = distinct_keys K_eqb (fun jr => key (fst jr)) (closed_rows conds params l).
Proof.
  unfold grouped. rewrite map_map. simpl. rewrite <- group_by_keys.
  reflexivity.
Qed.






(** A sort by [above] keeps the order [first] the rows came in among rows
    that it does not rank apart. *)
Section StableOrder.
Variables (R : Type) (above : R -> R -> bool) (first : R -> R -> Prop).


End StableOrder.



(** The groups in the order of their keys. *)
Section KeyOrder.
Variables (K : Type) (K_ltb : K -> K -> bool).
Hypothesis K_ltb_trans :
  forall a b c, K_ltb a b = true -> K_ltb b c = true -> K_ltb a c = true.
Hypothesis K_ltb_total : forall a b, K_ltb a b = false -> a = b \/ K_ltb b a = true.



End KeyOrder.

(** The ranking queries compute rankings. *)
Lemma ranking_perm {K} (K_eqb K_ltb : K -> K -> bool) (key : TradeRow -> option K)
    conds params l :
  Permutation (ranking K_eqb K_ltb key conds params l)
              (grouped K_eqb key conds params l).
Proof.
  unfold ranking.
  rewrite (order_by_perm (@ranks_above K)). apply order_by_perm.
Qed.

Lemma ranking_is_ranking {K} (K_eqb K_ltb : K -> K -> bool)
    (key : TradeRow -> option K) conds params l :
  (forall a b, K_eqb a b = true <-> a = b) ->
  is_ranking K_eqb key (closed_rows conds params l)
             (ranking K_eqb K_ltb key conds params l).
Proof.
  intros Heq.
  pose proof (ranking_perm K_eqb K_ltb key conds params l) as Hperm.
  set (gs := grouped K_eqb key conds params l) in *.
  constructor.
  - apply (Permutation_NoDup (l := map (@g_key K) gs)).
    + apply Permutation_map. symmetry. exact Hperm.
    + unfold gs. rewrite grouped_keys. apply distinct_keys_NoDup. exact Heq.
  - intros jr k Hin Hk.
    apply (Permutation_in (l := map (@g_key K) gs)).
    + apply Permutation_map. symmetry. exact Hperm.
    + unfold gs. rewrite grouped_keys. apply distinct_keys_in; [exact Heq|].
      exists jr. auto.
  - intros g Hg. apply (Permutation_in _ Hperm) in Hg.
    unfold gs, grouped in Hg. apply in_map_iff in Hg.
    destruct Hg as (grp & <- & Hgrp).
    apply group_by_in in Hgrp; [|exact Heq]. destruct Hgrp as [Hrows Hne].
    unfold aggregate, members; simpl. rewrite <- Hrows.
    repeat split; auto.
  - unfold ranking. apply order_by_sorted.
    + apply ranks_above_before.
    + apply not_ranks_above_before.
    + apply ranked_before_trans.
Qed.


(** The loop that turns the rows of a ranking query into reply entries. *)
Lemma stats_loop_entries {K} (perf : list (GroupRow K)) wins total_pl :
  snd (stats_loop perf wins total_pl) = map (@ranked_of K) perf.
Proof.
  unfold stats_loop.
  assert (H : forall acc w p,
             snd (fold_left
                    (fun st row =>
                       let '(_, _, stats) := st in
                       (g_wins row, g_total_pl row,
                        stats ++ [mkRanked (g_key row) (g_total row) (g_wins row)
                                    (Py.round2 (percent_of (g_wins row) (g_total row)))
                                    (Py.round2 (Py.or0 (g_total_pl row)))]))
                    perf (w, p, acc))
             = acc ++ map (@ranked_of K) perf).
  { induction perf as [|g perf IH]; intros acc w p; simpl.
    - rewrite app_nil_r. reflexivity.
    - rewrite IH, <- app_assoc. reflexivity. }
  apply (H [] wins total_pl).
Qed.


Lemma bind_returned {A B} (m : DB A) (k : A -> DB B) c b c2 :
  bind m k c = (Returned b, c2) ->
  exists a c1, m c = (Returned a, c1) /\ k a c1 = (Returned b, c2).
Proof.
  unfold bind. destruct (m c) as [[a|e] c1]; [|discriminate].
  intros H. exists a, c1. auto.
Qed.

Lemma execute_query_returned {A} uses supplied (q : Ledger -> A) c a c1 :
  execute_query uses supplied q c = (Returned a, c1) ->
  a = q (view c) /\ view c1 = view c.
Proof.
  unfold execute_query, bind_parameters, storage_step, bind, ret, raise.
  destruct (Nat.eqb uses supplied); [|discriminate].
  destruct (fault c) as [[n why]|]; [destruct (Nat.eqb n (issued c))|];
    simpl; try discriminate; intros [= <- <-]; auto.
Qed.

(** One step of a run that returned: a query, or a destructuring [let]. *)
Ltac returned_step E :=
  match type of E with
  | bind (execute_query _ _ _) _ _ = (Returned _, _) =>
      let a := fresh "a" in
      let c := fresh "c" in
      let Hq := fresh "Hq" in
      let Hv := fresh "Hv" in
      apply bind_returned in E; destruct E as (a & c & Hq & E);
      apply execute_query_returned in Hq; destruct Hq as [Hq Hv]
  | (let '(_, _) := ?x in _) _ = (Returned _, _) =>
      let Ex := fresh "Ex" in destruct x eqn:Ex
  end.

(** The three ranking blocks of a reply are made from the ranking queries. *)
Lemma get_trade_insights_rankings flt user_id cp tf st df l r l' :
  get_trade_insights flt user_id cp tf st df l = (Returned r, l') ->
  let fp := build_filters cp tf st in
  let tfq := without mentions_timeframe (fst fp) (snd fp) in
  let stq := without mentions_strategy (fst fp) (snd fp) in
  let cbq := without (fun c => mentions_timeframe c || mentions_strategy c)
               (fst fp) (snd fp) in
  in_all_timeframes r
  = map (@ranked_of _) (ranking String.eqb String.ltb timeframe_key (fst tfq) (snd tfq) l) /\
  in_best_timeframe r = best_of (in_all_timeframes r) /\
  in_all_strategies r
  = map (@ranked_of _) (ranking String.eqb String.ltb strategy_key (fst stq) (snd stq) l) /\
  in_best_strategy r = best_of (in_all_strategies r) /\
  in_top_5_timeframe_strategy_combos r
  = map (@ranked_of _)
        (firstn 5 (ranking pair_eqb pair_ltb combined_key (fst cbq) (snd cbq) l)).
Proof.
  intros H. cbv zeta. unfold get_trade_insights, with_connection in H.
  destruct (build_filters cp tf st) as [filters params]. cbn [fst snd] in *.
  match type of H with (let '(_, _) := ?b ?c0 in _) = _ =>
    destruct (b c0) as [r0 cN] eqn:E end.
  injection H as -> _.
  returned_step E. destruct a as [[total_trades open_trades] closed_trades].
  returned_step E.
  match type of E with (let '(_, _) := ?x in _) _ = _ =>
    destruct x as [[[[[w0 lo0] tp0] aw0] al0] wr0] end.
  returned_step E.
  destruct (side_loop a0 w0 tp0 _ _) as [[[w1 tp1] buy] sell].
  returned_step E.
  destruct (without mentions_timeframe filters params) as [tff tfp].
  returned_step E.
  pose proof (stats_loop_entries a2 w1 tp1) as Htf.
  destruct (stats_loop a2 w1 tp1) as [[w2 tp2] tfs]. simpl in Htf.
  destruct (without mentions_strategy filters params) as [stf stp].
  returned_step E.
  pose proof (stats_loop_entries a3 w2 tp2) as Hst.
  destruct (stats_loop a3 w2 tp2) as [[w3 tp3] sts]. simpl in Hst.
  returned_step E.
  destruct (without (fun c => mentions_timeframe c || mentions_strategy c)
              filters params) as [cbf cbp].
  returned_step E.
  pose proof (stats_loop_entries a5 w3 tp3) as Hcb.
  destruct (stats_loop a5 w3 tp3) as [[w4 tp4] cbs]. simpl in Hcb.
  apply bind_returned in E. destruct E as (pf & cP & _ & E).
  unfold ret in E. injection E as <- _.
  cbn [in_all_timeframes in_best_timeframe in_all_strategies in_best_strategy
       in_top_5_timeframe_strategy_combos fst snd].
  simpl in Hv. rewrite Hv in Hv0. rewrite Hv0 in Hv1. rewrite Hv1 in Hv2.
  rewrite Hv2 in Hv3. rewrite Hv3 in Hv4. rewrite Hv4 in Hv5.
  subst tfs sts cbs a2 a3 a5. rewrite Hv2, Hv3, Hv5.
  unfold sql_limit. change (5 <? 0)%Z with false. cbn iota.
  change (Z.to_nat 5) with 5%nat.
  repeat split; reflexivity.
Qed.

Lemma closed_rows_in conds params l t res :
  In (t, res) (closed_rows conds params l) ->
  In t (trade_tracker l) /\ In res (trade_results l) /\
  tr_trade_id res = tt_id t /\ tt_status t = CLOSED.
Proof.
  unfold closed_rows, inner_join. rewrite filter_In, in_flat_map.
  intros [(t' & Ht' & Hin) Hc]. apply in_map_iff in Hin.
  destruct Hin as (res' & [= <- <-] & Hres). apply filter_In in Hres.
  destruct Hres as [Hres Hid]. apply Z.eqb_eq in Hid.
  apply andb_true_iff in Hc. destruct Hc as [Hc _]. simpl in Hc.
  unfold is_closed in Hc. destruct (tt_status t'); [discriminate|]. auto.
Qed.














(** ** Defects shown on concrete ledgers *)

(** C1. The open-trades statement of [check_risk_alerts] has one
    placeholder and is executed without parameters, so every call that gets
    that far raises [ProgrammingError]; in particular the call on a ledger
    without trades does not return the empty report. *)
Theorem check_risk_alerts_raises_on_open_trades_query :
  (forall user_id recent_trades_count consecutive_loss_threshold
          max_trades_per_hour max_risk_per_trade_percent
          drawdown_threshold_percent l,
      check_risk_alerts None user_id recent_trades_count
        consecutive_loss_threshold max_trades_per_hour
        max_risk_per_trade_percent drawdown_threshold_percent l
      = (Raised (ProgrammingError 1 0), l)) /\
  check_risk_alerts None "alice" 10 3 5 2 10 empty_ledger
  <> (Returned (NothingToAnalyze [] "No trades found to analyze" 0), empty_ledger).
Proof.
  split.
  - intros. reflexivity.
  - discriminate.
Qed.

(** C2. The empty ledger and the ledger in which bob has one closed winning
    trade hold the same (no) trades and results of alice, yet alice's
    insights differ: the trade counts, the side comparison, the timeframe
    ranking, the risk:reward analysis and the total profit/loss are computed
    over bob's trade as well. *)
Theorem get_trade_insights_counts_other_users :
  same_for "alice" empty_ledger ledger_bob_win /\
  exists r0 r1,
    get_trade_insights None "alice" None None None None empty_ledger
    = (Returned r0, empty_ledger) /\
    get_trade_insights None "alice" None None None None ledger_bob_win
    = (Returned r1, ledger_bob_win) /\
    (in_total_trades r0 = 0 /\ in_total_trades r1 = 1)%Z /\
    (in_closed_trades r0 = None /\ in_closed_trades r1 = Some 1%Z) /\
    (ss_total (in_buy_stats r0) = 0 /\ ss_total (in_buy_stats r1) = 1)%Z /\
    (in_side r0 = TIE /\ in_side r1 = BestBUY) /\
    (in_best_timeframe r0 = None /\ in_best_timeframe r1 = Some "5m"%string) /\
    (in_average_rr_winning_trades r0 = None /\
     in_average_rr_winning_trades r1 <> None) /\
    (in_total_profit_loss r0 == 0 /\ in_total_profit_loss r1 == 1000).
Proof.
  split; [split; reflexivity|].
  eexists _, _.
  split; [vm_compute; reflexivity|].
  split; [vm_compute; reflexivity|].
  repeat split; try reflexivity. discriminate.
Qed.

(** C8. alice's only trade is a closed win on the 5m chart. Her insights
    for the 1h chart, where she has no closed trade with a result, report a
    win rate of 0 but a total profit/loss of 1000 and one win: the loop over
    the timeframe ranking assigned the variables the summary is built from.
    The same happens for her insights on a ledger where only bob traded.
    And with a single closed trade that lost, hence no winning trade, the
    profit factor divides [None] and the call raises [TypeError]. *)
Theorem get_trade_insights_total_is_overwritten :
  (closed_rows [user_id_is; timeframe_is] ["alice"; "1h"]%string ledger_one_win = [] /\
   exists r,
     get_trade_insights None "alice" None (Some "1h"%string) None None ledger_one_win
     = (Returned r, ledger_one_win) /\
     in_win_rate r == 0 /\
     in_total_profit_loss r == 1000 /\
     in_wins r = 1%Z) /\
  (closed_rows [user_id_is] ["alice"%string] ledger_bob_win = [] /\
   exists r,
     get_trade_insights None "alice" None None None None ledger_bob_win
     = (Returned r, ledger_bob_win) /\
     in_win_rate r == 0 /\
     in_total_profit_loss r == 1000 /\
     in_wins r = 1%Z) /\
  get_trade_insights None "alice" None None None None ledger_one_loss
  = (Raised TypeError, ledger_one_loss).
Proof.
  split; [|split].
  - split; [reflexivity|].
    eexists. split; [vm_compute; reflexivity|]. repeat split.
  - split; [reflexivity|].
    eexists. split; [vm_compute; reflexivity|]. repeat split.
  - vm_compute. reflexivity.
Qed.

(** ** Opening and closing trades *)

(** X1. [save_trade] stores all or nothing. Under any storage fault the call
    either runs exactly as on a healthy store, or the fault hits one of its
    three statements (the two INSERTs and the commit): the call then raises
    that [OperationalError] and leaves the ledger as it was. *)
Theorem save_trade_all_or_nothing :
  forall flt now user_id entry_price take_profit stop_loss lot_size balance
         trade_type currency_pair timeframe trade_style strategy notes l,
    save_trade flt now user_id entry_price take_profit stop_loss lot_size balance
      trade_type currency_pair timeframe trade_style strategy notes l
    = save_trade None now user_id entry_price take_profit stop_loss lot_size
        balance trade_type currency_pair timeframe trade_style strategy notes l
    \/
    exists n why,
      flt = Some (n, why) /\ (n <= 2)%nat /\
      save_trade flt now user_id entry_price take_profit stop_loss lot_size
        balance trade_type currency_pair timeframe trade_style strategy notes l
      = (Raised (OperationalError why), l).
Proof.
  intros flt now user_id entry tp sl lot balance side pair tf style strat notes l.
  destruct flt as [[n why]|]; [|left; reflexivity].
  unfold save_trade. destruct (Py.leb lot 0); [left; reflexivity|].
  run_db.
  destruct n as [|[|[|n]]]; simpl;
    try (right; exists n; eexists; repeat split; try reflexivity; lia).
  - right. exists 0%nat, why. repeat split; lia.
  - right. exists 1%nat, why. repeat split; lia.
  - right. exists 2%nat, why. repeat split; lia.
  - left. reflexivity.
Qed.

Lemma find_app_fresh {A} (p : A -> bool) (l : list A) (x : A) :
  (forall y, In y l -> p y = false) -> p x = true -> find p (l ++ [x]) = Some x.
Proof.
  intros Hl Hx. induction l as [|y l IH]; simpl.
  - rewrite Hx. reflexivity.
  - rewrite (Hl y (or_introl eq_refl)). apply IH.
    intros z Hz. apply Hl. right. exact Hz.
Qed.

(** X2. A trade saved with a positive lot size is what the query at the head
    of [log_trade_result] fetches. The call appends one row to
    [trade_tracker]: the arguments of the call, the ratio the reply reports,
    status [OPEN] and an id above every id in use. The id of the reply, with
    the same user, selects that row. Results and alerts are untouched. *)
Theorem save_trade_then_select_trade :
  forall now user_id entry_price take_profit stop_loss lot_size balance
         trade_type currency_pair timeframe trade_style strategy notes l,
    0 < lot_size ->
    exists t row l',
      save_trade None now user_id entry_price take_profit stop_loss lot_size
        balance trade_type currency_pair timeframe trade_style strategy notes l
      = (Returned (TradeStored t), l') /\
      trade_tracker l' = trade_tracker l ++ [row] /\
      trade_results l' = trade_results l /\
      risk_monitor l' = risk_monitor l /\
      (forall t0, In t0 (trade_tracker l) -> (tt_id t0 < ts_trade_id t)%Z) /\
      select_trade (ts_trade_id t) user_id l' = Some row /\
      row = mkTradeRow (ts_trade_id t) user_id entry_price take_profit stop_loss
              lot_size balance trade_type currency_pair timeframe trade_style
              strategy (ts_risk_reward_ratio t) notes now OPEN.
Proof.
  intros now user_id entry tp sl lot balance side pair tf style strat notes l Hlot.
  rewrite save_trade_run, (lot_accepted Hlot). cbv zeta.
  destruct (users_insert_keeps_rows user_id l) as [Ht Hr].
  assert (Hm : risk_monitor (fst (insert_or_ignore_user user_id l)) = risk_monitor l).
  { unfold insert_or_ignore_user. destruct (existsb _ _); reflexivity. }
  set (l1 := fst (insert_or_ignore_user user_id l)) in *.
  eexists _, _, _. split; [reflexivity|].
  unfold insert_trade. cbn [fst snd trade_tracker trade_results risk_monitor
                            ts_trade_id ts_risk_reward_ratio].
  rewrite Ht, Hr, Hm.
  split; [reflexivity|]. split; [reflexivity|]. split; [reflexivity|].
  split.
  { intros t0 Hin. apply next_rowid_fresh. apply in_map. exact Hin. }
  split; [|reflexivity].
  unfold select_trade. cbn [trade_tracker].
  apply find_app_fresh.
  - intros y Hy. apply andb_false_iff. left. apply Z.eqb_neq.
    pose proof (next_rowid_fresh (map tt_id (trade_tracker l)) (tt_id y)
                  (in_map tt_id _ _ Hy)). lia.
  - cbn [tt_id tt_user_id]. rewrite Z.eqb_refl, String.eqb_refl. reflexivity.
Qed.

Lemma save_trade_then_select_trade_witness :
  exists row,
    select_trade 1 "alice" ledger_one_open = Some row /\
    trade_tracker ledger_one_open = [row] /\
    tt_status row = OPEN /\ tt_take_profit row = Some 2010.
Proof.
  destruct (@save_trade_then_select_trade 100%Z "alice"%string 2000 (Some 2010)
              (Some 1995) 1 10000 BUY "XAU/USD"%string (Some M5) None None None
              empty_ledger)
    as (t & row & l' & Hrun & Hrows & _ & _ & _ & Hsel & Hrow);
    [reflexivity|].
  assert (Hl : l' = ledger_one_open).
  { unfold ledger_one_open. rewrite Hrun. reflexivity. }
  assert (Hid : ts_trade_id t = 1%Z).
  { vm_compute in Hrun. injection Hrun as <- _. reflexivity. }
  rewrite Hl, Hid in *. exists row.
  split; [exact Hsel|]. split; [exact Hrows|].
  rewrite Hrow. split; reflexivity.
Defined.

Lemma select_trade_none trade_id user_id l :
  (forall t, In t (trade_tracker l) -> tt_id t = trade_id -> tt_user_id t <> user_id) ->
  select_trade trade_id user_id l = None.
Proof.
  intros H. unfold select_trade.
  destruct (find _ (trade_tracker l)) as [t|] eqn:E; [|reflexivity].
  apply find_some in E. destruct E as [Hin Hb].
  apply andb_true_iff in Hb. destruct Hb as [Hid Hu].
  apply Z.eqb_eq in Hid. apply String.eqb_eq in Hu.
  exfalso. exact (H t Hin Hid Hu).
Qed.

(** A close that stops before its first write commits nothing. *)
Lemma log_trade_result_unchanged_unless_stored flt now user_id trade_id result notes l :
  (forall t e p, select_trade trade_id user_id l = Some t ->
                 tt_status t = OPEN -> profit_loss_of result t = Some (e, p) -> False) ->
  snd (log_trade_result flt now user_id trade_id result notes l) = l.
Proof.
  intros H. unfold log_trade_result. run_db.
  destruct flt as [[[|n] why]|]; simpl; try reflexivity;
    (destruct (select_trade trade_id user_id l) as [t|]; [|reflexivity]);
    (destruct (tt_status t) eqn:Hst; [|reflexivity]);
    (destruct (profit_loss_of result t) as [[e p]|] eqn:Hpl; [|reflexivity]);
    exfalso; exact (H t e p eq_refl Hst Hpl).
Qed.

(** X3. Nobody closes the trade of somebody else. When no trade with the
    given id belongs to the caller, the id being one that SQLite binds (a
    signed 64-bit integer), the reply is the not-found error, and nothing is
    written whatever the store does. *)
Theorem log_trade_result_ignores_other_owners :
  forall now user_id trade_id result notes l,
    (- 2 ^ 63 <= trade_id < 2 ^ 63)%Z ->
    (forall t, In t (trade_tracker l) -> tt_id t = trade_id ->
               tt_user_id t <> user_id) ->
    log_trade_result None now user_id trade_id result notes l
    = (Returned (ErrorReply ("Trade #" ++ Py.str_of_Z trade_id ++ " not found")
                   trade_id None), l) /\
    forall flt, snd (log_trade_result flt now user_id trade_id result notes l) = l.
Proof.
  intros now user_id trade_id result notes l _ H.
  apply select_trade_none in H. split.
  - rewrite log_trade_result_run, H. reflexivity.
  - intros flt. apply log_trade_result_unchanged_unless_stored.
    intros t e p Hsel. congruence.
Qed.

Lemma log_trade_result_ignores_other_owners_witness :
  log_trade_result None 300 "bob" 1 WIN None ledger_one_open
  = (Returned (ErrorReply "Trade #1 not found" 1 None), ledger_one_open).
Proof.
  apply (proj1 (@log_trade_result_ignores_other_owners 300%Z "bob"%string 1%Z WIN
                  None ledger_one_open ltac:(lia)
                  ltac:(intros t [<-|[]] _; vm_compute; discriminate))).
Defined.

Lemma profit_loss_of_some result t :
  (exists e p, profit_loss_of result t = Some (e, p)) <->
  Py.truthy_opt (match result with
                 | WIN => tt_take_profit t
                 | LOSS => tt_stop_loss t
                 end) = true.
Proof.
  unfold profit_loss_of, Py.truthy_opt.
  destruct result.
  - destruct (tt_take_profit t) as [x|].
    + destruct (Py.truthy x); split; try discriminate; eauto.
      intros (e & p & H). discriminate.
    + split; [intros (e & p & H)|]; discriminate.
  - destruct (tt_stop_loss t) as [x|].
    + destruct (Py.truthy x); split; try discriminate; eauto.
      intros (e & p & H). discriminate.
    + split; [intros (e & p & H)|]; discriminate.
Qed.

(** X4. An open trade is closed exactly when the price of the outcome is set
    and is not zero: the take-profit for a WIN, the stop-loss for a LOSS. That
    price is then the exit price of the reply. Otherwise the reply asks for
    the price, and the ledger and the trade stay as they are. *)
Theorem log_trade_result_needs_target_price :
  forall now user_id trade_id result notes l t,
    select_trade trade_id user_id l = Some t ->
    tt_status t = OPEN ->
    let target := match result with
                  | WIN => tt_take_profit t
                  | LOSS => tt_stop_loss t
                  end in
    (Py.truthy_opt target = true ->
     exists r l', log_trade_result None now user_id trade_id result notes l
                  = (Returned (ResultStored r), l') /\
                  rl_exit_price r = match target with Some x => x | None => 0 end) /\
    (Py.truthy_opt target = false ->
     log_trade_result None now user_id trade_id result notes l
     = (Returned (missing_target_reply result trade_id), l) /\
     select_trade trade_id user_id l = Some t).
Proof.
  intros now user_id trade_id result notes l t Hsel Hopen target. split.
  - intros Ht. rewrite log_trade_result_run, Hsel, Hopen.
    unfold profit_loss_of, target in *.
    destruct result;
      [destruct (tt_take_profit t) as [x|]|destruct (tt_stop_loss t) as [x|]];
      try discriminate; unfold Py.truthy_opt in Ht; rewrite Ht;
      unfold logged; eexists _, _; (split; [reflexivity|reflexivity]).
  - intros Ht. split; [|exact Hsel].
    rewrite log_trade_result_run, Hsel, Hopen.
    destruct (profit_loss_of result t) as [[e p]|] eqn:E; [|reflexivity].
    assert (H : Py.truthy_opt target = true)
      by (apply profit_loss_of_some; eauto).
    congruence.
Qed.

Lemma log_trade_result_needs_target_price_witness :
  log_trade_result None 200 "alice" 1 WIN None ledger_tp_below_entry
  <> (Returned (missing_target_reply WIN 1), ledger_tp_below_entry) /\
  log_trade_result None 200 "alice" 1 LOSS None ledger_tp_below_entry
  = (Returned (missing_target_reply LOSS 1), ledger_tp_below_entry).
Proof.
  pose (t := mkTradeRow 1 "alice" 2000 (Some 1990) None 1 10000 BUY "XAU/USD"
               None None None None None 100 OPEN).
  split.
  - destruct (proj1 (@log_trade_result_needs_target_price 200%Z "alice"%string
                       1%Z WIN None ledger_tp_below_entry t eq_refl eq_refl)
                eq_refl) as (r & l' & Hrun & _).
    rewrite Hrun. discriminate.
  - apply (proj2 (@log_trade_result_needs_target_price 200%Z "alice"%string
                    1%Z LOSS None ledger_tp_below_entry t eq_refl eq_refl)
             eq_refl).
Defined.

(** X5. On a ledger the tools produced, a close that reports success changes
    one thing in [trade_tracker]: the status of the trade closed, from [OPEN]
    to [CLOSED]. Every other row is the same row, every other column of the
    closed row holds what it held (the stored ratio among them), and users
    and alerts are the same. *)
Theorem log_trade_result_changes_one_status :
  forall l,
    reachable l ->
    forall flt now user_id trade_id result notes r l',
      log_trade_result flt now user_id trade_id result notes l
      = (Returned (ResultStored r), l') ->
      users l' = users l /\
      risk_monitor l' = risk_monitor l /\
      Forall2 (fun t t' =>
                 same_but_status t t' /\
                 tt_risk_reward_ratio t' = tt_risk_reward_ratio t /\
                 (tt_id t <> trade_id -> t' = t) /\
                 (tt_id t = trade_id -> tt_status t = OPEN /\ tt_status t' = CLOSED))
              (trade_tracker l) (trade_tracker l').
Proof.
  intros l Hreach flt now user_id trade_id result notes r l' H.
  apply reachable_sound in Hreach. destruct Hreach as [[Hnd _] _].
  apply log_trade_result_stored in H.
  destruct H as (t & e & p & Hsel & Hopen & _ & Hrun).
  unfold logged in Hrun. injection Hrun as _ <-. simpl.
  split; [reflexivity|]. split; [reflexivity|].
  apply select_trade_some in Hsel. destruct Hsel as (Hin & Hid & _).
  assert (Hall : forall t0, In t0 (trade_tracker l) -> tt_id t0 = trade_id -> t0 = t).
  { intros t0 Hin0 Hid0.
    apply (NoDup_map_inj tt_id (trade_tracker l)); auto. congruence. }
  clear Hnd Hin. induction (trade_tracker l) as [|t0 rows IH]; simpl; constructor.
  - destruct (tt_id t0 =? trade_id)%Z eqn:E.
    + apply Z.eqb_eq in E. rewrite (Hall t0 (or_introl eq_refl) E).
      unfold same_but_status. repeat split; try reflexivity; try assumption.
      congruence.
    + apply Z.eqb_neq in E. unfold same_but_status.
      repeat split; try reflexivity; contradiction.
  - apply IH. intros t1 H1. apply Hall. right. exact H1.
Qed.

Lemma log_trade_result_changes_one_status_witness :
  users ledger_one_win = users ledger_one_open /\
  map tt_risk_reward_ratio (trade_tracker ledger_one_win)
  = map tt_risk_reward_ratio (trade_tracker ledger_one_open).
Proof.
  destruct (@log_trade_result_changes_one_status ledger_one_open
              ledger_one_open_reachable None 200%Z "alice"%string 1%Z WIN None
              (mkResultLogged 1 1
                 "Trade #1 logged as WIN with P/L: $1000.00. New balance: $11000.00"
                 WIN ((2010 - 2000) * (1 * 100)) 10000
                 (10000 + (2010 - 2000) * (1 * 100)) 2000 2010 1 CLOSED None)
              ledger_one_win eq_refl) as (Hu & _ & Hrows).
  split; [exact Hu|].
  induction Hrows as [|t t' rows rows' (_ & Hrr & _) _ IH]; simpl; congruence.
Defined.

(** X6. What a storage fault does to the close of an open trade whose target
    price is set. At the SELECT, the INSERT of the result or the first commit
    (statements 0 to 2) the call raises and the ledger is unchanged. At the
    UPDATE or the second commit (statements 3 and 4) the call raises, the
    result row stays stored and [trade_tracker] is as before. A fault further
    on is never met. *)
Theorem log_trade_result_under_storage_fault :
  forall n why now user_id trade_id result notes l t exit_price profit_loss,
    select_trade trade_id user_id l = Some t ->
    tt_status t = OPEN ->
    profit_loss_of result t = Some (exit_price, profit_loss) ->
    let run := log_trade_result (Some (n, why)) now user_id trade_id result notes l in
    let half := fst (insert_result now user_id trade_id result profit_loss notes l) in
    ((n <= 2)%nat -> run = (Raised (OperationalError why), l)) /\
    ((3 <= n <= 4)%nat ->
     run = (Raised (OperationalError why), half) /\
     trade_tracker half = trade_tracker l /\
     exists row, trade_results half = trade_results l ++ [row] /\
                 tr_trade_id row = trade_id) /\
    ((5 <= n)%nat ->
     run = log_trade_result None now user_id trade_id result notes l).
Proof.
  intros n why now user_id trade_id result notes l t e p Hsel Hopen Hpl run half.
  subst run half. unfold log_trade_result. run_db.
  destruct n as [|[|[|[|[|n]]]]]; simpl; rewrite ?Hsel; simpl;
    rewrite ?Hopen, ?Hpl; simpl.
  all: split; [intros Hn; try lia; reflexivity|].
  all: split; [intros Hn; try lia|intros Hn; try lia; reflexivity].
  all: split; [reflexivity|split; [reflexivity|eexists; split; reflexivity]].
Qed.

Lemma log_trade_result_under_storage_fault_witness :
  log_trade_result (Some (4%nat, database_locked)) 200 "alice" 1 WIN None
    ledger_one_open
  = (Raised (OperationalError database_locked),
     fst (insert_result 200 "alice" 1 WIN ((2010 - 2000) * (1 * 100)) None
            ledger_one_open)).
Proof.
  apply (proj1 (proj1 (proj2
           (@log_trade_result_under_storage_fault 4%nat database_locked 200%Z
              "alice"%string 1%Z WIN None ledger_one_open
              (mkTradeRow 1 "alice" 2000 (Some 2010) (Some 1995) 1 10000 BUY
                 "XAU/USD" (Some M5) None None (Some "1:2.00"%string) None 100 OPEN)
              2010 ((2010 - 2000) * (1 * 100)) eq_refl eq_refl eq_refl))
           ltac:(lia))).
Defined.

(** ** Sequences of calls *)

(** The ledger a [save_trade] leaves. *)
Lemma save_trade_ledger flt now user_id entry tp sl lot balance side pair tf style strat notes l :
  let l' := snd (save_trade flt now user_id entry tp sl lot balance side pair tf
                   style strat notes l) in
  l' = l \/
  (0 < lot /\
   l' = fst (insert_trade now user_id entry tp sl lot balance side pair tf style
               strat (risk_reward_ratio entry tp sl side) notes
               (fst (insert_or_ignore_user user_id l)))).
Proof.
  cbv zeta. unfold save_trade. destruct (Py.leb lot 0) eqn:Hlot; [left; reflexivity|].
  apply leb_false in Hlot. run_db.
  destruct flt as [[[|[|[|n]]] why]|]; simpl; auto.
Qed.

(** The ledger a [log_trade_result] leaves. *)
Lemma log_trade_result_ledger flt now user_id trade_id result notes l :
  let l' := snd (log_trade_result flt now user_id trade_id result notes l) in
  l' = l \/
  exists t e p,
    select_trade trade_id user_id l = Some t /\ tt_status t = OPEN /\
    profit_loss_of result t = Some (e, p) /\
    (l' = fst (insert_result now user_id trade_id result p notes l) \/
     l' = fst (update_closed trade_id
                 (fst (insert_result now user_id trade_id result p notes l)))).
Proof.
  cbv zeta. unfold log_trade_result. run_db.
  destruct flt as [[[|[|[|[|[|n]]]]] why]|]; simpl; auto;
    (destruct (select_trade trade_id user_id l) as [t|] eqn:Hsel; [|auto]);
    (destruct (tt_status t) eqn:Hst; [|auto]);
    (destruct (profit_loss_of result t) as [[e p]|] eqn:Hpl; [|auto]);
    simpl; auto; right; exists t, e, p; auto.
Qed.

Lemma check_risk_alerts_ledger flt user_id n1 n2 n3 q1 q2 l :
  snd (check_risk_alerts flt user_id n1 n2 n3 q1 q2 l) = l.
Proof.
  destruct (check_risk_alerts_raises flt user_id n1 n2 n3 q1 q2 l) as [e He].
  rewrite He. reflexivity.
Qed.

Lemma Forall2_same_rows rows :
  Forall2 (fun t t' => same_but_status t t' /\
                       (tt_status t = CLOSED -> tt_status t' = CLOSED)) rows rows.
Proof.
  induction rows; constructor; auto. split; [reflexivity|auto].
Qed.

Lemma keeps_refl l : keeps l l.
Proof.
  repeat split.
  - exists (trade_tracker l), []. rewrite app_nil_r. split; [reflexivity|].
    apply Forall2_same_rows.
  - exists []. rewrite app_nil_r. reflexivity.
  - exists []. rewrite app_nil_r. reflexivity.
Qed.

Lemma keeps_trans l1 l2 l3 : keeps l1 l2 -> keeps l2 l3 -> keeps l1 l3.
Proof.
  intros ((k1 & a1 & E1 & F1) & (r1 & R1) & (u1 & U1) & M1)
         ((k2 & a2 & E2 & F2) & (r2 & R2) & (u2 & U2) & M2).
  repeat split.
  - rewrite E1 in F2. apply Forall2_app_inv_l in F2.
    destruct F2 as (k21 & k22 & F21 & F22 & ->).
    exists k21, (k22 ++ a2). split; [rewrite E2, app_assoc; reflexivity|].
    clear - F1 F21. revert k21 F21.
    induction F1 as [|t t' rows rows' [S1 C1] _ IH]; intros k21 F21;
      inversion F21 as [|? t'' ? rows'' [S2 C2] F']; subst; constructor.
    + split; [unfold same_but_status in *; congruence|auto].
    + apply IH. exact F'.
  - exists (r1 ++ r2). rewrite R2, R1, app_assoc. reflexivity.
  - exists (u1 ++ u2). rewrite U2, U1, app_assoc. reflexivity.
  - congruence.
Qed.

Lemma tool_call_keeps l l' : tool_call l l' -> keeps l l'.
Proof.
  intros H. destruct H.
  - destruct (save_trade_ledger flt now user_id entry_price take_profit stop_loss
                lot_size balance trade_type currency_pair timeframe trade_style
                strategy notes l) as [->|[_ ->]]; [apply keeps_refl|].
    unfold insert_trade, insert_or_ignore_user.
    destruct (existsb _ _); simpl; repeat split.
    + eexists _, _. split; [reflexivity|apply Forall2_same_rows].
    + exists []. rewrite app_nil_r. reflexivity.
    + exists []. rewrite app_nil_r. reflexivity.
    + eexists _, _. split; [reflexivity|apply Forall2_same_rows].
    + exists []. rewrite app_nil_r. reflexivity.
    + eexists. reflexivity.
  - destruct (log_trade_result_ledger flt now user_id trade_id result notes l)
      as [->|(t & e & p & _ & _ & _ & [-> | ->])]; [apply keeps_refl| |].
    + simpl. repeat split.
      * exists (trade_tracker l), []. rewrite app_nil_r.
        split; [reflexivity|apply Forall2_same_rows].
      * eexists. reflexivity.
      * exists []. rewrite app_nil_r. reflexivity.
    + simpl. repeat split.
      * eexists _, []. rewrite app_nil_r. split; [reflexivity|].
        induction (trade_tracker l) as [|t0 rows IH]; simpl; constructor; [|exact IH].
        destruct (tt_id t0 =? trade_id)%Z.
        -- split; [unfold same_but_status; destruct t0; reflexivity|reflexivity].
        -- split; [reflexivity|auto].
      * eexists. reflexivity.
      * exists []. rewrite app_nil_r. reflexivity.
  - rewrite get_trade_insights_reads_only. apply keeps_refl.
  - rewrite check_risk_alerts_ledger. apply keeps_refl.
Qed.

(** X7. No sequence of calls, returning or raising, under any faults, deletes
    or rewrites anything: the trade rows stay in place with their columns, a
    closed trade stays closed, results and users are only appended to, and
    the alert table is never written. *)
Theorem tools_never_delete_or_reopen :
  forall l l', history l l' -> keeps l l'.
Proof.
  induction 1 as [l|l l' l'' _ IH Hcall].
  - apply keeps_refl.
  - apply (keeps_trans IH). apply tool_call_keeps. exact Hcall.
Qed.

Lemma tools_never_delete_or_reopen_witness :
  keeps ledger_one_open
    (snd (log_trade_result (Some (3%nat, database_locked)) 200 "alice" 1 WIN None
            ledger_one_open)).
Proof.
  apply tools_never_delete_or_reopen.
  eapply history_call; [apply history_nil|apply call_log_trade_result].
Defined.

Lemma existsb_eqb_in u us : existsb (String.eqb u) us = true <-> In u us.
Proof.
  rewrite existsb_exists. split.
  - intros (x & Hin & E). apply String.eqb_eq in E. subst. exact Hin.
  - intros H. exists u. split; [exact H|apply String.eqb_refl].
Qed.

Lemma NoDup_snoc {A} (l : list A) x : NoDup l -> ~ In x l -> NoDup (l ++ [x]).
Proof.
  intros Hl Hx. apply NoDup_app; [exact Hl|repeat constructor; simpl; tauto|].
  intros a Ha [<-|[]]. exact (Hx Ha).
Qed.

Lemma insert_trade_well_formed now user_id entry tp sl lot balance side pair tf style strat rr notes l :
  well_formed l -> 0 < lot ->
  well_formed (fst (insert_trade now user_id entry tp sl lot balance side pair tf
                      style strat rr notes (fst (insert_or_ignore_user user_id l)))).
Proof.
  intros (Hids & Hrids & Hts & Hrs & Hm) Hlot.
  destruct (users_insert_keeps_rows user_id l) as [Ht Hr].
  assert (Hmon : risk_monitor (fst (insert_or_ignore_user user_id l)) = risk_monitor l).
  { unfold insert_or_ignore_user. destruct (existsb _ _); reflexivity. }
  unfold well_formed, insert_trade. simpl. rewrite Ht, Hr, Hmon.
  split; [|split; [exact Hrids|split; [|split; [|exact Hm]]]].
  - rewrite map_app. simpl. apply NoDup_snoc; [exact Hids|apply next_rowid_not_in].
  - intros t H. apply in_app_or in H. destruct H as [H|[<-|[]]]; [|exact Hlot].
    apply (Hts t H).
  - intros r Hr'. destruct (Hrs r Hr') as (t & Hin' & Hid & Ho).
    exists t. split; [apply in_or_app; left; exact Hin'|auto].
Qed.

Lemma insert_result_well_formed now user_id trade_id result p notes l t :
  well_formed l -> select_trade trade_id user_id l = Some t ->
  well_formed (fst (insert_result now user_id trade_id result p notes l)).
Proof.
  intros (Hids & Hrids & Hts & Hrs & Hm) Hsel.
  apply select_trade_some in Hsel. destruct Hsel as (Hin & Hid & Ho).
  unfold well_formed, insert_result. simpl.
  split; [exact Hids|split; [|split; [exact Hts|split; [|exact Hm]]]].
  - rewrite map_app. simpl. apply NoDup_snoc; [exact Hrids|apply next_rowid_not_in].
  - intros r Hr. apply in_app_or in Hr. destruct Hr as [Hr|[<-|[]]].
    + apply Hrs. exact Hr.
    + exists t. simpl. auto.
Qed.

Lemma update_closed_well_formed trade_id l :
  well_formed l -> well_formed (fst (update_closed trade_id l)).
Proof.
  intros (Hids & Hrids & Hts & Hrs & Hm).
  unfold well_formed, update_closed. simpl. rewrite closing_keeps_ids.
  split; [exact Hids|split; [exact Hrids|split; [|split; [|exact Hm]]]].
  - intros t H. apply in_map_iff in H. destruct H as (t0 & <- & H0).
    destruct (tt_id t0 =? trade_id)%Z; apply (Hts t0 H0).
  - intros r Hr. destruct (Hrs r Hr) as (t & Hin & Hid & Ho).
    exists (if (tt_id t =? trade_id)%Z then close_row t else t).
    split; [apply in_map_iff; exists t; auto|].
    destruct (tt_id t =? trade_id)%Z; auto.
Qed.

Lemma tool_call_well_formed l l' : tool_call l l' -> well_formed l -> well_formed l'.
Proof.
  intros H Hwf. destruct H.
  - destruct (save_trade_ledger flt now user_id entry_price take_profit stop_loss
                lot_size balance trade_type currency_pair timeframe trade_style
                strategy notes l) as [->|[Hlot ->]]; [exact Hwf|].
    apply insert_trade_well_formed; assumption.
  - destruct (log_trade_result_ledger flt now user_id trade_id result notes l)
      as [->|(t & e & p & Hsel & _ & _ & [-> | ->])]; [exact Hwf| |].
    + eapply insert_result_well_formed; eassumption.
    + apply update_closed_well_formed.
      eapply insert_result_well_formed; eassumption.
  - rewrite get_trade_insights_reads_only. exact Hwf.
  - rewrite check_risk_alerts_ledger. exact Hwf.
Qed.

Lemma well_formed_empty : well_formed empty_ledger.
Proof.
  unfold well_formed. simpl.
  repeat (split; [try apply NoDup_nil; try (intros ? [])|]). reflexivity.
Qed.

Lemma history_well_formed l l' : history l l' -> well_formed l -> well_formed l'.
Proof.
  induction 1 as [l|l l' l'' _ IH Hcall]; intros Hwf; [exact Hwf|].
  apply (tool_call_well_formed Hcall). apply IH. exact Hwf.
Qed.

(** X8. Whatever is called from the empty ledger, and whatever fails on the
    way: trade ids and result ids are unique, every trade has a positive lot
    size, every result refers to a trade of the same user, and no alert is
    stored. *)
Theorem ledgers_stay_well_formed :
  forall l, history empty_ledger l -> well_formed l.
Proof.
  intros l H. apply (history_well_formed H). apply well_formed_empty.
Qed.

Lemma ledgers_stay_well_formed_witness :
  well_formed
    (snd (log_trade_result (Some (3%nat, database_locked)) 200 "alice" 1 WIN None
            ledger_one_open)).
Proof.
  apply ledgers_stay_well_formed.
  eapply history_call; [|apply call_log_trade_result].
  eapply history_call; [apply history_nil|].
  apply (call_save_trade None 100 "alice" 2000 (Some 2010) (Some 1995) 1 10000 BUY
           "XAU/USD" (Some M5) None None None empty_ledger).
Defined.

(** ** Ratios and potentials *)

Lemma Qabs_opp_eq q : Qabs (- q) = Qabs q.
Proof. destruct q as [n d]. unfold Qabs, Qopp. simpl. rewrite Z.abs_opp. reflexivity. Qed.

Lemma Qeq_bool_minus_sym x y : Qeq_bool (x - y) 0 = Qeq_bool (y - x) 0.
Proof.
  destruct (Qeq_bool (y - x) 0) eqn:E.
  - apply Qeq_bool_iff in E. apply Qeq_bool_iff. lra.
  - apply not_true_iff_false. intros H. apply Qeq_bool_iff in H.
    apply not_true_iff_false in E. apply E. apply Qeq_bool_iff. lra.
Qed.

(** The distance of two floats is the same from either end. *)
Lemma fabs_fsub_sym x y : Py.fabs (Py.fsub x y) = Py.fabs (Py.fsub y x).
Proof.
  unfold Py.fsub, Py.to_float.
  rewrite (Qabs_Qminus x y), (Qeq_bool_minus_sym x y).
  destruct (Qeq_bool (y - x) 0); [reflexivity|].
  cbv zeta. destruct (Qle_bool (2 ^ 1024) (Py.nearest (Qabs (y - x)))).
  - destruct (Py.ltb (x - y) 0), (Py.ltb (y - x) 0); reflexivity.
  - destruct (Py.ltb (x - y) 0), (Py.ltb (y - x) 0); cbn [Py.fabs];
      rewrite ?Qabs_opp_eq; reflexivity.
Qed.

(** X9. The risk:reward ratio [save_trade] computes does not depend on the
    side: the BUY and the SELL branch take the absolute values of the same
    two differences. *)
Theorem risk_reward_ratio_ignores_side :
  forall entry_price take_profit stop_loss,
    risk_reward_ratio entry_price take_profit stop_loss BUY
    = risk_reward_ratio entry_price take_profit stop_loss SELL.
Proof.
  intros e tp sl. unfold risk_reward_ratio.
  destruct tp as [tp|]; [|reflexivity]. destruct sl as [sl|]; [|reflexivity].
  rewrite (fabs_fsub_sym tp e), (fabs_fsub_sym e sl). reflexivity.
Qed.

(** X11. On a ledger the tools produced, a close records what [save_trade]
    announced for the trade: the size of the profit/loss of a winning close
    is the potential profit, and a losing close records minus the potential
    loss. *)
Theorem close_realises_the_potential_reported_at_open :
  forall l,
    reachable l ->
    forall flt now user_id trade_id result notes r l' t,
      select_trade trade_id user_id l = Some t ->
      log_trade_result flt now user_id trade_id result notes l
      = (Returned (ResultStored r), l') ->
      match result with
      | WIN =>
          forall x,
            potential_profit (tt_entry_price t) (tt_take_profit t) (tt_lot_size t)
            = Some x ->
            Qabs (rl_profit_loss r) == x
      | LOSS =>
          forall x,
            potential_loss (tt_entry_price t) (tt_stop_loss t) (tt_lot_size t)
            = Some x ->
            rl_profit_loss r == - x
      end.
Proof.
  intros l Hreach flt now user_id trade_id result notes r l' t Hsel H.
  apply reachable_sound in Hreach. destruct Hreach as (_ & _ & Hlots).
  apply log_trade_result_stored in H.
  destruct H as (t' & e & p & Hsel' & _ & Hpl & Hrun).
  rewrite Hsel in Hsel'. injection Hsel' as <-.
  unfold logged in Hrun. injection Hrun as <- _. simpl.
  apply select_trade_some in Hsel. destruct Hsel as (Hin & _ & _).
  specialize (Hlots t Hin).
  assert (Hk : 0 <= tt_lot_size t * 100) by lra.
  destruct result.
  - apply profit_loss_of_win in Hpl. destruct Hpl as [Htp ->].
    intros x Hx. unfold potential_profit in Hx. rewrite Htp in Hx.
    destruct (Py.truthy e && Py.truthy (tt_entry_price t)); [|discriminate].
    injection Hx as <-. rewrite Qabs_Qmult, (Qabs_pos _ Hk).
    unfold win_move. destruct (tt_trade_type t); [reflexivity|].
    rewrite (Qabs_Qminus (tt_entry_price t) e). reflexivity.
  - apply profit_loss_of_loss in Hpl. destruct Hpl as [Hsl ->].
    intros x Hx. unfold potential_loss in Hx. rewrite Hsl in Hx.
    destruct (Py.truthy e && Py.truthy (tt_entry_price t)); [|discriminate].
    injection Hx as <-. rewrite Qabs_Qmult, (Qabs_pos _ Hk).
    unfold loss_move. destruct (tt_trade_type t); [reflexivity|].
    rewrite (Qabs_Qminus e (tt_entry_price t)). reflexivity.
Qed.

Lemma close_realises_the_potential_reported_at_open_witness :
  match log_trade_result None 200 "alice" 1 LOSS None ledger_one_open with
  | (Returned (ResultStored r), _) =>
      forall x, potential_loss 2000 (Some 1995) 1 = Some x -> rl_profit_loss r == - x
  | _ => False
  end.
Proof.
  destruct (log_trade_result None 200 "alice" 1 LOSS None ledger_one_open)
    as [[[e i s|w i s|r]|e] l'] eqn:E; try (vm_compute in E; discriminate).
  exact (@close_realises_the_potential_reported_at_open ledger_one_open
           ledger_one_open_reachable None 200%Z "alice"%string 1%Z LOSS None r l'
           (mkTradeRow 1 "alice" 2000 (Some 2010) (Some 1995) 1 10000 BUY
              "XAU/USD" (Some M5) None None (Some "1:2.00"%string) None 100 OPEN)
           eq_refl E).
Defined.

(** ** Replies of the analytics *)

Lemma add_filter_params_in p c v fp :
  In p (snd (add_filter c v fp)) <->
  In p (snd fp) \/ (v = Some p /\ p <> ""%string).
Proof.
  unfold add_filter. destruct v as [s|].
  - unfold Py.truthy_str. destruct (String.eqb_spec s "") as [E|E]; simpl.
    + split; [auto|]. intros [H|[[= ->] H]]; [exact H|contradiction].
    + rewrite in_app_iff. simpl. split.
      * intros [H|[<-|[]]]; auto.
      * intros [H|[[= ->] _]]; auto.
  - split; [auto|]. intros [H|[[=] _]]. exact H.
Qed.

Lemma build_filters_params_in p cp tf st :
  In p (snd (build_filters cp tf st)) <->
  p <> ""%string /\ (cp = Some p \/ tf = Some p \/ st = Some p).
Proof.
  unfold build_filters. rewrite !add_filter_params_in. simpl. tauto.
Qed.

Lemma add_filter_lengths c v fp :
  List.length (fst fp) = List.length (snd fp) ->
  List.length (fst (add_filter c v fp)) = List.length (snd (add_filter c v fp)).
Proof.
  intros H. unfold add_filter. destruct v as [s|]; [|exact H].
  destruct (Py.truthy_str (Some s)); [|exact H].
  simpl. rewrite !length_app, H. reflexivity.
Qed.

Lemma build_filters_lengths cp tf st :
  List.length (fst (build_filters cp tf st)) = List.length (snd (build_filters cp tf st)).
Proof.
  unfold build_filters. repeat apply add_filter_lengths. reflexivity.
Qed.

Lemma add_filter_no_user c v fp :
  c <> user_id_is ->
  Forall (fun f => f <> user_id_is) (fst fp) ->
  Forall (fun f => f <> user_id_is) (fst (add_filter c v fp)).
Proof.
  intros Hc H. unfold add_filter. destruct v as [s|]; [|exact H].
  destruct (Py.truthy_str (Some s)); [|exact H].
  simpl. apply Forall_app. split; [exact H|]. constructor; [exact Hc|constructor].
Qed.

Lemma build_filters_no_user cp tf st :
  filter (fun f => negb (Condition_eqb f user_id_is)) (fst (build_filters cp tf st))
  = fst (build_filters cp tf st).
Proof.
  assert (H : Forall (fun f => f <> user_id_is) (fst (build_filters cp tf st))).
  { unfold build_filters.
    repeat (apply add_filter_no_user; [discriminate|]). constructor. }
  induction H as [|f fs Hf _ IH]; simpl; [reflexivity|].
  destruct f; try contradiction; simpl; rewrite IH; reflexivity.
Qed.

Lemma filter_all {A} (p : A -> bool) l :
  (forall x, In x l -> p x = true) -> filter p l = l.
Proof.
  induction l as [|x l IH]; simpl; intros H; [reflexivity|].
  rewrite (H x (or_introl eq_refl)), IH; [reflexivity|].
  intros y Hy. apply H. right. exact Hy.
Qed.

Lemma no_clash_params user_id cp tf st :
  no_clash user_id cp tf st ->
  filter (fun p => negb (String.eqb p user_id)) (snd (build_filters cp tf st))
  = snd (build_filters cp tf st).
Proof.
  intros (Hcp & Htf & Hst). apply filter_all. intros p Hp. apply negb_true_iff.
  apply String.eqb_neq. intros ->.
  apply build_filters_params_in in Hp. destruct Hp as [_ [H|[H|H]]]; contradiction.
Qed.

Lemma without_lengths drop conds params :
  List.length conds = List.length params ->
  List.length (fst (without drop conds params))
  = List.length (snd (without drop conds params)).
Proof.
  unfold without. simpl. rewrite length_map. revert params.
  induction conds as [|c conds IH]; intros [|p params] H; simpl in *; try discriminate;
    [reflexivity|].
  injection H as H. destruct (drop c); simpl; rewrite (IH _ H); reflexivity.
Qed.

(** A query on a healthy connection. *)
Lemma execute_query_healthy {A} uses supplied (q : Ledger -> A) c :
  fault c = None -> uses = supplied ->
  execute_query uses supplied q c
  = (Returned (q (view c)), mkConn (disk c) (view c) None (S (issued c))).
Proof.
  intros Hf ->. unfold execute_query, bind_parameters, storage_step, bind, ret.
  rewrite Nat.eqb_refl. simpl. rewrite Hf. reflexivity.
Qed.

Lemma bind_healthy {A B} (m : DB A) (k : A -> DB B) c a c' :
  m c = (Returned a, c') -> bind m k c = k a c'.
Proof. intros H. unfold bind. rewrite H. reflexivity. Qed.

Lemma closed_rows_nil conds params l :
  closed_rows [] [] l = [] -> closed_rows conds params l = [].
Proof.
  unfold closed_rows. intros H.
  destruct (filter _ (inner_join l)) as [|x xs] eqn:E in |- *; [reflexivity|].
  exfalso. assert (Hx : In x (x :: xs)) by (left; reflexivity).
  rewrite <- E in Hx. apply filter_In in Hx. destruct Hx as [Hin Hc].
  apply andb_true_iff in Hc. destruct Hc as [Hc _].
  assert (Hx : In x (filter (fun jr => is_closed (fst jr) && where_clause [] [] (fst jr))
                        (inner_join l))).
  { apply filter_In. split; [exact Hin|]. rewrite Hc. reflexivity. }
  rewrite H in Hx. exact Hx.
Qed.

Lemma grouped_nil {K} (K_eqb : K -> K -> bool) key conds params l :
  closed_rows [] [] l = [] -> grouped K_eqb key conds params l = [].
Proof. intros H. unfold grouped. rewrite (closed_rows_nil _ _ _ H). reflexivity. Qed.

Lemma side_performance_nil conds params l :
  closed_rows [] [] l = [] -> side_performance conds params l = [].
Proof. intros H. unfold side_performance. rewrite (grouped_nil _ _ _ _ _ H). reflexivity. Qed.

Lemma ranking_nil {K} (K_eqb K_ltb : K -> K -> bool) key conds params l :
  closed_rows [] [] l = [] -> ranking K_eqb K_ltb key conds params l = [].
Proof. intros H. unfold ranking. rewrite (grouped_nil _ _ _ _ _ H). reflexivity. Qed.

Lemma lot_impact_nil conds params l :
  closed_rows [] [] l = [] -> lot_impact conds params l = (None, None).
Proof. intros H. unfold lot_impact. rewrite (closed_rows_nil _ _ _ H). reflexivity. Qed.

Lemma rr_analysis_nil conds params l :
  closed_rows [] [] l = [] -> rr_analysis conds params l = (None, None).
Proof. intros H. unfold rr_analysis. rewrite (closed_rows_nil _ _ _ H). reflexivity. Qed.

(** One step of a run on a healthy store. *)
Ltac healthy_step :=
  erewrite bind_healthy
    by (apply execute_query_healthy; [reflexivity|assumption]);
  cbn [view disk fault issued].

(** X13. When the ledger holds no closed trade with a result, of any user,
    and no filter value is the caller's identifier, [get_trade_insights]
    returns with every figure at its empty value: win rate, total
    profit/loss, wins, losses and both averages 0, no profit factor, a TIE
    between two empty sides, empty rankings without a best entry and no
    risk:reward averages. *)
Theorem get_trade_insights_without_closed_trades :
  forall user_id currency_pair timeframe strategy date_filter l,
    no_clash user_id currency_pair timeframe strategy ->
    closed_rows [] [] l = [] ->
    exists r,
      get_trade_insights None user_id currency_pair timeframe strategy date_filter l
      = (Returned r, l) /\
      in_win_rate r == 0 /\ in_total_profit_loss r == 0 /\
      in_wins r = 0%Z /\ in_losses r = 0%Z /\
      in_average_profit_per_win r == 0 /\ in_average_loss_per_loss r == 0 /\
      in_profit_factor r = None /\
      in_side r = TIE /\
      in_buy_stats r = mkSideStats 0 0 0 0 /\
      in_sell_stats r = mkSideStats 0 0 0 0 /\
      in_best_timeframe r = None /\ in_all_timeframes r = [] /\
      in_best_strategy r = None /\ in_all_strategies r = [] /\
      in_average_rr_winning_trades r = None /\
      in_average_rr_losing_trades r = None /\
      in_top_5_timeframe_strategy_combos r = [].
Proof.
  intros user_id cp tf st df l Hclash Hnone.
  pose proof (build_filters_lengths cp tf st) as Hlen.
  pose proof (build_filters_no_user cp tf st) as Hnu.
  pose proof (no_clash_params Hclash) as Hnp.
  unfold get_trade_insights, with_connection.
  destruct (build_filters cp tf st) as [filters params]. cbn [fst snd] in *.
  rewrite Hnu, Hnp.
  assert (Hlen' : List.length (user_id_is :: filters) = List.length (user_id :: params))
    by (simpl; congruence).
  pose proof (without_lengths mentions_timeframe filters params Hlen) as Htf.
  pose proof (without_lengths mentions_strategy filters params Hlen) as Hst.
  pose proof (without_lengths (fun c => mentions_timeframe c || mentions_strategy c)
                filters params Hlen) as Hcb.
  destruct (without mentions_timeframe filters params) as [tff tfp].
  destruct (without mentions_strategy filters params) as [stf stp].
  destruct (without (fun c => mentions_timeframe c || mentions_strategy c)
              filters params) as [cbf cbp].
  cbn [fst snd] in *.
  healthy_step.
  destruct (count_trades filters params l) as [[total open] closed].
  healthy_step.
  unfold performance. rewrite !closed_rows_nil by exact Hnone. cbn.
  healthy_step. rewrite side_performance_nil by exact Hnone. cbn.
  healthy_step. rewrite lot_impact_nil by exact Hnone. cbn.
  healthy_step. rewrite ranking_nil by exact Hnone. cbn.
  healthy_step. rewrite ranking_nil by exact Hnone. cbn.
  healthy_step. rewrite rr_analysis_nil by exact Hnone. cbn.
  healthy_step. rewrite ranking_nil by exact Hnone. cbn.
  rewrite firstn_nil. cbn.
  eexists. split; [reflexivity|]. cbn.
  repeat split; reflexivity.
Qed.

Lemma get_trade_insights_without_closed_trades_witness :
  exists r,
    get_trade_insights None "alice"%string (Some "XAUUSD"%string) None None None ledger_one_open
    = (Returned r, ledger_one_open) /\
    in_win_rate r == 0 /\ in_total_profit_loss r == 0 /\
    in_wins r = 0%Z /\ in_losses r = 0%Z /\
    in_average_profit_per_win r == 0 /\ in_average_loss_per_loss r == 0 /\
    in_profit_factor r = None /\
    in_side r = TIE /\
    in_buy_stats r = mkSideStats 0 0 0 0 /\
    in_sell_stats r = mkSideStats 0 0 0 0 /\
    in_best_timeframe r = None /\ in_all_timeframes r = [] /\
    in_best_strategy r = None /\ in_all_strategies r = [] /\
    in_average_rr_winning_trades r = None /\
    in_average_rr_losing_trades r = None /\
    in_top_5_timeframe_strategy_combos r = [].
Proof.
  apply get_trade_insights_without_closed_trades.
  - repeat split; discriminate.
  - reflexivity.
Defined.

Lemma execute_query_mismatch {A} uses supplied (q : Ledger -> A) c :
  uses <> supplied ->
  execute_query uses supplied q c = (Raised (ProgrammingError uses supplied), c).
Proof.
  intros H. unfold execute_query, bind_parameters, bind, raise.
  apply Nat.eqb_neq in H. rewrite H. reflexivity.
Qed.

Lemma bind_raised {A B} (m : DB A) (k : A -> DB B) c e c' :
  m c = (Raised e, c') -> bind m k c = (Raised e, c').
Proof. intros H. unfold bind. rewrite H. reflexivity. Qed.

Lemma filter_length_lt {A} (p : A -> bool) l x :
  In x l -> p x = false -> (List.length (filter p l) < List.length l)%nat.
Proof.
  induction l as [|y l IH]; simpl; [intros []|].
  intros [->|Hin] Hp.
  - rewrite Hp. pose proof (filter_length_le p l). lia.
  - specialize (IH Hin Hp). destruct (p y); simpl; lia.
Qed.

(** X14. A filter whose value is the caller's own identifier makes
    [get_trade_insights] fail: the performance query drops that value from
    its parameters and keeps the placeholder, so sqlite3 raises
    [ProgrammingError] with fewer values than placeholders. *)
Theorem get_trade_insights_rejects_own_id_as_filter_value :
  forall user_id currency_pair timeframe strategy date_filter l,
    user_id <> ""%string ->
    currency_pair = Some user_id \/ timeframe = Some user_id \/
    strategy = Some user_id ->
    exists uses supplied,
      (supplied < uses)%nat /\
      get_trade_insights None user_id currency_pair timeframe strategy date_filter l
      = (Raised (ProgrammingError uses supplied), l).
Proof.
  intros user_id cp tf st df l Hne Hsome.
  assert (Hin : In user_id (snd (build_filters cp tf st)))
    by (apply build_filters_params_in; auto).
  pose proof (build_filters_lengths cp tf st) as Hlen.
  pose proof (build_filters_no_user cp tf st) as Hnu.
  unfold get_trade_insights, with_connection.
  destruct (build_filters cp tf st) as [filters params]. cbn [fst snd] in *.
  rewrite Hnu.
  assert (Hlt : (List.length (filter (fun p => negb (String.eqb p user_id)) params)
                 < List.length filters)%nat).
  { rewrite Hlen. apply filter_length_lt with (x := user_id); [exact Hin|].
    rewrite String.eqb_refl. reflexivity. }
  exists (S (List.length filters)),
         (S (List.length (filter (fun p => negb (String.eqb p user_id)) params))).
  split; [lia|].
  healthy_step.
  destruct (count_trades filters params l) as [[total open] closed].
  erewrite bind_raised by (apply execute_query_mismatch; simpl; lia).
  reflexivity.
Qed.

Lemma get_trade_insights_rejects_own_id_as_filter_value_witness :
  exists uses supplied,
    (supplied < uses)%nat /\
    get_trade_insights None "alice" None None (Some "alice"%string) None ledger_one_win
    = (Raised (ProgrammingError uses supplied), ledger_one_win).
Proof.
  apply get_trade_insights_rejects_own_id_as_filter_value.
  - discriminate.
  - right. right. reflexivity.
Defined.

Lemma execute_query_bound {A} uses supplied (q : Ledger -> A) c a c1 :
  execute_query uses supplied q c = (Returned a, c1) -> uses = supplied.
Proof.
  unfold execute_query, bind_parameters, bind, raise.
  destruct (Nat.eqb uses supplied) eqn:E; [|discriminate].
  intros _. apply Nat.eqb_eq. exact E.
Qed.

Lemma filter_length_eq {A} (p : A -> bool) l :
  List.length (filter p l) = List.length l -> filter p l = l.
Proof.
  induction l as [|x l IH]; simpl; [reflexivity|].
  destruct (p x); simpl; intros H.
  - f_equal. apply IH. lia.
  - pose proof (filter_length_le p l). lia.
Qed.

Lemma side_loop_stats side_perf w t b s w' t' :
  snd (fst (side_loop side_perf w t b s)) = snd (fst (side_loop side_perf w' t' b s)) /\
  snd (side_loop side_perf w t b s) = snd (side_loop side_perf w' t' b s).
Proof.
  unfold side_loop. destruct side_perf as [|row rest]; [split; reflexivity|].
  simpl. destruct (g_key row); split; reflexivity.
Qed.

Lemma side_loop_side_stats side_perf w t w' t' buy sell :
  side_loop side_perf w t (mkSideStats 0 0 0 0) (mkSideStats 0 0 0 0)
  = (w', t', buy, sell) ->
  side_stats side_perf = (buy, sell).
Proof.
  intros H. unfold side_stats.
  destruct (side_loop_stats side_perf w t (mkSideStats 0 0 0 0) (mkSideStats 0 0 0 0)
              0%Z None) as [Hb Hs].
  rewrite H in Hb, Hs. simpl in Hb, Hs.
  destruct (side_loop side_perf 0 None _ _) as [[[w0 t0] b0] s0].
  simpl in Hb, Hs. subst. reflexivity.
Qed.

(** A query of a run that returned: it had the parameters it uses, saw the
    ledger the connection sees and left it as it was. *)
Lemma query_returned {A B} uses supplied (q : Ledger -> A) (k : A -> DB B) c b c2 l :
  view c = l ->
  bind (execute_query uses supplied q) k c = (Returned b, c2) ->
  exists c1, view c1 = l /\ uses = supplied /\ k (q l) c1 = (Returned b, c2).
Proof.
  intros Hv E. apply bind_returned in E. destruct E as (a & c1 & Hq & E).
  pose proof (execute_query_bound _ _ _ _ Hq) as Hb.
  apply execute_query_returned in Hq. destruct Hq as [-> Hv1].
  exists c1. rewrite Hv1, Hv. rewrite Hv in E. auto.
Qed.

Ltac query_step E Hv Hb :=
  let c := fresh "c" in
  apply (@query_returned _ _ _ _ _ _ _ _ _ _ Hv) in E; clear Hv;
  destruct E as (c & Hv & Hb & E).

(** The summary blocks of a reply, as the queries give them. *)
Lemma get_trade_insights_summary flt user_id cp tf st df l r l' :
  get_trade_insights flt user_id cp tf st df l = (Returned r, l') ->
  let fp := build_filters cp tf st in
  let perf := performance (user_id_is :: fst fp) (user_id :: snd fp) l in
  let lots := lot_impact (user_id_is :: fst fp) (user_id :: snd fp) l in
  let rr := rr_analysis (fst fp) (snd fp) l in
  (in_total_trades r, in_open_trades r, in_closed_trades r)
  = count_trades (fst fp) (snd fp) l /\
  in_win_rate r
  = Py.round2 (if (p_total_closed perf =? 0)%Z then 0
               else percent_of (p_wins perf) (p_total_closed perf)) /\
  in_losses r = (if (p_total_closed perf =? 0)%Z then 0%Z else p_losses perf) /\
  in_average_profit_per_win r
  = Py.round2 (Py.or0 (if (p_total_closed perf =? 0)%Z then Some 0
                       else p_avg_win perf)) /\
  in_average_loss_per_loss r
  = Py.round2 (Py.or0 (if (p_total_closed perf =? 0)%Z then Some 0
                       else p_avg_loss perf)) /\
  (in_buy_stats r, in_sell_stats r)
  = side_stats (side_performance (fst fp) (snd fp) l) /\
  in_side r
  = (if Py.ltb (ss_win_rate (in_sell_stats r)) (ss_win_rate (in_buy_stats r))
     then BestBUY
     else if Py.ltb (ss_win_rate (in_buy_stats r)) (ss_win_rate (in_sell_stats r))
          then BestSELL else TIE) /\
  in_average_lot_size_wins r = Py.round2 (Py.or0 (fst lots)) /\
  in_average_lot_size_losses r = Py.round2 (Py.or0 (snd lots)) /\
  in_difference r = Py.round2 (Py.or0 (fst lots) - Py.or0 (snd lots)) /\
  in_average_rr_winning_trades r
  = option_map Py.round2 (if Py.truthy_opt (fst rr) then fst rr else None) /\
  in_average_rr_losing_trades r
  = option_map Py.round2 (if Py.truthy_opt (snd rr) then snd rr else None) /\
  in_profit_factor r
  = (if (p_total_closed perf =? 0)%Z then None
     else if Py.truthy_opt (p_avg_loss perf) then
            match p_avg_win perf, p_avg_loss perf with
            | Some w, Some lo => Some (Py.round2 (Qabs (w / lo)))
            | _, _ => None
            end
          else None).
Proof.
  intros H. cbv zeta. unfold get_trade_insights, with_connection in H.
  pose proof (build_filters_lengths cp tf st) as Hlen.
  pose proof (build_filters_no_user cp tf st) as Hnu.
  destruct (build_filters cp tf st) as [filters params]. cbn [fst snd] in *.
  rewrite Hnu in H.
  match type of H with (let '(_, _) := ?b ?c0 in _) = _ =>
    destruct (b c0) as [r0 cN] eqn:E end.
  injection H as -> _.
  assert (Hv : view (mkConn l l flt 0) = l) by reflexivity.
  query_step E Hv Hb1.
  destruct (count_trades filters params l) as [[total_trades open_trades] closed_trades].
  query_step E Hv Hb2.
  simpl in Hb2. injection Hb2 as Hb2. rewrite Hlen in Hb2.
  symmetry in Hb2. apply filter_length_eq in Hb2. rewrite Hb2 in E.
  set (perf := performance (user_id_is :: filters) (user_id :: params) l) in *.
  destruct (p_total_closed perf =? 0)%Z.
  all: query_step E Hv Hb3.
  all: match type of E with (let '(_, _) := ?x in _) _ = _ =>
         destruct x as [[[w1 tp1] buy] sell] eqn:Eside end.
  all: apply side_loop_side_stats in Eside.
  all: query_step E Hv Hb4.
  all: destruct (without mentions_timeframe filters params) as [tff tfp].
  all: query_step E Hv Hb5.
  all: match type of E with (let '(_, _) := ?x in _) _ = _ =>
         destruct x as [[w2 tp2] tfs] end.
  all: destruct (without mentions_strategy filters params) as [stf stp].
  all: query_step E Hv Hb6.
  all: match type of E with (let '(_, _) := ?x in _) _ = _ =>
         destruct x as [[w3 tp3] sts] end.
  all: query_step E Hv Hb7.
  all: destruct (without (fun c => mentions_timeframe c || mentions_strategy c)
                   filters params) as [cbf cbp].
  all: query_step E Hv Hb8.
  all: match type of E with (let '(_, _) := ?x in _) _ = _ =>
         destruct x as [[w4 tp4] cbs] end.
  all: apply bind_returned in E; destruct E as (pf & cP & Hpf & E).
  1: change (Py.truthy_opt (Some 0)) with false in Hpf.
  1: assert (Epf : pf = None) by (unfold ret in Hpf; injection Hpf as <- _; reflexivity).
  2: assert (Epf : pf = if Py.truthy_opt (p_avg_loss perf) then
                          match p_avg_win perf, p_avg_loss perf with
                          | Some w, Some lo => Some (Py.round2 (Qabs (w / lo)))
                          | _, _ => None
                          end
                        else None)
       by (destruct (Py.truthy_opt (p_avg_loss perf));
           [destruct (p_avg_win perf), (p_avg_loss perf)|];
           unfold ret, raise in Hpf; try discriminate; injection Hpf as <- _;
           reflexivity).
  all: clear Hpf; unfold ret in E; injection E as <- _.
  all: cbn [in_total_trades in_open_trades in_closed_trades in_win_rate in_losses
            in_average_profit_per_win in_average_loss_per_loss in_buy_stats
            in_sell_stats in_side in_average_lot_size_wins
            in_average_lot_size_losses in_difference in_average_rr_winning_trades
            in_average_rr_losing_trades in_profit_factor].
  all: rewrite Eside, Epf.
  all: repeat split; reflexivity.
Qed.

Lemma count_where_split {A} (p q : A -> bool) rows :
  (forall x, q x = negb (p x)) ->
  (count_where p rows + count_where q rows = len rows)%Z.
Proof.
  intros H. unfold count_where, len.
  assert (E : (List.length (filter p rows) + List.length (filter q rows)
               = List.length rows)%nat).
  { induction rows as [|x rows IH]; simpl; [reflexivity|].
    rewrite (H x). destruct (p x); simpl; lia. }
  lia.
Qed.

Lemma count_where_bounds {A} (p : A -> bool) rows :
  (0 <= count_where p rows <= len rows)%Z.
Proof.
  unfold count_where, len. pose proof (filter_length_le p rows). lia.
Qed.

Lemma open_or_closed t : is_closed t = negb (is_open t).
Proof. unfold is_closed, is_open. destruct (tt_status t); reflexivity. Qed.

(** X15. In every reply of [get_trade_insights] the open and the closed count
    add up to the total. They are [None], not zero, exactly when the total is
    zero. *)
Theorem get_trade_insights_counts_add_up :
  forall flt user_id currency_pair timeframe strategy date_filter l r l',
    get_trade_insights flt user_id currency_pair timeframe strategy date_filter l
    = (Returned r, l') ->
    match in_open_trades r, in_closed_trades r with
    | Some open, Some closed =>
        (0 <= open /\ 0 <= closed /\ open + closed = in_total_trades r /\
         0 < in_total_trades r)%Z
    | None, None => in_total_trades r = 0%Z
    | _, _ => False
    end.
Proof.
  intros flt user_id cp tf st df l r l' H.
  apply get_trade_insights_summary in H. cbv zeta in H. destruct H as [H _].
  unfold count_trades in H. injection H as -> -> ->.
  destruct (filter _ (trade_tracker l)) as [|t rows]; [reflexivity|].
  unfold sql_sum_case.
  pose proof (count_where_split is_open is_closed (t :: rows) open_or_closed) as Hs.
  pose proof (count_where_bounds is_open (t :: rows)) as Ho.
  pose proof (count_where_bounds is_closed (t :: rows)) as Hc.
  unfold len in *. simpl List.length in *. lia.
Qed.

Lemma get_trade_insights_counts_add_up_witness :
  match get_trade_insights None "alice" None None None None ledger_one_open with
  | (Returned r, _) =>
      match in_open_trades r, in_closed_trades r with
      | Some open, Some closed =>
          (0 <= open /\ 0 <= closed /\ open + closed = in_total_trades r /\
           0 < in_total_trades r)%Z
      | None, None => in_total_trades r = 0%Z
      | _, _ => False
      end
  | _ => False
  end.
Proof.
  destruct (get_trade_insights None "alice" None None None None ledger_one_open)
    as [[r|e] l'] eqn:E; [|vm_compute in E; discriminate].
  exact (get_trade_insights_counts_add_up _ _ _ _ _ _ _ E).
Defined.

Lemma TradeType_eqb_eq a b : TradeType_eqb a b = true <-> a = b.
Proof. destruct a, b; simpl; split; congruence. Qed.

Lemma side_keys_shape (keys : list TradeType) :
  NoDup keys ->
  keys = [] \/ keys = [BUY] \/ keys = [SELL] \/ keys = [BUY; SELL] \/
  keys = [SELL; BUY].
Proof.
  intros H.
  destruct keys as [|a [|b [|c keys]]]; auto.
  - destruct a; auto.
  - inversion H as [|? ? Ha _]; subst.
    destruct a, b; auto; exfalso; apply Ha; left; reflexivity.
  - exfalso. inversion H as [|? ? Ha Hr]; subst.
    inversion Hr as [|? ? Hb _]; subst.
    destruct a, b, c; simpl in *; tauto.
Qed.

Lemma side_rows_absent side rows :
  ~ In side (distinct_keys TradeType_eqb
               (fun jr : TradeRow * ResultRow => Some (tt_trade_type (fst jr))) rows) ->
  side_rows side rows = [].
Proof.
  intros H. unfold side_rows.
  destruct (filter _ rows) as [|x xs] eqn:E; [reflexivity|].
  exfalso. apply H. apply distinct_keys_in; [exact TradeType_eqb_eq|].
  assert (Hx : In x (x :: xs)) by (left; reflexivity).
  rewrite <- E in Hx. apply filter_In in Hx. destruct Hx as [Hin Hk].
  exists x. split; [exact Hin|]. apply TradeType_eqb_eq in Hk. congruence.
Qed.

Lemma side_rows_present side rows :
  In side (distinct_keys TradeType_eqb
             (fun jr : TradeRow * ResultRow => Some (tt_trade_type (fst jr))) rows) ->
  side_rows side rows <> [].
Proof.
  intros H E. apply distinct_keys_in in H; [|exact TradeType_eqb_eq].
  destruct H as (x & Hin & Hk).
  assert (Hx : In x (side_rows side rows)).
  { apply filter_In. split; [exact Hin|]. apply TradeType_eqb_eq. congruence. }
  rewrite E in Hx. exact Hx.
Qed.

Lemma side_stats_spec conds params l :
  side_stats (side_performance conds params l)
  = (side_stats_of BUY (closed_rows conds params l),
     side_stats_of SELL (closed_rows conds params l)).
Proof.
  unfold side_performance, grouped, group_by.
  set (rows := closed_rows conds params l).
  set (key := fun jr : TradeRow * ResultRow => Some (tt_trade_type (fst jr))).
  pose proof (@distinct_keys_NoDup _ _ TradeType_eqb key TradeType_eqb_eq rows) as Hnd.
  pose proof (@side_rows_absent BUY rows) as HaB.
  pose proof (@side_rows_absent SELL rows) as HaS.
  pose proof (@side_rows_present BUY rows) as HpB.
  pose proof (@side_rows_present SELL rows) as HpS.
  fold key in HaB, HaS, HpB, HpS.
  assert (HfB : filter (has_key TradeType_eqb key BUY) rows = side_rows BUY rows)
    by reflexivity.
  assert (HfS : filter (has_key TradeType_eqb key SELL) rows = side_rows SELL rows)
    by reflexivity.
  unfold side_stats_of.
  destruct (side_keys_shape Hnd) as [E|[E|[E|[E|E]]]]; rewrite E in *.
  all: cbn [map order_by fold_right insert_by aggregate g_key fst snd TradeType_eqb
            andb side_stats side_loop fold_left].
  all: rewrite ?HfB, ?HfS.
  - rewrite HaB, HaS by (simpl; tauto). reflexivity.
  - rewrite HaS by (simpl; intuition discriminate).
    destruct (side_rows BUY rows) eqn:EB; [exfalso; apply HpB; simpl; auto|].
    reflexivity.
  - rewrite HaB by (simpl; intuition discriminate).
    destruct (side_rows SELL rows) eqn:ES; [exfalso; apply HpS; simpl; auto|].
    reflexivity.
  - destruct (side_rows BUY rows) eqn:EB; [exfalso; apply HpB; simpl; auto|].
    destruct (side_rows SELL rows) eqn:ES; [exfalso; apply HpS; simpl; auto|].
    reflexivity.
  - destruct (side_rows BUY rows) eqn:EB; [exfalso; apply HpB; simpl; auto|].
    destruct (side_rows SELL rows) eqn:ES; [exfalso; apply HpS; simpl; auto|].
    reflexivity.
Qed.

Lemma side_stats_of_total side rows :
  ss_total (side_stats_of side rows) = len (side_rows side rows) /\
  ss_wins (side_stats_of side rows) = count_where won (side_rows side rows).
Proof.
  unfold side_stats_of. destruct (side_rows side rows); split; reflexivity.
Qed.

(** X16. The BUY and the SELL block of a reply describe the BUY rows and the
    SELL rows among the closed trades with a result that match the filters
    of the call, of whatever user. Their totals add up to the number of
    those rows and the wins of a side do not exceed its total. *)
Theorem side_blocks_partition_the_closed_trades :
  forall flt user_id currency_pair timeframe strategy date_filter l r l',
    get_trade_insights flt user_id currency_pair timeframe strategy date_filter l
    = (Returned r, l') ->
    let fp := build_filters currency_pair timeframe strategy in
    let rows := closed_rows (fst fp) (snd fp) l in
    in_buy_stats r = side_stats_of BUY rows /\
    in_sell_stats r = side_stats_of SELL rows /\
    (ss_total (in_buy_stats r) + ss_total (in_sell_stats r) = len rows)%Z /\
    (0 <= ss_wins (in_buy_stats r) <= ss_total (in_buy_stats r))%Z /\
    (0 <= ss_wins (in_sell_stats r) <= ss_total (in_sell_stats r))%Z.
Proof.
  intros flt user_id cp tf st df l r l' H.
  apply get_trade_insights_summary in H. cbv zeta in *.
  destruct H as (_ & _ & _ & _ & _ & Hside & _).
  rewrite side_stats_spec in Hside. injection Hside as -> ->.
  set (rows := closed_rows _ _ l).
  destruct (side_stats_of_total BUY rows) as [-> ->].
  destruct (side_stats_of_total SELL rows) as [-> ->].
  split; [reflexivity|]. split; [reflexivity|].
  split; [|split; apply count_where_bounds].
  apply (@count_where_split _
           (fun jr : TradeRow * ResultRow => TradeType_eqb (tt_trade_type (fst jr)) BUY)
           (fun jr => TradeType_eqb (tt_trade_type (fst jr)) SELL)).
  intros x. destruct (tt_trade_type (fst x)); reflexivity.
Qed.

Lemma side_blocks_partition_the_closed_trades_witness :
  match get_trade_insights None "alice" None None None None ledger_bob_win with
  | (Returned r, _) =>
      let rows := closed_rows [] [] ledger_bob_win in
      in_buy_stats r = side_stats_of BUY rows /\
      in_sell_stats r = side_stats_of SELL rows /\
      (ss_total (in_buy_stats r) + ss_total (in_sell_stats r) = len rows)%Z /\
      (0 <= ss_wins (in_buy_stats r) <= ss_total (in_buy_stats r))%Z /\
      (0 <= ss_wins (in_sell_stats r) <= ss_total (in_sell_stats r))%Z
  | _ => False
  end.
Proof.
  destruct (get_trade_insights None "alice" None None None None ledger_bob_win)
    as [[r|e] l'] eqn:E; [|vm_compute in E; discriminate].
  exact (side_blocks_partition_the_closed_trades _ _ _ _ _ _ _ E).
Defined.

Lemma round_half_even_between a b x :
  inject_Z a <= x <= inject_Z b ->
  (a <= Py.round_half_even x <= b)%Z.
Proof.
  intros [Ha Hb]. unfold Py.round_half_even.
  pose proof (Qfloor_le x) as Hf.
  pose proof (Qfloor_resp_le _ _ Ha) as Hfa. rewrite Qfloor_Z in Hfa.
  pose proof (Qfloor_resp_le _ _ Hb) as Hfb. rewrite Qfloor_Z in Hfb.
  assert (Hup : 1 # 2 <= x - inject_Z (Qfloor x) -> (Qfloor x + 1 <= b)%Z).
  { intros Hh. destruct (Z.eq_dec (Qfloor x) b) as [E|E]; [|lia].
    rewrite E in Hh. lra. }
  destruct (Qcompare_spec (x - inject_Z (Qfloor x)) (1 # 2)) as [E|E|E].
  - destruct (Z.even (Qfloor x)); [lia|].
    split; [lia|]. apply Hup. rewrite E. apply Qle_refl.
  - lia.
  - split; [lia|]. apply Hup. apply Qlt_le_weak. exact E.
Qed.

Lemma round2_percentage x : 0 <= x <= 100 -> 0 <= Py.round2 x <= 100.
Proof.
  intros [H0 H1]. unfold Py.round2.
  destruct (@round_half_even_between 0 10000 (x * 100)) as [Ha Hb].
  { change (inject_Z 0) with 0. change (inject_Z 10000) with 10000. lra. }
  set (n := Py.round_half_even (x * 100)) in *.
  assert (Hn0 : 0 <= inject_Z n) by (change 0 with (inject_Z 0); rewrite <- Zle_Qle; exact Ha).
  assert (Hn1 : inject_Z n <= 10000)
    by (change 10000 with (inject_Z 10000); rewrite <- Zle_Qle; exact Hb).
  split.
  - apply Qle_shift_div_l; lra.
  - apply Qle_shift_div_r; lra.
Qed.

Lemma percent_of_percentage w t : (0 <= w <= t)%Z -> 0 <= percent_of w t <= 100.
Proof.
  intros [Hw Ht]. unfold percent_of. destruct (0 <? t)%Z eqn:E; [|lra].
  apply Z.ltb_lt in E.
  assert (Hw' : 0 <= inject_Z w) by (change 0 with (inject_Z 0); rewrite <- Zle_Qle; exact Hw).
  assert (Ht' : inject_Z w <= inject_Z t) by (rewrite <- Zle_Qle; exact Ht).
  assert (Hp : 0 < inject_Z t) by (change 0 with (inject_Z 0); rewrite <- Zlt_Qlt; exact E).
  assert (H0 : 0 <= inject_Z w / inject_Z t) by (apply Qle_shift_div_l; lra).
  assert (H1 : inject_Z w / inject_Z t <= 1) by (apply Qle_shift_div_r; lra).
  lra.
Qed.

Lemma ranked_percentage {K} (K_eqb : K -> K -> bool) key rows (ranked : list (GroupRow K)) :
  is_ranking K_eqb key rows ranked ->
  Forall (fun e => 0 <= rk_win_rate e <= 100) (map (@ranked_of K) ranked).
Proof.
  intros H. apply Forall_forall. intros e He. apply in_map_iff in He.
  destruct He as (g & <- & Hg). apply (ranking_groups H) in Hg.
  cbv zeta in Hg. destruct Hg as (_ & Ht & Hw & _).
  unfold ranked_of. cbn [rk_win_rate]. apply round2_percentage.
  apply percent_of_percentage. rewrite Ht, Hw. apply count_where_bounds.
Qed.

Lemma Forall_firstn {A} (P : A -> Prop) n l : Forall P l -> Forall P (firstn n l).
Proof.
  intros H. revert n. induction H as [|x l Hx _ IH]; intros [|n]; simpl;
    constructor; auto.
Qed.

(** X17. Every win rate of a reply lies between 0 and 100: the one of the
    summary, those of the BUY and the SELL block and those of the entries
    of the three rankings. *)
Theorem reported_win_rates_are_percentages :
  forall flt user_id currency_pair timeframe strategy date_filter l r l',
    get_trade_insights flt user_id currency_pair timeframe strategy date_filter l
    = (Returned r, l') ->
    0 <= in_win_rate r <= 100 /\
    0 <= ss_win_rate (in_buy_stats r) <= 100 /\
    0 <= ss_win_rate (in_sell_stats r) <= 100 /\
    Forall (fun e => 0 <= rk_win_rate e <= 100) (in_all_timeframes r) /\
    Forall (fun e => 0 <= rk_win_rate e <= 100) (in_all_strategies r) /\
    Forall (fun e => 0 <= rk_win_rate e <= 100) (in_top_5_timeframe_strategy_combos r).
Proof.
  intros flt user_id cp tf st df l r l' H.
  pose proof (get_trade_insights_rankings _ _ _ _ _ _ _ H) as Hr.
  apply get_trade_insights_summary in H. cbv zeta in *.
  destruct H as (_ & Hwr & _ & _ & _ & Hside & _).
  destruct Hr as (Htf & _ & Hst & _ & Hcb).
  rewrite side_stats_spec in Hside. injection Hside as Hb Hs.
  assert (Hside : forall side rows, 0 <= ss_win_rate (side_stats_of side rows) <= 100).
  { intros side rows. unfold side_stats_of. destruct (side_rows side rows) eqn:E.
    - simpl. lra.
    - cbn [ss_win_rate]. apply percent_of_percentage. apply count_where_bounds. }
  split; [|split; [|split; [|split; [|split]]]].
  - rewrite Hwr. apply round2_percentage.
    destruct (p_total_closed _ =? 0)%Z; [lra|].
    apply percent_of_percentage. unfold performance. cbn [p_wins p_total_closed].
    apply count_where_bounds.
  - rewrite Hb. apply Hside.
  - rewrite Hs. apply Hside.
  - rewrite Htf. eapply ranked_percentage. apply ranking_is_ranking.
    apply String.eqb_eq.
  - rewrite Hst. eapply ranked_percentage. apply ranking_is_ranking.
    apply String.eqb_eq.
  - rewrite Hcb. rewrite <- firstn_map. apply Forall_firstn.
    eapply ranked_percentage. apply ranking_is_ranking. apply pair_eqb_eq.
Qed.

Lemma reported_win_rates_are_percentages_witness :
  match get_trade_insights None "alice" None None None None ledger_one_win with
  | (Returned r, _) =>
      0 <= in_win_rate r <= 100 /\
      0 <= ss_win_rate (in_buy_stats r) <= 100 /\
      0 <= ss_win_rate (in_sell_stats r) <= 100 /\
      Forall (fun e => 0 <= rk_win_rate e <= 100) (in_all_timeframes r) /\
      Forall (fun e => 0 <= rk_win_rate e <= 100) (in_all_strategies r) /\
      Forall (fun e => 0 <= rk_win_rate e <= 100) (in_top_5_timeframe_strategy_combos r)
  | _ => False
  end.
Proof.
  destruct (get_trade_insights None "alice" None None None None ledger_one_win)
    as [[r|e] l'] eqn:E; [|vm_compute in E; discriminate].
  exact (reported_win_rates_are_percentages _ _ _ _ _ _ _ E).
Defined.

Lemma without_timeframe cp tf st :
  without mentions_timeframe (fst (build_filters cp tf st)) (snd (build_filters cp tf st))
  = build_filters cp None st.
Proof.
  unfold build_filters, add_filter, Py.truthy_str.
  destruct cp as [a|], tf as [b|], st as [c|]; simpl;
    repeat match goal with |- context [String.eqb ?x ""] => destruct (String.eqb x "") end;
    reflexivity.
Qed.

Lemma without_strategy cp tf st :
  without mentions_strategy (fst (build_filters cp tf st)) (snd (build_filters cp tf st))
  = build_filters cp tf None.
Proof.
  unfold build_filters, add_filter, Py.truthy_str.
  destruct cp as [a|], tf as [b|], st as [c|]; simpl;
    repeat match goal with |- context [String.eqb ?x ""] => destruct (String.eqb x "") end;
    reflexivity.
Qed.

Lemma without_both cp tf st :
  without (fun c => mentions_timeframe c || mentions_strategy c)
    (fst (build_filters cp tf st)) (snd (build_filters cp tf st))
  = build_filters cp None None.
Proof.
  unfold build_filters, add_filter, Py.truthy_str.
  destruct cp as [a|], tf as [b|], st as [c|]; simpl;
    repeat match goal with |- context [String.eqb ?x ""] => destruct (String.eqb x "") end;
    reflexivity.
Qed.

(** X18. The combined ranking of a reply is determined by the ledger and
    the currency pair filter: the caller, the timeframe, the strategy and the
    date filter have no part in it. The timeframe ranking is determined by
    these and the strategy filter, the strategy ranking by these and the
    timeframe filter. *)
Theorem rankings_ignore_their_own_filter :
  forall flt flt' user_id user_id' currency_pair timeframe timeframe' strategy strategy'
         date_filter date_filter' l r r' l1 l2,
    get_trade_insights flt user_id currency_pair timeframe strategy date_filter l
    = (Returned r, l1) ->
    get_trade_insights flt' user_id' currency_pair timeframe' strategy' date_filter' l
    = (Returned r', l2) ->
    in_top_5_timeframe_strategy_combos r = in_top_5_timeframe_strategy_combos r' /\
    (strategy = strategy' ->
     in_all_timeframes r = in_all_timeframes r' /\
     in_best_timeframe r = in_best_timeframe r') /\
    (timeframe = timeframe' ->
     in_all_strategies r = in_all_strategies r' /\
     in_best_strategy r = in_best_strategy r').
Proof.
  intros flt flt' user_id user_id' cp tf tf' st st' df df' l r r' l1 l2 H H'.
  apply get_trade_insights_rankings in H, H'. cbv zeta in H, H'.
  rewrite without_timeframe, without_strategy, without_both in H, H'.
  destruct H as (Htf & Hbt & Hst & Hbs & Hcb).
  destruct H' as (Htf' & Hbt' & Hst' & Hbs' & Hcb').
  split; [congruence|]. split; intros <-.
  - assert (E : in_all_timeframes r = in_all_timeframes r') by congruence.
    split; [exact E|]. rewrite Hbt, Hbt', E. reflexivity.
  - assert (E : in_all_strategies r = in_all_strategies r') by congruence.
    split; [exact E|]. rewrite Hbs, Hbs', E. reflexivity.
Qed.

Lemma rankings_ignore_their_own_filter_witness :
  match get_trade_insights None "alice" None (Some "1h"%string) None None ledger_one_win,
        get_trade_insights None "bob" None (Some "5m"%string) None
          (Some "2024"%string) ledger_one_win with
  | (Returned r, _), (Returned r', _) =>
      in_top_5_timeframe_strategy_combos r = in_top_5_timeframe_strategy_combos r' /\
      (@None string = None ->
       in_all_timeframes r = in_all_timeframes r' /\
       in_best_timeframe r = in_best_timeframe r') /\
      (Some "1h"%string = Some "5m"%string ->
       in_all_strategies r = in_all_strategies r' /\
       in_best_strategy r = in_best_strategy r')
  | _, _ => False
  end.
Proof.
  destruct (get_trade_insights None "alice" None (Some "1h"%string) None None
              ledger_one_win) as [[r|e] l1] eqn:E;
    [|vm_compute in E; discriminate].
  destruct (get_trade_insights None "bob" None (Some "5m"%string) None
              (Some "2024"%string) ledger_one_win) as [[r'|e'] l2] eqn:E';
    [|vm_compute in E'; discriminate].
  exact (@rankings_ignore_their_own_filter _ _ _ _ _ _ _ _ _ _ _ _ _ _ _ _ E E').
Defined.

(** X19. When the caller has closed losing trades under the filters, with an
    average loss that is not zero, and no closed winning trade,
    [get_trade_insights] raises [TypeError]: the profit factor divides the
    average win, which is [None]. *)
Theorem profit_factor_needs_a_winning_trade :
  forall user_id currency_pair timeframe strategy date_filter l,
    no_clash user_id currency_pair timeframe strategy ->
    let fp := build_filters currency_pair timeframe strategy in
    let rows := closed_rows (user_id_is :: fst fp) (user_id :: snd fp) l in
    filter won rows = [] ->
    Py.truthy_opt (sql_avg (map pl_of (filter lost rows))) = true ->
    get_trade_insights None user_id currency_pair timeframe strategy date_filter l
    = (Raised TypeError, l).
Proof.
  intros user_id cp tf st df l Hclash fp rows Hwon Hloss. subst fp rows.
  pose proof (build_filters_lengths cp tf st) as Hlen.
  pose proof (build_filters_no_user cp tf st) as Hnu.
  pose proof (no_clash_params Hclash) as Hnp.
  unfold get_trade_insights, with_connection.
  destruct (build_filters cp tf st) as [filters params]. cbn [fst snd] in *.
  rewrite Hnu, Hnp.
  assert (Hlen' : List.length (user_id_is :: filters) = List.length (user_id :: params))
    by (simpl; congruence).
  pose proof (without_lengths mentions_timeframe filters params Hlen) as Htf.
  pose proof (without_lengths mentions_strategy filters params Hlen) as Hst.
  pose proof (without_lengths (fun c => mentions_timeframe c || mentions_strategy c)
                filters params Hlen) as Hcb.
  destruct (without mentions_timeframe filters params) as [tff tfp].
  destruct (without mentions_strategy filters params) as [stf stp].
  destruct (without (fun c => mentions_timeframe c || mentions_strategy c)
              filters params) as [cbf cbp].
  cbn [fst snd] in *.
  healthy_step.
  destruct (count_trades filters params l) as [[total open] closed].
  healthy_step.
  unfold performance.
  set (rows := closed_rows (user_id_is :: filters) (user_id :: params) l) in *.
  cbn [p_total_closed p_wins p_losses p_total_pl p_avg_win p_avg_loss].
  rewrite Hwon.
  assert (Hne : (Z.of_nat (List.length rows) =? 0)%Z = false).
  { apply Z.eqb_neq. destruct rows as [|x xs]; [discriminate|].
    simpl List.length. lia. }
  rewrite Hne.
  healthy_step.
  match goal with |- context [side_loop ?a ?b ?c ?d ?e] =>
    destruct (side_loop a b c d e) as [[[w1 tp1] buy] sell] end.
  healthy_step. healthy_step.
  match goal with |- context [stats_loop ?a ?b ?c] =>
    destruct (stats_loop a b c) as [[w2 tp2] tfs] end.
  healthy_step.
  match goal with |- context [stats_loop ?a ?b ?c] =>
    destruct (stats_loop a b c) as [[w3 tp3] sts] end.
  healthy_step. healthy_step.
  match goal with |- context [stats_loop ?a ?b ?c] =>
    destruct (stats_loop a b c) as [[w4 tp4] cbs] end.
  rewrite Hloss. cbn [map sql_avg].
  destruct (sql_avg (map pl_of (filter lost rows))); [|discriminate].
  reflexivity.
Qed.

Lemma profit_factor_needs_a_winning_trade_witness :
  get_trade_insights None "alice" None None None None ledger_one_loss
  = (Raised TypeError, ledger_one_loss).
Proof.
  apply profit_factor_needs_a_winning_trade.
  - repeat split; discriminate.
  - reflexivity.
  - reflexivity.
Defined.

(** ** Storage faults in read-only runs *)

Lemma fails_only_in_storage_ret {A} (a : A) : fails_only_in_storage (ret a).
Proof. intros c. split; [reflexivity|]. left. split; reflexivity. Qed.

Lemma fails_only_in_storage_raise {A} e : fails_only_in_storage (@raise A e).
Proof. intros c. split; [reflexivity|]. left. split; reflexivity. Qed.

Lemma fails_only_in_storage_bind {A B} (m : DB A) (k : A -> DB B) :
  fails_only_in_storage m -> (forall a, fails_only_in_storage (k a)) ->
  fails_only_in_storage (bind m k).
Proof.
  intros Hm Hk c. unfold bind. destruct (Hm c) as [Hf Hc].
  destruct (m c) as [[a|e] c'] eqn:E; simpl in *.
  - destruct (Hk a c') as [Hf' Hc']. split; [congruence|].
    destruct Hc as [[Ho Hh]|(n & why & Hn & Ho)]; [|discriminate].
    destruct (m (healed c)) as [o0 c0]. simpl in *. subst o0 c0.
    destruct Hc' as [Hl|(n & why & Hn & Ho)]; [left; exact Hl|].
    right. exists n, why. split; [congruence|exact Ho].
  - split; [exact Hf|].
    destruct Hc as [[Ho Hh]|(n & why & Hn & [= ->])];
      [|right; exists n, why; auto].
    destruct (m (healed c)) as [o0 c0]. simpl in *. subst o0 c0.
    left. split; reflexivity.
Qed.

Lemma fails_only_in_storage_execute_query {A} uses supplied (q : Ledger -> A) :
  fails_only_in_storage (execute_query uses supplied q).
Proof.
  intros c. unfold execute_query, bind_parameters, storage_step, bind, ret, raise.
  destruct (Nat.eqb uses supplied); simpl.
  - destruct (fault c) as [[n why]|]; simpl.
    + destruct (Nat.eqb n (issued c)); simpl.
      * split; [reflexivity|]. right. exists n, why. auto.
      * split; [reflexivity|]. left. split; reflexivity.
    + split; [reflexivity|]. left. split; reflexivity.
  - split; [reflexivity|]. left. split; reflexivity.
Qed.

Ltac fails_only_in_storage_step :=
  match goal with
  | |- fails_only_in_storage (bind (execute_query _ _ _) _) =>
      apply fails_only_in_storage_bind;
      [apply fails_only_in_storage_execute_query|intros ?]
  | |- fails_only_in_storage (bind _ _) =>
      apply fails_only_in_storage_bind; [|intros ?]
  | |- fails_only_in_storage (ret _) => apply fails_only_in_storage_ret
  | |- fails_only_in_storage (raise _) => apply fails_only_in_storage_raise
  | |- fails_only_in_storage (let '(_, _) := ?x in _) => destruct x
  | |- fails_only_in_storage (match ?x with _ => _ end) => destruct x
  | |- fails_only_in_storage (if ?x then _ else _) => destruct x
  end.

(** X20. [get_trade_insights] writes nothing, and a storage fault can only
    stop it: under any fault the ledger is unchanged, and the outcome is the
    one on a healthy store or the [OperationalError] of the fault. *)
Theorem get_trade_insights_under_storage_fault :
  forall flt user_id currency_pair timeframe strategy date_filter l,
    exists o,
      get_trade_insights flt user_id currency_pair timeframe strategy date_filter l
      = (o, l) /\
      (o = fst (get_trade_insights None user_id currency_pair timeframe strategy
                  date_filter l) \/
       exists n why, flt = Some (n, why) /\ o = Raised (OperationalError why)).
Proof.
  intros flt user_id cp tf st df l.
  pose proof (get_trade_insights_reads_only flt user_id cp tf st df l) as Hd.
  unfold get_trade_insights, with_connection in *.
  match goal with |- exists _, (let '(_, _) := ?m ?c in _) = _ /\ _ =>
    assert (H : fails_only_in_storage m) by (repeat fails_only_in_storage_step);
    destruct (H c) as [_ Hc]; change (healed c) with (mkConn l l None 0) in Hc;
    destruct (m c) as [o c1]; destruct (m (mkConn l l None 0)) as [o0 c0]
  end.
  cbn [fst snd fault] in *. exists o. rewrite Hd. split; [reflexivity|].
  destruct Hc as [[-> _]|(n' & why' & -> & ->)]; [left; reflexivity|].
  right. exists n', why'. auto.
Qed.

(** ** The risk monitor *)

(** X21. No call of [check_risk_alerts] returns and none writes, when the
    limit of its first query, twice [recent_trades_count], is a value SQLite
    binds (a signed 64-bit integer): a fault at the first statement raises
    its [OperationalError], and every other call raises [ProgrammingError]
    at the open-trades query. *)
Theorem check_risk_alerts_never_returns :
  forall flt user_id recent_trades_count consecutive_loss_threshold
         max_trades_per_hour max_risk_per_trade_percent
         drawdown_threshold_percent l,
    (- 2 ^ 63 <= recent_trades_count * 2 < 2 ^ 63)%Z ->
    check_risk_alerts flt user_id recent_trades_count consecutive_loss_threshold
      max_trades_per_hour max_risk_per_trade_percent drawdown_threshold_percent l
    = (Raised (match flt with
               | Some (O, why) => OperationalError why
               | _ => ProgrammingError 1 0
               end), l).
Proof.
  intros flt user_id n1 n2 n3 q1 q2 l _.
  unfold check_risk_alerts. run_db.
  destruct flt as [[[|n] why]|]; reflexivity.
Qed.

Lemma check_risk_alerts_never_returns_witness :
  check_risk_alerts (Some (0%nat, database_locked)) "alice" 10 3 5 2 10
    ledger_three_wins
  = (Raised (OperationalError database_locked), ledger_three_wins) /\
  check_risk_alerts None "alice" 10 3 5 2 10 ledger_three_wins
  = (Raised (ProgrammingError 1 0), ledger_three_wins).
Proof.
  split.
  - apply (@check_risk_alerts_never_returns (Some (0%nat, database_locked))
             "alice"%string 10%Z 3%Z 5%Z 2 10 ledger_three_wins). lia.
  - apply (@check_risk_alerts_never_returns None "alice"%string 10%Z 3%Z 5%Z 2 10
             ledger_three_wins). lia.
Defined.

Lemma with_alerts_rows user_id alerts l :
  users (with_alerts user_id alerts l) = users l /\
  trade_tracker (with_alerts user_id alerts l) = trade_tracker l /\
  trade_results (with_alerts user_id alerts l) = trade_results l /\
  map (fun r => (rm_user_id r, rm_alert_type r, rm_risk_level r, rm_acknowledged r))
      (risk_monitor (with_alerts user_id alerts l))
  = map (fun r => (rm_user_id r, rm_alert_type r, rm_risk_level r, rm_acknowledged r))
        (risk_monitor l)
    ++ map (fun a => (user_id, alert_type a, risk_level a, false)) alerts.
Proof.
  unfold with_alerts. revert l.
  induction alerts as [|a alerts IH]; intros l; cbn [fold_left].
  - simpl. rewrite app_nil_r. auto.
  - destruct (IH (fst (insert_alert user_id a l))) as (Hu & Ht & Hr & Hm).
    rewrite Hu, Ht, Hr, Hm. simpl. rewrite map_app, <- app_assoc. auto.
Qed.

Lemma insert_alerts_run user_id alerts :
  forall c,
    (forall n why, fault c = Some (n, why) ->
                   (n < issued c \/ issued c + List.length alerts <= n)%nat) ->
    insert_alerts user_id alerts c
    = (Returned tt,
       mkConn (disk c) (with_alerts user_id alerts (view c)) (fault c)
         (issued c + List.length alerts)).
Proof.
  induction alerts as [|a alerts IH]; intros c Hf; simpl.
  - unfold ret. rewrite Nat.add_0_r. destruct c; reflexivity.
  - unfold bind at 1. unfold execute_write, bind_parameters, storage_step, bind, ret.
    simpl.
    assert (Hstep : match fault c with
                    | Some (n, why) => Nat.eqb n (issued c) = false
                    | None => True
                    end).
    { destruct (fault c) as [[n why]|] eqn:E; [|exact I].
      apply Nat.eqb_neq. specialize (Hf n why eq_refl). simpl in Hf. lia. }
    destruct (fault c) as [[n why]|] eqn:E.
    + rewrite Hstep. simpl. rewrite IH; simpl.
      * f_equal. f_equal. lia.
      * intros n' why' [= <- <-]. specialize (Hf n why eq_refl). simpl in Hf. lia.
    + simpl. rewrite IH; simpl.
      * f_equal. f_equal. lia.
      * intros n' why' [=].
Qed.

Lemma insert_alerts_fault user_id alerts :
  forall c n why,
    fault c = Some (n, why) ->
    (issued c <= n < issued c + List.length alerts)%nat ->
    exists c', insert_alerts user_id alerts c = (Raised (OperationalError why), c') /\
               disk c' = disk c.
Proof.
  induction alerts as [|a alerts IH]; intros c n why Hf Hn; simpl in *; [lia|].
  unfold bind at 1. unfold execute_write, bind_parameters, storage_step, bind, ret.
  simpl. rewrite Hf.
  destruct (Nat.eqb n (issued c)) eqn:E; simpl.
  - eexists. split; reflexivity.
  - apply Nat.eqb_neq in E.
    match goal with |- context [insert_alerts user_id alerts ?c1] =>
      destruct (IH c1 n why) as (c' & Hrun & Hd); [reflexivity|simpl; lia|]
    end.
    rewrite Hrun. exists c'. split; [reflexivity|exact Hd].
Qed.

(** X22. Saving the alerts of a report commits all of them or none. When no
    fault meets its statements every alert is on disk: one row each, in
    order, for the user, not acknowledged, the other tables untouched. A
    fault at an INSERT or at the commit leaves the disk as it was; the call
    then goes on if the store is read-only and raises if it is locked. *)
Theorem save_alerts_stores_all_or_nothing :
  forall user_id alerts c,
    (let '(o, c') := save_alerts user_id alerts c in
     (o = Returned tt /\ disk c' = with_alerts user_id alerts (view c)) \/
     (disk c' = disk c /\
      exists n why,
        fault c = Some (n, why) /\
        (issued c <= n <= issued c + List.length alerts)%nat /\
        o = match why with
            | readonly_database => Returned tt
            | database_locked => Raised (OperationalError database_locked)
            end)) /\
    users (with_alerts user_id alerts (view c)) = users (view c) /\
    trade_tracker (with_alerts user_id alerts (view c)) = trade_tracker (view c) /\
    trade_results (with_alerts user_id alerts (view c)) = trade_results (view c) /\
    map (fun r => (rm_user_id r, rm_alert_type r, rm_risk_level r, rm_acknowledged r))
        (risk_monitor (with_alerts user_id alerts (view c)))
    = map (fun r => (rm_user_id r, rm_alert_type r, rm_risk_level r, rm_acknowledged r))
          (risk_monitor (view c))
      ++ map (fun a => (user_id, alert_type a, risk_level a, false)) alerts.
Proof.
  intros user_id alerts c. split; [|apply with_alerts_rows]. unfold save_alerts.
  destruct (fault c) as [[n why]|] eqn:Hf.
  - destruct (Nat.ltb n (issued c)) eqn:E1;
      [apply Nat.ltb_lt in E1|apply Nat.ltb_ge in E1].
    + unfold bind. rewrite insert_alerts_run
        by (intros n' why' H; rewrite Hf in H; injection H as <- <-; lia).
      unfold commit, storage_step, bind. simpl. rewrite Hf.
      replace (Nat.eqb n (issued c + List.length alerts)) with false
        by (symmetry; apply Nat.eqb_neq; lia).
      simpl. left. split; reflexivity.
    + destruct (Nat.ltb n (issued c + List.length alerts)) eqn:E2;
        [apply Nat.ltb_lt in E2|apply Nat.ltb_ge in E2].
      * destruct (@insert_alerts_fault user_id alerts c n why Hf) as (c' & Hrun & Hd);
          [lia|].
        unfold bind. rewrite Hrun.
        destruct why; simpl; right; (split; [exact Hd|]); exists n; eexists;
          (split; [reflexivity|]); (split; [lia|reflexivity]).
      * unfold bind. rewrite insert_alerts_run
          by (intros n' why' H; rewrite Hf in H; injection H as <- <-; lia).
        unfold commit, storage_step, bind. simpl. rewrite Hf.
        destruct (Nat.eqb n (issued c + List.length alerts)) eqn:E3; simpl.
        -- apply Nat.eqb_eq in E3.
           destruct why; simpl; right; (split; [reflexivity|]); exists n; eexists;
             (split; [reflexivity|]); (split; [lia|reflexivity]).
        -- left. split; reflexivity.
  - unfold bind. rewrite insert_alerts_run
      by (intros n' why' H; rewrite Hf in H; discriminate).
    unfold commit, storage_step, bind. simpl. rewrite Hf. simpl.
    left. split; reflexivity.
Qed.

Lemma index_in {A} (l : list A) i x : index l i = Some x -> In x l.
Proof.
  unfold index. destruct (i <? 0)%Z.
  - destruct (0 <=? len l + i)%Z; [|discriminate]. apply nth_error_In.
  - apply nth_error_In.
Qed.

Lemma in_firstn {A} n (l : list A) x : In x (firstn n l) -> In x l.
Proof.
  revert n. induction l as [|y l IH]; intros [|n]; simpl; try contradiction.
  intros [->|H]; [left; reflexivity|right; eapply IH; exact H].
Qed.

Lemma in_sql_limit {A} n (l : list A) x : In x (sql_limit n l) -> In x l.
Proof.
  unfold sql_limit. destruct (n <? 0)%Z; [auto|apply in_firstn].
Qed.

(** A row of the recent-trades scan shows a closed trade of the user. *)
Lemma recent_closed_trades_in user_id limit l row :
  In row (recent_closed_trades user_id limit l) ->
  exists t, In t (trade_tracker l) /\ tt_user_id t = user_id /\
            tt_status t = CLOSED /\ sc_id row = tt_id t /\
            sc_lot_size row = tt_lot_size t.
Proof.
  unfold recent_closed_trades, newest_first. intros H.
  apply in_sql_limit in H.
  apply (Permutation_in _ (order_by_perm _ _)) in H.
  apply in_flat_map in H. destruct H as (t & Ht & Hrow).
  apply filter_In in Ht. destruct Ht as [Ht Hc].
  apply andb_true_iff in Hc. destruct Hc as [Hc Hu].
  exists t. split; [exact Ht|]. split; [apply String.eqb_eq; exact Hu|].
  split; [unfold is_closed in Hc; destruct (tt_status t); [discriminate|reflexivity]|].
  destruct (filter _ (trade_results l)) as [|r rs].
  - destruct Hrow as [<-|[]]. split; reflexivity.
  - apply in_map_iff in Hrow. destruct Hrow as (r' & <- & _). split; reflexivity.
Qed.

Lemma rule_overconfidence_returns recent_trades c :
  Forall (fun row => 0 < sc_lot_size row) recent_trades ->
  exists alerts,
    rule_overconfidence recent_trades c = (Returned alerts, c) /\
    (List.length alerts <= 1)%nat.
Proof.
  intros Hpos. unfold rule_overconfidence.
  destruct (3 <=? len recent_trades)%Z; [|exists []; split; [reflexivity|simpl; lia]].
  set (wins := filter (has_result WIN) (firstn 5 recent_trades)).
  destruct (3 <=? len wins)%Z; [|exists []; split; [reflexivity|simpl; lia]].
  destruct (index (map sc_lot_size wins) 0) as [newest|];
    [|exists []; split; [reflexivity|simpl; lia]].
  destruct (index (map sc_lot_size wins) (-1)) as [oldest|] eqn:Eo;
    [|exists []; split; [reflexivity|simpl; lia]].
  destruct (_ && _); [|exists []; split; [reflexivity|simpl; lia]].
  assert (Ho : 0 < oldest).
  { apply index_in in Eo. apply in_map_iff in Eo. destruct Eo as (row & <- & Hrow).
    unfold wins in Hrow. apply filter_In in Hrow. destruct Hrow as [Hrow _].
    apply in_firstn in Hrow. rewrite Forall_forall in Hpos. apply Hpos. exact Hrow. }
  assert (Ht : Py.truthy oldest = true) by (apply truthy_true; lra).
  rewrite Ht. eexists. split; [reflexivity|simpl; lia].
Qed.

Lemma ledger_three_wins_reachable : reachable ledger_three_wins.
Proof.
  unfold ledger_three_wins, ledger_tied_timeframes, ledger_two_open.
  repeat
    match goal with
    | |- reachable (snd (log_trade_result ?f ?n ?u ?i ?r ?no ?l)) =>
        let E := fresh "E" in
        destruct (log_trade_result f n u i r no l) as [[? | ?] ?] eqn:E;
        [|vm_compute in E; discriminate];
        cbn [snd]; eapply reachable_log_trade_result; [|exact E]
    | |- reachable (snd (save_trade ?f ?n ?u ?e ?tp ?sl ?lo ?b ?s ?p ?tf ?st ?sg ?no ?l)) =>
        let E := fresh "E" in
        destruct (save_trade f n u e tp sl lo b s p tf st sg no l) as [[? | ?] ?] eqn:E;
        [|vm_compute in E; discriminate];
        cbn [snd]; eapply reachable_save_trade; [|exact E]
    end.
  exact ledger_one_open_reachable.
Qed.

(** X23. On a ledger the tools produced, the overconfidence rule never
    divides by zero: the lot sizes of stored trades are positive, so on the
    recent closed trades of any user the rule returns. *)
Theorem overconfidence_rule_never_divides_by_zero :
  forall l,
    reachable l ->
    forall user_id limit c,
    exists alerts,
      rule_overconfidence (recent_closed_trades user_id limit l) c
      = (Returned alerts, c).
Proof.
  intros l Hreach user_id limit c.
  apply reachable_sound in Hreach. destruct Hreach as (_ & _ & Hlots).
  destruct (@rule_overconfidence_returns (recent_closed_trades user_id limit l) c)
    as (alerts & Hrun & _).
  - apply Forall_forall. intros row Hrow.
    apply recent_closed_trades_in in Hrow.
    destruct Hrow as (t & Ht & _ & _ & _ & ->). apply Hlots. exact Ht.
  - exists alerts. exact Hrun.
Qed.

Lemma overconfidence_rule_never_divides_by_zero_witness :
  map sc_lot_size (recent_closed_trades "alice" 20 ledger_three_wins) = [2; 1; 1] /\
  exists alerts,
    rule_overconfidence (recent_closed_trades "alice" 20 ledger_three_wins)
      (mkConn ledger_three_wins ledger_three_wins None 2)
    = (Returned alerts, mkConn ledger_three_wins ledger_three_wins None 2) /\
    map alert_type alerts = [OVERCONFIDENCE].
Proof.
  split; [reflexivity|].
  destruct (@overconfidence_rule_never_divides_by_zero ledger_three_wins
              ledger_three_wins_reachable "alice"%string 20%Z
              (mkConn ledger_three_wins ledger_three_wins None 2))
    as (alerts & Hrun).
  exists alerts. split; [exact Hrun|].
  vm_compute in Hrun. injection Hrun as <-. reflexivity.
Defined.

Lemma rule_revenge_trading_length recent_trades :
  (List.length (rule_revenge_trading recent_trades) <= 1)%nat.
Proof.
  induction recent_trades as [|current rest IH]; simpl; [lia|].
  destruct rest as [|previous rest']; [simpl; lia|].
  destruct (has_result LOSS previous); [|exact IH].
  destruct (sc_result_timestamp previous); [|exact IH].
  destruct (Py.ltb _ 1); [simpl; lia|exact IH].
Qed.

Lemma rule_risk_per_trade_length limit candidates :
  (List.length (rule_risk_per_trade limit candidates) <= 1)%nat.
Proof.
  induction candidates as [|trade rest IH]; simpl; [lia|].
  destruct (sc_stop_loss trade); [|exact IH].
  destruct (_ && _); [|exact IH].
  destruct (Py.ltb limit _); [simpl; lia|exact IH].
Qed.

(** X24. Each of the ten rules of [check_risk_alerts] adds at most one alert
    to a report. *)
Theorem every_rule_raises_at_most_one_alert :
  forall recent_trades open_trades candidates recent_trades_count
         consecutive_loss_threshold max_trades_per_hour
         max_risk_per_trade_percent drawdown_threshold_percent,
    (List.length (rule_consecutive_losses recent_trades recent_trades_count
                    consecutive_loss_threshold) <= 1)%nat /\
    (List.length (rule_revenge_trading recent_trades) <= 1)%nat /\
    (forall c alerts c',
        rule_overconfidence recent_trades c = (Returned alerts, c') ->
        (List.length alerts <= 1)%nat) /\
    (List.length (rule_overtrading recent_trades max_trades_per_hour) <= 1)%nat /\
    (List.length (rule_risk_per_trade max_risk_per_trade_percent candidates) <= 1)%nat /\
    (List.length (rule_drawdown recent_trades drawdown_threshold_percent) <= 1)%nat /\
    (List.length (rule_emotional recent_trades) <= 1)%nat /\
    (List.length (rule_poor_risk_reward candidates) <= 1)%nat /\
    (List.length (rule_missing_stop_loss candidates) <= 1)%nat /\
    (List.length (rule_account_risk open_trades) <= 1)%nat.
Proof.
  intros recent_trades open_trades candidates n thr tph risk dd.
  repeat split.
  - unfold rule_consecutive_losses. destruct (thr <=? _)%Z; simpl; lia.
  - apply rule_revenge_trading_length.
  - intros c alerts c'. unfold rule_overconfidence, ret, raise.
    repeat match goal with
           | |- context [if ?b then _ else _] => destruct b
           | |- context [match ?x with Some _ => _ | None => _ end] => destruct x
           end;
      intros [= <- _]; simpl; lia.
  - unfold rule_overtrading.
    repeat match goal with
           | |- context [if ?b then _ else _] => destruct b
           | |- context [match ?x with Some _ => _ | None => _ end] => destruct x
           end; simpl; lia.
  - apply rule_risk_per_trade_length.
  - unfold rule_drawdown. destruct (3 <=? _)%Z; [|simpl; lia].
    destruct (filter _ _) as [|b [|b' bs]]; try (simpl; lia).
    destruct (Py.leb _ _); simpl; lia.
  - unfold rule_emotional.
    repeat match goal with
           | |- context [if ?b then _ else _] => destruct b
           end; simpl; lia.
  - unfold rule_poor_risk_reward. destruct (flat_map _ _); simpl; lia.
  - unfold rule_missing_stop_loss. destruct (map _ _); simpl; lia.
  - unfold rule_account_risk. destruct open_trades as [|first rest]; [simpl; lia|].
    destruct (Py.ltb 0 _); [|simpl; lia].
    destruct (Py.ltb 10 _); simpl; lia.
Qed.

Lemma leading_losses_spec rows :
  (0 <= leading_losses rows <= len rows)%Z /\
  Forall (fun row => sc_result row = Some LOSS)
         (firstn (Z.to_nat (leading_losses rows)) rows) /\
  match nth_error rows (Z.to_nat (leading_losses rows)) with
  | Some row => sc_result row <> Some LOSS
  | None => leading_losses rows = len rows
  end.
Proof.
  unfold len. induction rows as [|row rest IH]; cbn [leading_losses].
  - simpl. split; [lia|]. split; [constructor|reflexivity].
  - destruct IH as (Hb & Hall & Hnext).
    destruct (has_result LOSS row) eqn:E.
    + assert (Hr : sc_result row = Some LOSS).
      { unfold has_result in E. destruct (sc_result row) as [[|]|]; try discriminate.
        reflexivity. }
      assert (Hk : Z.to_nat (1 + leading_losses rest)
                   = S (Z.to_nat (leading_losses rest))).
      { lia. }
      rewrite Hk.
      cbn [firstn nth_error List.length]. split; [lia|]. split.
      * constructor; [exact Hr|exact Hall].
      * destruct (nth_error rest _); [exact Hnext|lia].
    + cbn [Z.to_nat firstn nth_error List.length]. split; [lia|].
      split; [constructor|].
      intros Hr. unfold has_result in E. rewrite Hr in E. discriminate.
Qed.

(** X25. The consecutive-losses alert reports the length of the run of
    losses the examined trades start with: that many of the newest trades
    lost, the next one, if any, did not, the run reaches the threshold, and
    the alert is [CRITICAL] from five losses on and [HIGH] below. *)
Theorem consecutive_losses_alert_counts_the_latest_losses :
  forall recent_trades recent_trades_count consecutive_loss_threshold a,
    In a (rule_consecutive_losses recent_trades recent_trades_count
            consecutive_loss_threshold) ->
    let examined := slice_to recent_trades_count recent_trades in
    exists k,
      details a = consecutive_losses_details k consecutive_loss_threshold /\
      alert_type a = CONSECUTIVE_LOSSES /\
      (consecutive_loss_threshold <= k /\ 0 <= k <= len examined)%Z /\
      Forall (fun row => sc_result row = Some LOSS) (firstn (Z.to_nat k) examined) /\
      match nth_error examined (Z.to_nat k) with
      | Some row => sc_result row <> Some LOSS
      | None => k = len examined
      end /\
      risk_level a = (if (5 <=? k)%Z then CRITICAL else HIGH).
Proof.
  intros recent n thr a Ha examined. unfold rule_consecutive_losses in Ha.
  fold examined in Ha.
  destruct (thr <=? leading_losses examined)%Z eqn:E; [|contradiction].
  destruct Ha as [<-|[]]. apply Z.leb_le in E.
  destruct (leading_losses_spec examined) as (Hb & Hall & Hnext).
  exists (leading_losses examined). cbn [details alert_type risk_level].
  repeat split; try assumption; lia.
Qed.

Lemma consecutive_losses_alert_counts_the_latest_losses_witness :
  let examined := slice_to 10 scan_three_losses in
  exists k,
    details (mkAlert CONSECUTIVE_LOSSES HIGH (consecutive_losses_details 3 3))
    = consecutive_losses_details k 3 /\
    alert_type (mkAlert CONSECUTIVE_LOSSES HIGH (consecutive_losses_details 3 3))
    = CONSECUTIVE_LOSSES /\
    (3 <= k /\ 0 <= k <= len examined)%Z /\
    Forall (fun row => sc_result row = Some LOSS) (firstn (Z.to_nat k) examined) /\
    match nth_error examined (Z.to_nat k) with
    | Some row => sc_result row <> Some LOSS
    | None => k = len examined
    end /\
    risk_level (mkAlert CONSECUTIVE_LOSSES HIGH (consecutive_losses_details 3 3))
    = (if (5 <=? k)%Z then CRITICAL else HIGH).
Proof.
  apply (@consecutive_losses_alert_counts_the_latest_losses scan_three_losses 10 3).
  left. reflexivity.
Defined.

(** ** Rows of other users *)

Lemma filter_filter_implied {A} (p q : A -> bool) l :
  (forall x, In x l -> p x = true -> q x = true) ->
  filter p l = filter p (filter q l).
Proof.
  induction l as [|x l IH]; simpl; intros H; [reflexivity|].
  destruct (p x) eqn:Ep.
  - rewrite (H x (or_introl eq_refl) Ep). simpl. rewrite Ep. f_equal.
    apply IH. intros y Hy. apply H. right. exact Hy.
  - destruct (q x); simpl; rewrite ?Ep; apply IH; intros y Hy; apply H; right; exact Hy.
Qed.

Lemma flat_map_ext_in {A B} (f g : A -> list B) l :
  (forall x, In x l -> f x = g x) -> flat_map f l = flat_map g l.
Proof.
  induction l as [|x l IH]; simpl; intros H; [reflexivity|].
  rewrite (H x (or_introl eq_refl)), IH; [reflexivity|].
  intros y Hy. apply H. right. exact Hy.
Qed.

Lemma filter_flat_map_fst {A B} (p : A -> bool) (g : A -> list B) l :
  filter (fun ab => p (fst ab)) (flat_map (fun a => map (pair a) (g a)) l)
  = flat_map (fun a => map (pair a) (g a)) (filter p l).
Proof.
  induction l as [|a l IH]; simpl; [reflexivity|].
  rewrite filter_app, IH.
  assert (E : filter (fun ab : A * B => p (fst ab)) (map (pair a) (g a))
              = if p a then map (pair a) (g a) else []).
  { induction (g a) as [|b bs IHb]; simpl; [destruct (p a); reflexivity|].
    rewrite IHb. destruct (p a); reflexivity. }
  rewrite E. destruct (p a); reflexivity.
Qed.

(** On a well-formed ledger the results joined to a trade are results of the
    owner of the trade. *)
Lemma joined_results_own user_id l t :
  well_formed l -> In t (trade_tracker l) -> tt_user_id t = user_id ->
  filter (fun r => (tr_trade_id r =? tt_id t)%Z) (trade_results l)
  = filter (fun r => (tr_trade_id r =? tt_id t)%Z) (own_results user_id l).
Proof.
  intros (Hnd & _ & _ & Href & _) Hin Hu. unfold own_results.
  apply filter_filter_implied. intros r Hr Hid.
  apply Z.eqb_eq in Hid. apply String.eqb_eq.
  destruct (Href r Hr) as (t' & Hin' & Hid' & Hu').
  assert (E : t' = t).
  { apply (NoDup_map_inj tt_id (trade_tracker l)); auto. congruence. }
  subst t'. congruence.
Qed.

(** The joined rows a query with the user condition selects, from the
    user's own rows. *)
Lemma closed_rows_own user_id conds params l :
  well_formed l ->
  closed_rows (user_id_is :: conds) (user_id :: params) l
  = flat_map
      (fun t => map (pair t)
                  (filter (fun r => (tr_trade_id r =? tt_id t)%Z)
                          (own_results user_id l)))
      (filter (fun t => is_closed t
                        && where_clause (user_id_is :: conds) (user_id :: params) t)
              (own_trades user_id l)).
Proof.
  intros Hwf. unfold closed_rows, inner_join.
  rewrite (filter_flat_map_fst
             (fun t => is_closed t
                       && where_clause (user_id_is :: conds) (user_id :: params) t)
             (fun t => filter (fun r => (tr_trade_id r =? tt_id t)%Z)
                         (trade_results l))).
  assert (Hq : forall t,
             is_closed t && where_clause (user_id_is :: conds) (user_id :: params) t
             = true -> String.eqb (tt_user_id t) user_id = true).
  { intros t H. apply andb_true_iff in H. destruct H as [_ H].
    unfold where_clause in H. simpl in H. apply andb_true_iff in H. apply H. }
  unfold own_trades.
  rewrite (filter_filter_implied _ (fun t => String.eqb (tt_user_id t) user_id)
             (trade_tracker l)) by (intros t _; apply Hq).
  apply flat_map_ext_in. intros t Ht.
  apply filter_In in Ht. destruct Ht as [Ht Hc].
  apply filter_In in Ht. destruct Ht as [Ht Hu]. apply String.eqb_eq in Hu.
  rewrite (@joined_results_own user_id l t Hwf Ht Hu). reflexivity.
Qed.

Lemma recent_closed_trades_own user_id limit l :
  well_formed l ->
  recent_closed_trades user_id limit l
  = sql_limit limit
      (newest_first
         (flat_map
            (fun t =>
               match filter (fun r => (tr_trade_id r =? tt_id t)%Z)
                            (own_results user_id l) with
               | [] => [scan_row t None]
               | rs => map (fun r => scan_row t (Some r)) rs
               end)
            (filter (fun t => is_closed t && String.eqb (tt_user_id t) user_id)
                    (own_trades user_id l)))).
Proof.
  intros Hwf. unfold recent_closed_trades, own_trades. f_equal. f_equal.
  rewrite (filter_filter_implied _ (fun t => String.eqb (tt_user_id t) user_id)
             (trade_tracker l))
    by (intros t _ H; apply andb_true_iff in H; apply H).
  apply flat_map_ext_in. intros t Ht.
  apply filter_In in Ht. destruct Ht as [Ht _].
  apply filter_In in Ht. destruct Ht as [Ht Hu]. apply String.eqb_eq in Hu.
  rewrite (@joined_results_own user_id l t Hwf Ht Hu). reflexivity.
Qed.

Lemma open_trades_of_own user_id l :
  open_trades_of user_id l
  = newest_first
      (map (fun t => scan_row t None)
           (filter (fun t => is_open t && String.eqb (tt_user_id t) user_id)
                   (own_trades user_id l))).
Proof.
  unfold open_trades_of, own_trades. f_equal. f_equal.
  apply filter_filter_implied. intros t _ H. apply andb_true_iff in H. apply H.
Qed.

(** X26. On ledgers the tools produced, the queries that carry the user
    condition read the rows of that user only. For two such ledgers that
    hold the same trades and results of a user, both scans of
    [check_risk_alerts] give the same rows, and the replies of
    [get_trade_insights] agree on the win rate, the losses, the two
    averages, the profit factor and the lot size block. *)
Theorem user_scoped_queries_read_own_rows_only :
  forall user_id l1 l2,
    history empty_ledger l1 ->
    history empty_ledger l2 ->
    same_for user_id l1 l2 ->
    (forall limit,
        recent_closed_trades user_id limit l1 = recent_closed_trades user_id limit l2) /\
    open_trades_of user_id l1 = open_trades_of user_id l2 /\
    (forall flt1 flt2 currency_pair timeframe strategy date_filter r1 r2 l1' l2',
        get_trade_insights flt1 user_id currency_pair timeframe strategy date_filter l1
        = (Returned r1, l1') ->
        get_trade_insights flt2 user_id currency_pair timeframe strategy date_filter l2
        = (Returned r2, l2') ->
        in_win_rate r1 = in_win_rate r2 /\
        in_losses r1 = in_losses r2 /\
        in_average_profit_per_win r1 = in_average_profit_per_win r2 /\
        in_average_loss_per_loss r1 = in_average_loss_per_loss r2 /\
        in_profit_factor r1 = in_profit_factor r2 /\
        in_average_lot_size_wins r1 = in_average_lot_size_wins r2 /\
        in_average_lot_size_losses r1 = in_average_lot_size_losses r2 /\
        in_difference r1 = in_difference r2).
Proof.
  intros user_id l1 l2 H1 H2 [Ht Hr].
  pose proof (history_well_formed H1 well_formed_empty) as Hw1.
  pose proof (history_well_formed H2 well_formed_empty) as Hw2.
  fold (own_trades user_id l1) (own_trades user_id l2) in Ht.
  fold (own_results user_id l1) (own_results user_id l2) in Hr.
  split; [|split].
  - intros limit. rewrite !recent_closed_trades_own by assumption.
    rewrite Ht, Hr. reflexivity.
  - rewrite !open_trades_of_own. rewrite Ht. reflexivity.
  - intros flt1 flt2 cp tf st df r1 r2 l1' l2' E1 E2.
    apply get_trade_insights_summary in E1, E2. cbv zeta in E1, E2.
    destruct E1 as (_ & Hwr1 & Hlo1 & Haw1 & Hal1 & _ & _ & Hlw1 & Hll1 & Hd1 & _ & _ & Hpf1).
    destruct E2 as (_ & Hwr2 & Hlo2 & Haw2 & Hal2 & _ & _ & Hlw2 & Hll2 & Hd2 & _ & _ & Hpf2).
    assert (Hrows : forall conds params,
               closed_rows (user_id_is :: conds) (user_id :: params) l1
               = closed_rows (user_id_is :: conds) (user_id :: params) l2).
    { intros conds params. rewrite !closed_rows_own by assumption.
      rewrite Ht, Hr. reflexivity. }
    assert (Hperf : forall conds params,
               performance (user_id_is :: conds) (user_id :: params) l1
               = performance (user_id_is :: conds) (user_id :: params) l2)
      by (intros; unfold performance; rewrite Hrows; reflexivity).
    assert (Hlots : forall conds params,
               lot_impact (user_id_is :: conds) (user_id :: params) l1
               = lot_impact (user_id_is :: conds) (user_id :: params) l2)
      by (intros; unfold lot_impact; rewrite Hrows; reflexivity).
    rewrite Hperf in Hwr1, Hlo1, Haw1, Hal1, Hpf1. rewrite Hlots in Hlw1, Hll1, Hd1.
    repeat split; congruence.
Qed.

Lemma user_scoped_queries_read_own_rows_only_witness :
  recent_closed_trades "alice" 20 ledger_one_open
  = recent_closed_trades "alice" 20 ledger_alice_and_bob /\
  open_trades_of "alice" ledger_one_open = open_trades_of "alice" ledger_alice_and_bob.
Proof.
  destruct (@user_scoped_queries_read_own_rows_only "alice"%string ledger_one_open
              ledger_alice_and_bob) as (Hrecent & Hopen & _).
  - eapply history_call; [apply history_nil|].
    apply (call_save_trade None 100 "alice" 2000 (Some 2010) (Some 1995) 1 10000 BUY
             "XAU/USD" (Some M5) None None None empty_ledger).
  - eapply history_call.
    + eapply history_call; [apply history_nil|].
      apply (call_save_trade None 100 "alice" 2000 (Some 2010) (Some 1995) 1 10000 BUY
               "XAU/USD" (Some M5) None None None empty_ledger).
    + apply (call_save_trade None 150 "bob" 2000 (Some 2010) (Some 1995) 1 10000 BUY
               "XAU/USD" (Some M5) None None None ledger_one_open).
  - split; reflexivity.
  - split; [apply Hrecent|exact Hopen].
Defined.

(** ** Balances and scans of the risk monitor *)




Lemma StronglySorted_firstn {A} (R : A -> A -> Prop) n l :
  StronglySorted R l -> StronglySorted R (firstn n l).
Proof.
  intros H. revert n. induction H as [|x l Hl IH Hx]; intros [|n]; simpl;
    try constructor.
  - apply IH.
  - apply Forall_firstn. exact Hx.
Qed.

Lemma newest_first_sorted rows :
  StronglySorted (fun a b => (sc_timestamp b <= sc_timestamp a)%Z) (newest_first rows).
Proof.
  unfold newest_first. apply order_by_sorted.
  - intros x y H. apply Z.ltb_lt in H. lia.
  - intros x y H. apply Z.ltb_ge in H. exact H.
  - intros x y z Hxy Hyz. lia.
Qed.

Lemma open_trades_of_in user_id l row :
  In row (open_trades_of user_id l) ->
  exists t, In t (trade_tracker l) /\ tt_user_id t = user_id /\
            tt_status t = OPEN /\ row = scan_row t None.
Proof.
  unfold open_trades_of, newest_first. intros H.
  apply (Permutation_in _ (order_by_perm _ _)) in H.
  apply in_map_iff in H. destruct H as (t & <- & Ht).
  apply filter_In in Ht. destruct Ht as [Ht Hc].
  apply andb_true_iff in Hc. destruct Hc as [Hc Hu].
  exists t. split; [exact Ht|]. split; [apply String.eqb_eq; exact Hu|].
  split; [unfold is_open in Hc; destruct (tt_status t); [reflexivity|discriminate]|].
  reflexivity.
Qed.

(** X28. The two scans of [check_risk_alerts] are newest first and show
    trades of the user only: the recent scan closed ones, at most [limit] of
    them, and the open scan every open one, once, without result columns. *)
Theorem risk_scans_are_newest_first_and_own :
  forall user_id limit l,
    let recent := recent_closed_trades user_id limit l in
    let open := open_trades_of user_id l in
    StronglySorted (fun a b => (sc_timestamp b <= sc_timestamp a)%Z) recent /\
    StronglySorted (fun a b => (sc_timestamp b <= sc_timestamp a)%Z) open /\
    ((0 <= limit)%Z -> (len recent <= limit)%Z) /\
    Forall (fun row =>
              exists t, In t (trade_tracker l) /\ tt_user_id t = user_id /\
                        tt_status t = CLOSED /\ sc_id row = tt_id t) recent /\
    Forall (fun row =>
              exists t, In t (trade_tracker l) /\ tt_user_id t = user_id /\
                        tt_status t = OPEN /\ row = scan_row t None) open /\
    Permutation (map sc_id open)
      (map tt_id (filter (fun t => is_open t && String.eqb (tt_user_id t) user_id)
                         (trade_tracker l))).
Proof.
  intros user_id limit l recent open. subst recent open.
  split; [|split; [|split; [|split; [|split]]]].
  - unfold recent_closed_trades, sql_limit.
    destruct (limit <? 0)%Z; [|apply StronglySorted_firstn]; apply newest_first_sorted.
  - apply newest_first_sorted.
  - intros Hl. unfold recent_closed_trades, sql_limit.
    replace (limit <? 0)%Z with false by (symmetry; apply Z.ltb_ge; exact Hl).
    unfold len. rewrite length_firstn. lia.
  - apply Forall_forall. intros row Hrow.
    apply recent_closed_trades_in in Hrow.
    destruct Hrow as (t & Ht & Hu & Hc & Hid & _). exists t. auto.
  - apply Forall_forall. intros row Hrow. apply open_trades_of_in. exact Hrow.
  - unfold open_trades_of, newest_first.
    rewrite (Permutation_map sc_id (order_by_perm _ _)).
    rewrite map_map. reflexivity.
Qed.
